(** * Code.js of the media-recording web app: model and verified properties

    The script runs on Google Apps Script.  Its functions talk to two ambient
    services, Drive (folders and files) and the active spreadsheet (a settings
    sheet and the history sheet), write to the script log, and signal errors
    by exceptions.  The model below threads one [World] value through a small
    state-and-exception monad; every function of Code.js that the properties
    mention is transcribed statement by statement.

    Strings are held as their UTF-8 bytes, so the Japanese constants of the
    script appear literally. *)

From Stdlib Require Import String Ascii List Bool ZArith Lia Arith.
From Stdlib Require Import DecimalString.
Import ListNotations.
Open Scope string_scope.

Set Implicit Arguments.

(** ** JavaScript strings *)

Module JsString.

#[local] Open Scope nat_scope.

Definition code (c : ascii) : nat := nat_of_ascii c.

(** What follows the prefix [p] in [s], when [s] starts with [p]. *)
Fixpoint stripPrefix (p s : string) : option string :=
  match p, s with
  | EmptyString, _ => Some s
  | String a p', String b s' => if Ascii.eqb a b then stripPrefix p' s' else None
  | String _ _, EmptyString => None
  end.

(** [s.endsWith(p)]. *)
Fixpoint endsWith (s p : string) : bool :=
  String.eqb s p ||
  match s with
  | EmptyString => false
  | String _ s' => endsWith s' p
  end.

(** Case mapping on the letters A-Z and a-z.  The script only compares
    case-mapped text against ASCII words ("mp4", "webm", "jpg", "jpeg",
    "png", ".mp3", "JPEG"), and no character outside ASCII maps to a letter
    of these words, so every test of the script is decided as in
    JavaScript. *)
Definition lowerChar (c : ascii) : ascii :=
  if (65 <=? code c) && (code c <=? 90) then ascii_of_nat (code c + 32) else c.

Definition upperChar (c : ascii) : ascii :=
  if (97 <=? code c) && (code c <=? 122) then ascii_of_nat (code c - 32) else c.

Fixpoint map (f : ascii -> ascii) (s : string) : string :=
  match s with
  | EmptyString => EmptyString
  | String c s' => String (f c) (map f s')
  end.

Definition toLowerCase : string -> string := map lowerChar.
Definition toUpperCase : string -> string := map upperChar.

(** White space in the sense of [String.prototype.trim]: the ASCII controls
    TAB, LF, VT, FF, CR and the space, then (in UTF-8) U+00A0, U+1680,
    U+2000..U+200A, U+2028, U+2029, U+202F, U+205F, U+3000 and U+FEFF.
    [stripWs s] removes one leading white-space character. *)
Definition isAsciiWs (c : ascii) : bool :=
  ((9 <=? code c) && (code c <=? 13)) || (code c =? 32).

Definition isWs2 (a b : ascii) : bool :=
  (code a =? 194) && (code b =? 160).

Definition isWs3 (a b c : ascii) : bool :=
  ((code a =? 225) && (code b =? 154) && (code c =? 128))
  || ((code a =? 226) && (code b =? 128)
      && (((128 <=? code c) && (code c <=? 138))
          || (code c =? 168) || (code c =? 169) || (code c =? 175)))
  || ((code a =? 226) && (code b =? 129) && (code c =? 159))
  || ((code a =? 227) && (code b =? 128) && (code c =? 128))
  || ((code a =? 239) && (code b =? 187) && (code c =? 191)).

Definition stripWs (s : string) : option string :=
  match s with
  | String a r =>
      if isAsciiWs a then Some r
      else match r with
           | String b r2 =>
               if isWs2 a b then Some r2
               else match r2 with
                    | String c r3 => if isWs3 a b c then Some r3 else None
                    | EmptyString => None
                    end
           | EmptyString => None
           end
  | EmptyString => None
  end.

Fixpoint trimStartN (n : nat) (s : string) : string :=
  match n with
  | O => s
  | S n' => match stripWs s with
            | Some r => trimStartN n' r
            | None => s
            end
  end.

Definition trimStart (s : string) : string := trimStartN (String.length s) s.

Fixpoint allWsN (n : nat) (s : string) : bool :=
  match s with
  | EmptyString => true
  | String _ _ =>
      match n with
      | O => false
      | S n' => match stripWs s with
                | Some r => allWsN n' r
                | None => false
                end
      end
  end.

Definition allWs (s : string) : bool := allWsN (String.length s) s.

Fixpoint trimEnd (s : string) : string :=
  match s with
  | EmptyString => EmptyString
  | String c s' => if allWs s then EmptyString else String c (trimEnd s')
  end.

Definition trim (s : string) : string := trimEnd (trimStart s).

(** The bytes of the characters outside ASCII. *)
Definition isHighByte (a : ascii) : bool := 128 <=? code a.

(** Line terminators, the characters that [.] of a regular expression does
    not match: LF, CR, U+2028 and U+2029. *)
Fixpoint hasLineTerminator (s : string) : bool :=
  match s with
  | EmptyString => false
  | String a r =>
      (code a =? 10) || (code a =? 13)
      || match r with
         | String b (String c _) =>
             (code a =? 226) && (code b =? 128)
             && ((code c =? 168) || (code c =? 169))
         | _ => false
         end
      || hasLineTerminator r
  end.

(** Decimal text of an integer, as [String(n)] gives it for the integers a
    double holds exactly. *)
Definition ofZ (z : Z) : string := NilZero.string_of_int (Z.to_int z).

Definition ofNat (n : nat) : string := ofZ (Z.of_nat n).

End JsString.

(** ** JavaScript values and errors *)

(** The arguments a client can send through [google.script.run], and what a
    spreadsheet cell can hold.  Numbers are the integers and NaN: a fraction
    passes every test the script makes on an argument (truthiness, [typeof],
    absence of string methods) exactly as a non-zero integer does.  [JObj] is
    a plain object; an array, which prints as its joined elements, has no
    value here. *)
Inductive JsVal : Type :=
  | JUndefined
  | JNull
  | JBool (b : bool)
  | JNum (z : Z)
  | JNaN
  | JStr (s : string)
  | JObj.

Definition isEmptyStr (s : string) : bool := String.eqb s "".

(** ToBoolean. *)
Definition truthy (v : JsVal) : bool :=
  match v with
  | JUndefined | JNull | JNaN => false
  | JBool b => b
  | JNum z => negb (Z.eqb z 0)
  | JStr s => negb (isEmptyStr s)
  | JObj => true
  end.

(** [typeof v === 'string']. *)
Definition isString (v : JsVal) : bool :=
  match v with JStr _ => true | _ => false end.

(** ToString, as a template literal applies it.  A number is printed in full
    decimal digits, which is what JavaScript prints for the whole numbers up
    to 2^53 in size; beyond that JavaScript rounds the digits and, from 1e21
    on, switches to exponent notation. *)
Definition toStr (v : JsVal) : string :=
  match v with
  | JUndefined => "undefined"
  | JNull => "null"
  | JBool true => "true"
  | JBool false => "false"
  | JNum z => JsString.ofZ z
  | JNaN => "NaN"
  | JStr s => s
  | JObj => "[object Object]"
  end.

(** A default parameter takes over exactly when the argument is [undefined]. *)
Definition orDefault (v d : JsVal) : JsVal :=
  match v with JUndefined => d | _ => v end.

(** [a || b]. *)
Definition jsOr (a b : JsVal) : JsVal := if truthy a then a else b.

Record JsError : Type := mkError { errName : string; errMessage : string }.

Definition newError (msg : string) : JsError := mkError "Error" msg.
Definition typeError (msg : string) : JsError := mkError "TypeError" msg.
Definition serviceError (msg : string) : JsError := mkError "Exception" msg.

(** [error.toString()]. *)
Definition errToString (e : JsError) : string :=
  errName e ++ ": " ++ errMessage e.

(** The double quote, which the script's messages and formulas contain. *)
Definition dq : string := String (ascii_of_nat 34) EmptyString.

(** ** The two data-URL patterns *)

Module Regex.

(** The tail [(.+?);base64,(.+)$] on text free of line terminators, after
    the lazy group has taken at least one character: the group grows one
    character at a time until [;base64,] follows with something after it. *)
Fixpoint lazyMime (s : string) : option (string * string) :=
  let grow :=
    match s with
    | EmptyString => None
    | String c s' =>
        match lazyMime s' with
        | Some (m, d) => Some (String c m, d)
        | None => None
        end
    end in
  match JsString.stripPrefix ";base64," s with
  | Some d => if isEmptyStr d then grow else Some ("", d)
  | None => grow
  end.

(** [s.match(/^data:(.+?);base64,(.+)$/)]: the two captured groups, or
    [None] for [null].  Neither group crosses a line terminator and [$]
    only holds at the end of the text, so a line terminator anywhere after
    [data:] rules a match out. *)
Definition dataUrl (s : string) : option (string * string) :=
  match JsString.stripPrefix "data:" s with
  | Some (String c rest) =>
      if JsString.hasLineTerminator (String c rest) then None
      else match lazyMime rest with
           | Some (m, d) => Some (String c m, d)
           | None => None
           end
  | _ => None
  end.

(** [s.match(/^data:(image\/png);base64,(.+)$/)]. *)
Definition pngDataUrl (s : string) : option (string * string) :=
  match JsString.stripPrefix "data:image/png;base64," s with
  | Some (String c d) =>
      if JsString.hasLineTerminator (String c d) then None
      else Some ("image/png", String c d)
  | _ => None
  end.

End Regex.

(** ** The world the script runs in *)

(** A folder object as the script holds it: the identifier, with the name,
    the URL and the parent it was read with.  [getId], [getName] and [getUrl]
    read these fields. *)
Record Folder : Type := mkFolder {
  folderId : nat;
  folderName : string;
  folderUrl : string;
  folderParent : nat
}.

Record File : Type := mkFile {
  driveFileId : nat;
  driveFileName : string;
  driveFileMime : string;
  driveFileContent : list Byte.byte;
  driveFileParent : nat;
  driveFileUrl : string
}.

Record Blob : Type := mkBlob {
  blobData : list Byte.byte;
  blobContentType : string;
  blobName : string
}.

(** A cell value as [getValue] returns it; the empty cell reads [""]. *)
Inductive Cell : Type :=
  | CStr (s : string)
  | CNum (z : Z)
  | CBool (b : bool)
  | CDate (text : string).

Definition emptyCell : Cell := CStr "".

(** A sheet: its rows of cells, the cells set in bold, and the column widths
    that were set (latest first).  Rows and columns past the ones listed are
    empty; the sheet has room for every cell the script addresses. *)
Record Sheet : Type := mkSheet {
  grid : list (list Cell);
  boldCells : list (nat * nat);
  columnWidths : list (nat * nat)
}.

(** What the platform computes and the script cannot see into: the base64
    decoder ([None]: the text is rejected), the conversion of a non-string
    argument where a service expects a string ([None]: the call is refused),
    and the current time in the script's zone, already formatted
    yyyy/MM/dd HH:mm:ss. *)
Record Platform : Type := mkPlatform {
  base64Decode : string -> option (list Byte.byte);
  coerceToString : JsVal -> option string;
  formattedNow : string
}.

(** Drive (folders other than the root, files, the next free identifier),
    the sheets of the active spreadsheet by name, and the script log.
    [faults] schedules the failures of the services: each call that reads or
    writes Drive or the spreadsheet takes the head of the list and throws
    when it is [true]; an empty list is a backend that never fails. *)
Record World : Type := mkWorld {
  folders : list Folder;
  files : list File;
  nextId : nat;
  sheets : list (string * Sheet);
  logger : list string;
  faults : list bool;
  platform : Platform
}.

(** ** State and exceptions *)

Inductive Outcome (A : Type) : Type :=
  | Normal (a : A)
  | Throw (e : JsError).

Arguments Normal {A} a.
Arguments Throw {A} e.

Definition M (A : Type) : Type := World -> Outcome A * World.

Definition ret {A} (a : A) : M A := fun w => (Normal a, w).

Definition bind {A B} (m : M A) (k : A -> M B) : M B :=
  fun w => match m w with
           | (Normal a, w') => k a w'
           | (Throw e, w') => (Throw e, w')
           end.

Definition throw {A} (e : JsError) : M A := fun w => (Throw e, w).

(** [try { m } catch (error) { h error }]. *)
Definition tryCatch {A} (m : M A) (h : JsError -> M A) : M A :=
  fun w => match m w with
           | (Normal a, w') => (Normal a, w')
           | (Throw e, w') => h e w'
           end.

Definition getWorld : M World := fun w => (Normal w, w).
Definition putWorld (w' : World) : M unit := fun _ => (Normal tt, w').

Declare Scope js_scope.
Delimit Scope js_scope with js.
Notation "x <- m ;; k" := (bind m (fun x => k))
  (at level 61, m at next level, right associativity) : js_scope.
Notation "m ;; k" := (bind m (fun _ => k))
  (at level 61, right associativity) : js_scope.
Open Scope js_scope.

(** A remote call: consumes one entry of the fault schedule. *)
Definition remote (what : string) : M unit :=
  w <- getWorld ;;
  match faults w with
  | [] => ret tt
  | b :: rest =>
      putWorld (mkWorld (folders w) (files w) (nextId w) (sheets w)
                        (logger w) rest (platform w)) ;;
      if b then throw (serviceError what) else ret tt
  end.

(** [Logger.log(line)]. *)
Definition log (line : string) : M unit :=
  w <- getWorld ;;
  putWorld (mkWorld (folders w) (files w) (nextId w) (sheets w)
                    (logger w ++ [line]) (faults w) (platform w)).

(** Calling a string method on an arbitrary value: a [TypeError] unless the
    value is a string. *)
Definition stringMethod (v : JsVal) (method : string) : M string :=
  match v with
  | JStr s => ret s
  | JUndefined | JNull =>
      throw (typeError ("Cannot read properties of " ++ toStr v
                        ++ " (reading '" ++ method ++ "')"))
  | _ => throw (typeError (method ++ " is not a function"))
  end.

(** ** Drive *)

Module DriveApp.

Definition rootFolder : Folder :=
  mkFolder 0 "マイドライブ" "https://drive.google.com/drive/my-drive" 0.

Definition folderUrlOf (id : nat) : string :=
  "https://drive.google.com/drive/folders/" ++ JsString.ofNat id.

Definition fileUrlOf (id : nat) : string :=
  "https://drive.google.com/file/d/" ++ JsString.ofNat id ++ "/view".

Definition withDrive (w : World) (fs : list Folder) (fl : list File) (n : nat)
  : World :=
  mkWorld fs fl n (sheets w) (logger w) (faults w) (platform w).

(** [DriveApp.getRootFolder()]. *)
Definition getRootFolder : M Folder :=
  remote "DriveApp.getRootFolder" ;; ret rootFolder.

(** [DriveApp.getFolderById(id)]. *)
Definition getFolderById (id : nat) : M Folder :=
  remote "DriveApp.getFolderById" ;;
  w <- getWorld ;;
  if Nat.eqb id (folderId rootFolder) then ret rootFolder
  else match find (fun f => Nat.eqb (folderId f) id) (folders w) with
       | Some f => ret f
       | None => throw (serviceError "No item with the given ID could be found")
       end.

Definition isChildNamed (parent : Folder) (name : string) (f : Folder) : bool :=
  Nat.eqb (folderParent f) (folderId parent) && String.eqb (folderName f) name.

(** [parent.getFoldersByName(name)]: the children of that exact name, in the
    order the backend lists them; [hasNext]/[next] read the head of this
    list. *)
Definition getFoldersByName (parent : Folder) (name : string) : M (list Folder) :=
  remote "Folder.getFoldersByName" ;;
  w <- getWorld ;;
  ret (filter (isChildNamed parent name) (folders w)).

(** [parent.createFolder(name)]. *)
Definition createFolder (parent : Folder) (name : string) : M Folder :=
  remote "Folder.createFolder" ;;
  w <- getWorld ;;
  let f := mkFolder (nextId w) name (folderUrlOf (nextId w)) (folderId parent) in
  putWorld (withDrive w (folders w ++ [f]) (files w) (S (nextId w))) ;;
  ret f.

(** [folder.createFile(blob)]. *)
Definition createFile (parent : Folder) (b : Blob) : M File :=
  remote "Folder.createFile" ;;
  w <- getWorld ;;
  let f := mkFile (nextId w) (blobName b) (blobContentType b) (blobData b)
                  (folderId parent) (fileUrlOf (nextId w)) in
  putWorld (withDrive w (folders w) (files w ++ [f]) (S (nextId w))) ;;
  ret f.

(** [folder.createFile(name, content, mimeType)]. *)
Definition createTextFile (parent : Folder) (name content mime : string) : M File :=
  createFile parent (mkBlob (list_byte_of_string content) mime name).

End DriveApp.

(** ** Utilities *)

Module Utilities.

(** [Utilities.base64Decode(text)]. *)
Definition base64Decode (text : string) : M (list Byte.byte) :=
  w <- getWorld ;;
  match base64Decode (platform w) text with
  | Some bytes => ret bytes
  | None => throw (serviceError "Could not decode string.")
  end.

(** [Utilities.newBlob(data, contentType, name)]; the content type may be any
    value the caller passed on. *)
Definition newBlob (data : list Byte.byte) (contentType : JsVal) (name : string)
  : M Blob :=
  match contentType with
  | JStr t => ret (mkBlob data t name)
  | v =>
      w <- getWorld ;;
      match coerceToString (platform w) v with
      | Some t => ret (mkBlob data t name)
      | None =>
          throw (serviceError "The parameters don't match the method signature for Utilities.newBlob.")
      end
  end.

(** [Utilities.formatDate(new Date(), Session.getScriptTimeZone(),
    "yyyy/MM/dd HH:mm:ss")]. *)
Definition formatNow : M string :=
  w <- getWorld ;; ret (formattedNow (platform w)).

End Utilities.

(** ** The spreadsheet *)

Module SpreadsheetApp.

#[local] Open Scope nat_scope.

(** A sheet object is a handle on the sheet of that name. *)
Definition SheetRef : Type := string.

Record Range : Type := mkRange {
  rangeRow : nat; rangeCol : nat; rangeRows : nat; rangeCols : nat
}.

Definition withSheets (w : World) (ss : list (string * Sheet)) : World :=
  mkWorld (folders w) (files w) (nextId w) ss (logger w) (faults w) (platform w).

Definition lookupSheet (name : string) (ss : list (string * Sheet))
  : option Sheet :=
  match find (fun p => String.eqb (fst p) name) ss with
  | Some p => Some (snd p)
  | None => None
  end.

Fixpoint replaceSheet (name : string) (sh : Sheet) (ss : list (string * Sheet))
  : list (string * Sheet) :=
  match ss with
  | [] => []
  | (n, old) :: rest =>
      if String.eqb n name then (n, sh) :: rest
      else (n, old) :: replaceSheet name sh rest
  end.

(** [SpreadsheetApp.openById(SPREADSHEET_ID)]. *)
Definition openById : M unit := remote "SpreadsheetApp.openById".

(** [ss.getSheetByName(name)], [None] standing for [null]. *)
Definition getSheetByName (name : string) : M (option SheetRef) :=
  w <- getWorld ;;
  match lookupSheet name (sheets w) with
  | Some _ => ret (Some name)
  | None => ret None
  end.

Definition readSheet (ref : SheetRef) : M Sheet :=
  w <- getWorld ;;
  match lookupSheet ref (sheets w) with
  | Some sh => ret sh
  | None => throw (serviceError "Sheet not found")
  end.

Definition writeSheet (ref : SheetRef) (sh : Sheet) : M unit :=
  w <- getWorld ;;
  putWorld (withSheets w (replaceSheet ref sh (sheets w))).

(** [ss.insertSheet(name)]. *)
Definition insertSheet (name : string) : M SheetRef :=
  remote "Spreadsheet.insertSheet" ;;
  w <- getWorld ;;
  match lookupSheet name (sheets w) with
  | Some _ => throw (serviceError "A sheet with this name already exists")
  | None =>
      putWorld (withSheets w (sheets w ++ [(name, mkSheet [] [] [])])) ;;
      ret name
  end.

Definition isEmptyCell (c : Cell) : bool :=
  match c with CStr s => isEmptyStr s | _ => false end.

(** One-based position of the last cell with content, 0 when there is none. *)
Fixpoint lastFilled (row : list Cell) : nat :=
  match row with
  | [] => 0
  | c :: rest =>
      match lastFilled rest with
      | 0 => if isEmptyCell c then 0 else 1
      | S k => S (S k)
      end
  end.

(** One-based position of the last row with content. *)
Fixpoint lastRowOf (g : list (list Cell)) : nat :=
  match g with
  | [] => 0
  | row :: rest =>
      match lastRowOf rest with
      | 0 => match lastFilled row with 0 => 0 | S _ => 1 end
      | S k => S (S k)
      end
  end.

Definition lastColumnOf (g : list (list Cell)) : nat :=
  fold_right (fun row acc => Nat.max (lastFilled row) acc) 0 g.

Definition padTo {A} (n : nat) (d : A) (l : list A) : list A :=
  l ++ repeat d (n - length l).

Definition setNth {A} (i : nat) (v : A) (l : list A) : list A :=
  firstn i l ++ v :: skipn (S i) l.

Definition cellAt (g : list (list Cell)) (r c : nat) : Cell :=
  nth (c - 1) (nth (r - 1) g []) emptyCell.

Definition setCell (g : list (list Cell)) (r c : nat) (v : Cell)
  : list (list Cell) :=
  let g' := padTo r [] g in
  let row := padTo c emptyCell (nth (r - 1) g' []) in
  setNth (r - 1) (setNth (c - 1) v row) g'.

(** [sheet.appendRow(values)]: the row lands under the last row with content. *)
Definition appendRow (ref : SheetRef) (values : list Cell) : M unit :=
  remote "Sheet.appendRow" ;;
  sh <- readSheet ref ;;
  writeSheet ref (mkSheet (firstn (lastRowOf (grid sh)) (grid sh) ++ [values])
                          (boldCells sh) (columnWidths sh)).

(** [sheet.getLastColumn()]. *)
Definition getLastColumn (ref : SheetRef) : M nat :=
  remote "Sheet.getLastColumn" ;;
  sh <- readSheet ref ;;
  ret (lastColumnOf (grid sh)).

(** [sheet.getRange(row, column, numRows, numColumns)]: coordinates start at
    1 and a range has at least one row and one column. *)
Definition getRange (row col numRows numCols : nat) : M Range :=
  if (row =? 0) || (col =? 0) || (numRows =? 0) || (numCols =? 0)
  then throw (serviceError "The coordinates or dimensions of the range are invalid.")
  else ret (mkRange row col numRows numCols).

Definition rangeCells (r : Range) : list (nat * nat) :=
  flat_map (fun i => List.map (fun j => (rangeRow r + i, rangeCol r + j))
                              (seq 0 (rangeCols r)))
           (seq 0 (rangeRows r)).

(** [range.getValues()]. *)
Definition getValues (ref : SheetRef) (r : Range) : M (list (list Cell)) :=
  remote "Range.getValues" ;;
  sh <- readSheet ref ;;
  ret (List.map (fun i => List.map (fun j => cellAt (grid sh) (rangeRow r + i) (rangeCol r + j))
                                   (seq 0 (rangeCols r)))
                (seq 0 (rangeRows r))).

(** [range.getValue()]: the top-left cell. *)
Definition getValue (ref : SheetRef) (r : Range) : M Cell :=
  remote "Range.getValue" ;;
  sh <- readSheet ref ;;
  ret (cellAt (grid sh) (rangeRow r) (rangeCol r)).

(** [range.setValue(v)]. *)
Definition setValue (ref : SheetRef) (r : Range) (v : Cell) : M unit :=
  remote "Range.setValue" ;;
  sh <- readSheet ref ;;
  writeSheet ref
    (mkSheet (fold_left (fun g rc => setCell g (fst rc) (snd rc) v) (rangeCells r) (grid sh))
             (boldCells sh) (columnWidths sh)).

(** [range.setFontWeight("bold")]. *)
Definition setFontWeightBold (ref : SheetRef) (r : Range) : M unit :=
  remote "Range.setFontWeight" ;;
  sh <- readSheet ref ;;
  writeSheet ref (mkSheet (grid sh) (boldCells sh ++ rangeCells r) (columnWidths sh)).

(** [sheet.setColumnWidth(column, width)]. *)
Definition setColumnWidth (ref : SheetRef) (col width : nat) : M unit :=
  remote "Sheet.setColumnWidth" ;;
  sh <- readSheet ref ;;
  writeSheet ref (mkSheet (grid sh) (boldCells sh) ((col, width) :: columnWidths sh)).

(** The A1 notations the script uses: B1, E1 and E1:E5. *)
Definition a1 (notation : string) : M Range :=
  if String.eqb notation "B1" then getRange 1 2 1 1
  else if String.eqb notation "E1" then getRange 1 5 1 1
  else if String.eqb notation "E1:E5" then getRange 1 5 5 1
  else throw (serviceError "Range not found").

(** [cell.toString()]; a numeric cell is printed as [toStr] prints a
    number, with the same limit. *)
Definition cellToString (c : Cell) : string :=
  match c with
  | CStr s => s
  | CNum z => JsString.ofZ z
  | CBool true => "true"
  | CBool false => "false"
  | CDate text => text
  end.

(** [row.includes(text)]: strict equality with a string. *)
Definition includes (row : list Cell) (text : string) : bool :=
  existsb (fun c => match c with CStr s => String.eqb s text | _ => false end) row.

End SpreadsheetApp.

(** ** Code.js *)

Import SpreadsheetApp.

Definition PARENT_FOLDER_NAME : string := "メディア保存フォルダ".
Definition SUBFOLDER_SHEET_NAME : string := "シート1".
Definition SUBFOLDER_CELL : string := "B1".
Definition HISTORY_SHEET_NAME : string := "履歴".
Definition HISTORY_HEADERS : list string :=
  ["ファイル名"; "保存日時"; "フォルダパス"; "ファイルリンク"; "ファイル形式"; "メディアタイプ"].

(** [getOrCreateFolderIdByName(folderName, parentFolder = DriveApp.getRootFolder())];
    [None] is the omitted second argument. *)
Definition getOrCreateFolderIdByName (folderName : JsVal)
    (parentFolder : option Folder) : M nat :=
  parentFolder <- match parentFolder with
                  | Some p => ret p
                  | None => DriveApp.getRootFolder
                  end ;;
  if negb (truthy folderName) || negb (isString folderName)
     || isEmptyStr (JsString.trim (toStr folderName))
  then throw (newError "有効なフォルダ名が指定されていません。")
  else
    let name := toStr folderName in
    found <- DriveApp.getFoldersByName parentFolder name ;;
    match found with
    | first :: _ => ret (folderId first)
    | [] =>
        tryCatch
          (newFolder <- DriveApp.createFolder parentFolder name ;;
           log ("フォルダ " ++ dq ++ name ++ dq ++ " (ID: "
                ++ JsString.ofNat (folderId newFolder) ++ ") を作成しました。") ;;
           ret (folderId newFolder))
          (fun error =>
             log ("フォルダ " ++ dq ++ name ++ dq ++ " の作成に失敗しました: "
                  ++ errToString error) ;;
             throw (newError ("フォルダ " ++ dq ++ name ++ dq ++ " の作成に失敗しました。")))
    end.

(** The [replace] of [getSubFolderNameFromSheet]: each of the nine characters
    backslash, slash, colon, asterisk, question mark, double quote, less-than,
    greater-than and vertical bar becomes an underscore. *)
Definition isUnsafeChar (c : ascii) : bool :=
  existsb (Nat.eqb (nat_of_ascii c)) [92; 47; 58; 42; 63; 34; 60; 62; 124]%nat.

Definition sanitizeChar (c : ascii) : ascii :=
  if isUnsafeChar c then "_"%char else c.

Definition sanitize (text : string) : string := JsString.map sanitizeChar text.

(** [getSubFolderNameFromSheet()], [None] standing for [null]. *)
Definition getSubFolderNameFromSheet : M (option string) :=
  tryCatch
    (SpreadsheetApp.openById ;;
     sheet <- getSheetByName SUBFOLDER_SHEET_NAME ;;
     match sheet with
     | None =>
         log ("シート " ++ dq ++ SUBFOLDER_SHEET_NAME ++ dq ++ " が見つかりません。") ;;
         ret None
     | Some sheet =>
         range <- a1 SUBFOLDER_CELL ;;
         value <- getValue sheet range ;;
         let subFolderName := JsString.trim (cellToString value) in
         if isEmptyStr subFolderName
         then
           log ("セル " ++ dq ++ SUBFOLDER_CELL ++ dq
                ++ " にサブフォルダ名が入力されていません。") ;;
           ret None
         else ret (Some (sanitize subFolderName))
     end)
    (fun e =>
       log ("スプレッドシートからのサブフォルダ名取得エラー: " ++ errToString e) ;;
       ret None).

(** The three statements that both migration branches of
    [createHistorySheetIfNotExists] repeat (lines 102-104 and 110-112): the
    title into row 1 of column [newCol], in bold, the column 100 wide. *)
Definition addHeaderColumn (sheet : SheetRef) (newCol : nat) (title : string)
  : M unit :=
  (range <- getRange 1 newCol 1 1 ;; setValue sheet range (CStr title)) ;;
  (range <- getRange 1 newCol 1 1 ;; setFontWeightBold sheet range) ;;
  setColumnWidth sheet newCol 100.

(** [createHistorySheetIfNotExists()]. *)
Definition createHistorySheetIfNotExists : M SheetRef :=
  SpreadsheetApp.openById ;;
  sheet <- getSheetByName HISTORY_SHEET_NAME ;;
  match sheet with
  | None =>
      sheet <- insertSheet HISTORY_SHEET_NAME ;;
      appendRow sheet (List.map CStr HISTORY_HEADERS) ;;
      (range <- getRange 1 1 1 (List.length HISTORY_HEADERS) ;;
       setFontWeightBold sheet range) ;;
      setColumnWidth sheet 1 250 ;;
      setColumnWidth sheet 2 150 ;;
      setColumnWidth sheet 3 250 ;;
      setColumnWidth sheet 4 300 ;;
      setColumnWidth sheet 5 100 ;;
      setColumnWidth sheet 6 100 ;;
      log ("履歴シート " ++ dq ++ HISTORY_SHEET_NAME ++ dq ++ " を作成しました。") ;;
      ret sheet
  | Some sheet =>
      lastColumn <- getLastColumn sheet ;;
      range <- getRange 1 1 1 lastColumn ;;
      values <- getValues sheet range ;;
      let headers := nth 0 values [] in
      (if negb (includes headers "メディアタイプ")
       then addHeaderColumn sheet (List.length headers + 1) "メディアタイプ"
       else ret tt) ;;
      (if negb (includes headers "ファイル形式")
       then
         let newCol := if includes headers "メディアタイプ"
                       then List.length headers
                       else List.length headers + 1 in
         addHeaderColumn sheet newCol "ファイル形式"
       else ret tt) ;;
      ret sheet
  end.

(** The [try] block of [addRecordToHistorySheet(fileName, folderPathText,
    folderUrl, fileUrl, fileFormat, mediaType)].  Every caller passes
    strings, except that [saveVideoFile] hands on its [extension] parameter
    as [fileFormat]. *)
Definition addRecordToHistorySheetTry (fileName folderPathText folderUrl fileUrl : string)
    (fileFormat : JsVal) (mediaType : string) : M unit :=
  sheet <- createHistorySheetIfNotExists ;;
  formattedTimestamp <- Utilities.formatNow ;;
  let folderLinkFormula :=
    "=HYPERLINK(" ++ dq ++ folderUrl ++ dq ++ "," ++ dq ++ folderPathText ++ dq ++ ")" in
  let fileLinkFormula :=
    "=HYPERLINK(" ++ dq ++ fileUrl ++ dq ++ "," ++ dq ++ fileName ++ dq ++ ")" in
  format <- stringMethod fileFormat "fileFormat.toUpperCase" ;;
  appendRow sheet [CStr fileName; CStr formattedTimestamp; CStr folderLinkFormula;
                   CStr fileLinkFormula; CStr (JsString.toUpperCase format);
                   CStr mediaType] ;;
  log ("履歴を記録しました: " ++ fileName ++ ", " ++ mediaType ++ ", "
       ++ toStr fileFormat).

(** [addRecordToHistorySheet]: the [try] block and its [catch]. *)
Definition addRecordToHistorySheet (fileName folderPathText folderUrl fileUrl : string)
    (fileFormat : JsVal) (mediaType : string) : M unit :=
  tryCatch
    (addRecordToHistorySheetTry fileName folderPathText folderUrl fileUrl
                                fileFormat mediaType)
    (fun e => log ("履歴シートへの記録エラー: " ++ errToString e)).

(** What a save handler returns to the client; the audio handler alone fills
    the last three fields. *)
Record SaveResult : Type := mkResult {
  success : bool;
  message : string;
  fileId : option nat;
  fileName : option string;
  fileUrl : option string
}.

Definition failure (msg : string) : SaveResult := mkResult false msg None None None.

(** The folder resolution that all five handlers repeat word for word
    (lines 159-177, 232-249, 293-310, 349-366, 407-424): the target folder,
    its display path and its URL.  [if (subFolderNameRaw)] holds for a
    string that is not empty.  Only [saveAudioFile] logs the fall-back to
    the parent folder. *)
Definition resolveTargetFolder (logFallback : bool) : M (Folder * string * string) :=
  parentFolderId <- getOrCreateFolderIdByName (JStr PARENT_FOLDER_NAME) None ;;
  parentFolder <- DriveApp.getFolderById parentFolderId ;;
  subFolderNameRaw <- getSubFolderNameFromSheet ;;
  match subFolderNameRaw with
  | Some sub =>
      if negb (isEmptyStr sub)
      then
        subFolderId <- getOrCreateFolderIdByName (JStr sub) (Some parentFolder) ;;
        targetFolder <- DriveApp.getFolderById subFolderId ;;
        ret (targetFolder,
             folderName parentFolder ++ " > " ++ folderName targetFolder,
             folderUrl targetFolder)
      else
        (if logFallback
         then log "サブフォルダ名が取得できなかったため、親フォルダに保存します。"
         else ret tt) ;;
        ret (parentFolder, folderName parentFolder, folderUrl parentFolder)
  | None =>
      (if logFallback
       then log "サブフォルダ名が取得できなかったため、親フォルダに保存します。"
       else ret tt) ;;
      ret (parentFolder, folderName parentFolder, folderUrl parentFolder)
  end.

(** [value.match(pattern)]. *)
Definition jsMatch (value : JsVal) (pattern : string -> option (string * string))
  : M (option (string * string)) :=
  text <- stringMethod value "match" ;; ret (pattern text).

Definition inList (x : string) (l : list string) : bool :=
  existsb (String.eqb x) l.

(** [saveAudioFile(audioDataUrl, baseFileName)].  A match always has its
    three entries, so the test [parts.length !== 3] adds nothing to
    [!parts]. *)
Definition saveAudioFile (audioDataUrl baseFileName : JsVal) : M SaveResult :=
  tryCatch
    ((if negb (truthy audioDataUrl) || negb (isString audioDataUrl)
      then throw (newError "音声データ (Data URL) が無効です。") else ret tt) ;;
     (if negb (truthy baseFileName) || negb (isString baseFileName)
         || isEmptyStr (JsString.trim (toStr baseFileName))
      then throw (newError "ファイル名が無効です。") else ret tt) ;;
     target <- resolveTargetFolder true ;;
     let '(targetFolder, folderPathText, targetFolderUrl) := target in
     parts <- jsMatch audioDataUrl Regex.dataUrl ;;
     match parts with
     | None => throw (newError "無効なData URL形式です。")
     | Some (mimeType, base64Data) =>
         lower <- stringMethod baseFileName "baseFileName.toLowerCase" ;;
         let finalFileName :=
           if JsString.endsWith (JsString.toLowerCase lower) ".mp3"
           then toStr baseFileName
           else toStr baseFileName ++ ".mp3" in
         decodedData <- Utilities.base64Decode base64Data ;;
         blob <- Utilities.newBlob decodedData (JStr mimeType) finalFileName ;;
         file <- DriveApp.createFile targetFolder blob ;;
         let fileUrl := driveFileUrl file in
         addRecordToHistorySheet finalFileName folderPathText targetFolderUrl
                                 fileUrl (JStr "MP3") "音声" ;;
         log ("音声ファイル " ++ dq ++ finalFileName ++ dq ++ " を保存しました。") ;;
         ret (mkResult true
                ("音声ファイル " ++ dq ++ finalFileName ++ dq ++ " をフォルダ「"
                 ++ folderPathText ++ "」に保存しました。")
                (Some (driveFileId file)) (Some finalFileName) (Some fileUrl))
     end)
    (fun error =>
       log ("saveAudioFileでエラーが発生しました: " ++ errToString error) ;;
       ret (failure "音声ファイルの保存中にエラーが発生しました。")).

(** [saveVideoFile(videoDataUrl, baseFileName, extension = 'webm',
    mimeType = 'video/webm')]. *)
Definition saveVideoFile (videoDataUrl baseFileName extension mimeType : JsVal)
  : M SaveResult :=
  let extension := orDefault extension (JStr "webm") in
  let mimeType := orDefault mimeType (JStr "video/webm") in
  tryCatch
    ((if negb (truthy videoDataUrl) || negb (truthy baseFileName)
      then throw (newError "動画データまたはファイル名が無効です。") else ret tt) ;;
     let validExtensions := ["mp4"; "webm"] in
     given <- stringMethod extension "extension.toLowerCase" ;;
     let extension :=
       if negb (inList (JsString.toLowerCase given) validExtensions)
       then JStr "webm" else extension in
     target <- resolveTargetFolder false ;;
     let '(targetFolder, folderPathText, targetFolderUrl) := target in
     parts <- jsMatch videoDataUrl Regex.dataUrl ;;
     match parts with
     | None => throw (newError "無効なData URL形式です。")
     | Some (detectedMimeType, base64Data) =>
         ext <- stringMethod extension "extension.toLowerCase" ;;
         let finalFileName := toStr baseFileName ++ "." ++ JsString.toLowerCase ext in
         decodedData <- Utilities.base64Decode base64Data ;;
         blob <- Utilities.newBlob decodedData (jsOr mimeType (JStr detectedMimeType))
                                   finalFileName ;;
         file <- DriveApp.createFile targetFolder blob ;;
         addRecordToHistorySheet finalFileName folderPathText targetFolderUrl
                                 (driveFileUrl file) extension "動画" ;;
         upper <- stringMethod extension "extension.toUpperCase" ;;
         ret (mkResult true
                ("動画ファイル " ++ dq ++ finalFileName ++ dq ++ " ("
                 ++ JsString.toUpperCase upper ++ "形式) をフォルダ「"
                 ++ folderPathText ++ "」に保存しました。")
                None None None)
     end)
    (fun error =>
       log ("saveVideoFileでエラーが発生しました: " ++ errToString error) ;;
       ret (failure "動画ファイルの保存中にエラーが発生しました。")).

(** [savePhotoFile(photoDataUrl, baseFileName, extension = 'jpg')]. *)
Definition savePhotoFile (photoDataUrl baseFileName extension : JsVal)
  : M SaveResult :=
  let extension := orDefault extension (JStr "jpg") in
  tryCatch
    ((if negb (truthy photoDataUrl) || negb (truthy baseFileName)
      then throw (newError "写真データまたはファイル名が無効です。") else ret tt) ;;
     let validExtensions := ["jpg"; "jpeg"; "png"] in
     given <- stringMethod extension "extension.toLowerCase" ;;
     let extension :=
       if negb (inList (JsString.toLowerCase given) validExtensions)
       then JStr "jpg" else extension in
     target <- resolveTargetFolder false ;;
     let '(targetFolder, folderPathText, targetFolderUrl) := target in
     parts <- jsMatch photoDataUrl Regex.dataUrl ;;
     match parts with
     | None => throw (newError "無効なData URL形式です。")
     | Some (detectedMimeType, base64Data) =>
         ext <- stringMethod extension "extension.toLowerCase" ;;
         let finalFileName := toStr baseFileName ++ "." ++ JsString.toLowerCase ext in
         decodedData <- Utilities.base64Decode base64Data ;;
         blob <- Utilities.newBlob decodedData (JStr detectedMimeType) finalFileName ;;
         file <- DriveApp.createFile targetFolder blob ;;
         upper <- stringMethod extension "extension.toUpperCase" ;;
         let formatDisplay :=
           if String.eqb (JsString.toUpperCase upper) "JPEG"
           then "JPG" else JsString.toUpperCase upper in
         addRecordToHistorySheet finalFileName folderPathText targetFolderUrl
                                 (driveFileUrl file) (JStr formatDisplay) "写真" ;;
         ret (mkResult true
                ("写真ファイル " ++ dq ++ finalFileName ++ dq ++ " ("
                 ++ formatDisplay ++ "形式) をフォルダ「"
                 ++ folderPathText ++ "」に保存しました。")
                None None None)
     end)
    (fun error =>
       log ("savePhotoFileでエラーが発生しました: " ++ errToString error) ;;
       ret (failure "写真ファイルの保存中にエラーが発生しました。")).

(** [saveDrawingFile(drawingDataUrl, baseFileName)]. *)
Definition saveDrawingFile (drawingDataUrl baseFileName : JsVal) : M SaveResult :=
  tryCatch
    ((if negb (truthy drawingDataUrl) || negb (truthy baseFileName)
      then throw (newError "お絵かきデータまたはファイル名が無効です。") else ret tt) ;;
     target <- resolveTargetFolder false ;;
     let '(targetFolder, folderPathText, targetFolderUrl) := target in
     parts <- jsMatch drawingDataUrl Regex.pngDataUrl ;;
     match parts with
     | None => throw (newError "無効なData URL形式です。PNG形式である必要があります。")
     | Some (mimeType, base64Data) =>
         let finalFileName := toStr baseFileName ++ ".png" in
         decodedData <- Utilities.base64Decode base64Data ;;
         blob <- Utilities.newBlob decodedData (JStr mimeType) finalFileName ;;
         file <- DriveApp.createFile targetFolder blob ;;
         addRecordToHistorySheet finalFileName folderPathText targetFolderUrl
                                 (driveFileUrl file) (JStr "PNG") "お絵かき" ;;
         ret (mkResult true
                ("お絵かきファイル " ++ dq ++ finalFileName ++ dq
                 ++ " (PNG形式) をフォルダ「" ++ folderPathText ++ "」に保存しました。")
                None None None)
     end)
    (fun error =>
       log ("saveDrawingFileでエラーが発生しました: " ++ errToString error) ;;
       ret (failure "お絵かきファイルの保存中にエラーが発生しました。")).

(** [saveTextFile(textData, baseFileName)]. *)
Definition saveTextFile (textData baseFileName : JsVal) : M SaveResult :=
  tryCatch
    ((if negb (truthy textData) || negb (isString textData)
      then throw (newError "テキストデータが無効です。") else ret tt) ;;
     (if negb (truthy baseFileName) || negb (isString baseFileName)
         || isEmptyStr (JsString.trim (toStr baseFileName))
      then throw (newError "ファイル名が無効です。") else ret tt) ;;
     target <- resolveTargetFolder false ;;
     let '(targetFolder, folderPathText, targetFolderUrl) := target in
     let finalFileName := toStr baseFileName ++ ".txt" in
     file <- DriveApp.createTextFile targetFolder finalFileName (toStr textData)
                                     "text/plain" ;;
     let fileUrl := driveFileUrl file in
     addRecordToHistorySheet finalFileName folderPathText targetFolderUrl
                             fileUrl (JStr "TXT") "テキスト" ;;
     ret (mkResult true
            ("テキストファイル " ++ dq ++ finalFileName ++ dq ++ " をフォルダ「"
             ++ folderPathText ++ "」に保存しました。")
            None None None))
    (fun error =>
       log ("saveTextFileでエラーが発生しました: " ++ errToString error) ;;
       ret (failure "テキストファイルの保存中にエラーが発生しました。")).

(** What [getModeSettings] returns: the five visibility flags and, on the
    fail-open paths, an [error] annotation. *)
Record ModeSettings : Type := mkModes {
  audio : bool;
  video : bool;
  photo : bool;
  drawing : bool;
  text : bool;
  error : option string
}.

Section ModeSettingsReader.

(** ToNumber on a string, as far as [==] against an integer needs it: the
    integer the text denotes, [None] when it denotes NaN or a fraction. *)
Variable StringToNumber : string -> option Z.

(** [cell == n] for an integer [n]: numbers compare by value, booleans
    count as 1 and 0, strings go through ToNumber, and a date converts to a
    text that is no number. *)
Definition looseEqNumber (cell : Cell) (n : Z) : bool :=
  match cell with
  | CNum z => Z.eqb z n
  | CBool b => Z.eqb (if b then 1 else 0) n
  | CStr s => match StringToNumber s with
              | Some z => Z.eqb z n
              | None => false
              end
  | CDate _ => false
  end.

(** [values[i] == 1]; an index past the end reads [undefined]. *)
Definition flagAt (values : list Cell) (i : nat) : bool :=
  match nth_error values i with
  | Some cell => looseEqNumber cell 1
  | None => false
  end.

Definition allVisible (err : string) : ModeSettings :=
  mkModes true true true true true (Some err).

(** The [try] block of [getModeSettings()]. *)
Definition getModeSettingsTry : M ModeSettings :=
  SpreadsheetApp.openById ;;
  sheet <- getSheetByName SUBFOLDER_SHEET_NAME ;;
  match sheet with
  | None =>
      ret (allVisible ("Sheet " ++ dq ++ SUBFOLDER_SHEET_NAME ++ dq ++ " not found."))
  | Some sheet =>
      range <- a1 "E1:E5" ;;
      rows <- getValues sheet range ;;
      let values := concat rows in
      let audioVisible := flagAt values 0 in
      let videoVisible := flagAt values 1 in
      let photoVisible := flagAt values 2 in
      let drawingVisible := flagAt values 3 in
      let textVisible := flagAt values 4 in
      if negb audioVisible && negb videoVisible && negb photoVisible
         && negb drawingVisible && negb textVisible
      then
        (range <- a1 "E1" ;; setValue sheet range (CNum 1)) ;;
        ret (mkModes true videoVisible photoVisible drawingVisible textVisible None)
      else
        ret (mkModes audioVisible videoVisible photoVisible drawingVisible
                     textVisible None)
  end.

(** [getModeSettings()]: the [try] block and its [catch]. *)
Definition getModeSettings : M ModeSettings :=
  tryCatch getModeSettingsTry
    (fun e =>
       log ("getModeSettings error: " ++ errToString e) ;;
       ret (allVisible (errToString e))).

End ModeSettingsReader.

(** The page [HtmlService] builds: the project file it is made from, its
    title and its meta tags. *)
Record HtmlOutput : Type := mkHtml {
  htmlFile : string;
  htmlTitle : string;
  htmlMetaTags : list (string * string)
}.

Module HtmlService.

Definition createHtmlOutputFromFile (file : string) : HtmlOutput :=
  mkHtml file "" [].

Definition setTitle (page : HtmlOutput) (title : string) : HtmlOutput :=
  mkHtml (htmlFile page) title (htmlMetaTags page).

Definition addMetaTag (page : HtmlOutput) (name content : string) : HtmlOutput :=
  mkHtml (htmlFile page) (htmlTitle page) (htmlMetaTags page ++ [(name, content)]).

End HtmlService.

(** [doGet(e)], the entry point of the web app; the request is not read. *)
Definition doGet (e : JsVal) : M HtmlOutput :=
  createHistorySheetIfNotExists ;;
  ret (HtmlService.addMetaTag
         (HtmlService.setTitle (HtmlService.createHtmlOutputFromFile "app")
                               "スーパー記録くん - メディア記録アプリ")
         "viewport" "width=device-width, initial-scale=1").

(** [test_UnifiedMediaApp()]. *)
Definition test_UnifiedMediaApp : M unit :=
  tryCatch
    (createHistorySheetIfNotExists ;;
     log "履歴シートの確認/作成完了" ;;
     parentFolderId <- getOrCreateFolderIdByName (JStr PARENT_FOLDER_NAME) None ;;
     parentFolder <- DriveApp.getFolderById parentFolderId ;;
     log ("親フォルダ: " ++ dq ++ folderName parentFolder ++ dq ++ " URL: "
          ++ folderUrl parentFolder) ;;
     subFolderName <- getSubFolderNameFromSheet ;;
     (match subFolderName with
      | Some sub =>
          if negb (isEmptyStr sub)
          then log ("サブフォルダ名: " ++ dq ++ sub ++ dq)
          else log "サブフォルダ名が設定されていません"
      | None => log "サブフォルダ名が設定されていません"
      end) ;;
     let testAudioFile := "test_audio.mp3" in
     let testVideoFile := "test_video.mp4" in
     let dummyUrl := "https://drive.google.com/file/d/dummy/view" in
     addRecordToHistorySheet testAudioFile PARENT_FOLDER_NAME (folderUrl parentFolder)
                             dummyUrl (JStr "MP3") "音声" ;;
     addRecordToHistorySheet testVideoFile PARENT_FOLDER_NAME (folderUrl parentFolder)
                             dummyUrl (JStr "MP4") "動画" ;;
     log "テスト完了。履歴シートを確認してください。")
    (fun e => log ("テストエラー: " ++ errToString e)).

(** ** A concrete platform and concrete worlds *)

Module Sample.

(** The standard base64 alphabet with [=] padding. *)
Definition sextet (c : ascii) : option N :=
  let n := N_of_ascii c in
  if (65 <=? n)%N && (n <=? 90)%N then Some (n - 65)%N
  else if (97 <=? n)%N && (n <=? 122)%N then Some (n - 71)%N
  else if (48 <=? n)%N && (n <=? 57)%N then Some (n + 4)%N
  else if (n =? 43)%N then Some 62%N
  else if (n =? 47)%N then Some 63%N
  else None.

Definition byteOf (n : N) : Byte.byte :=
  match Byte.of_N (n mod 256) with Some b => b | None => Byte.x00 end.

Fixpoint decodeQuads (s : string) : option (list Byte.byte) :=
  match s with
  | EmptyString => Some []
  | String a (String b (String c (String d rest))) =>
      match sextet a, sextet b with
      | Some x, Some y =>
          let b1 := byteOf (x * 4 + y / 16) in
          match sextet c, sextet d with
          | Some z, Some u =>
              match decodeQuads rest with
              | Some more =>
                  Some (b1 :: byteOf (y * 16 + z / 4) :: byteOf (z * 64 + u) :: more)
              | None => None
              end
          | Some z, None =>
              if Ascii.eqb d "="%char && isEmptyStr rest
              then Some [b1; byteOf (y * 16 + z / 4)] else None
          | None, _ =>
              if Ascii.eqb c "="%char && Ascii.eqb d "="%char && isEmptyStr rest
              then Some [b1] else None
          end
      | _, _ => None
      end
  | _ => None
  end.

(** ToNumber on a text, read exactly: white space around the numeral is
    dropped, the empty text is 0, a numeral is hexadecimal, octal or binary
    after [0x], [0o] or [0b], and otherwise decimal with an optional sign,
    fraction and exponent.  The result is the whole number the numeral
    denotes, [None] when the text is no numeral, is [Infinity], or denotes a
    fraction; the rounding of a long fraction to the nearest double is not
    followed. *)
Definition digitOf (base : Z) (c : ascii) : option Z :=
  let n := Z.of_N (N_of_ascii c) in
  let v := if (48 <=? n)%Z && (n <=? 57)%Z then Some (n - 48)%Z
           else if (97 <=? n)%Z && (n <=? 102)%Z then Some (n - 87)%Z
           else if (65 <=? n)%Z && (n <=? 70)%Z then Some (n - 55)%Z
           else None in
  match v with
  | Some d => if (d <? base)%Z then Some d else None
  | None => None
  end.

(** The digits at the head of [s]: their value behind [acc], how many there
    are, and the rest of the text. *)
Fixpoint takeDigits (base acc : Z) (count : nat) (s : string) : Z * nat * string :=
  match s with
  | String c s' =>
      match digitOf base c with
      | Some d => takeDigits base (acc * base + d) (S count) s'
      | None => (acc, count, s)
      end
  | EmptyString => (acc, count, s)
  end.

Definition wholeNumber (base : Z) (s : string) : option Z :=
  match takeDigits base 0 0 s with
  | (v, S _, EmptyString) => Some v
  | _ => None
  end.

Definition signed (s : string) : Z * string :=
  match s with
  | String "+" r => (1%Z, r)
  | String "-" r => ((-1)%Z, r)
  | _ => (1%Z, s)
  end.

Definition exponentOf (s : string) : option Z :=
  match s with
  | EmptyString => Some 0%Z
  | String c r =>
      if Ascii.eqb c "e" || Ascii.eqb c "E"
      then let (sg, r') := signed r in
           match wholeNumber 10 r' with
           | Some e => Some (sg * e)%Z
           | None => None
           end
      else None
  end.

Definition decimalValue (s : string) : option Z :=
  let (sg, s1) := signed s in
  let '(ip, n1, s2) := takeDigits 10 0 0 s1 in
  let '(mant, n2, s3) :=
    match s2 with
    | String "." r => takeDigits 10 ip 0 r
    | _ => (ip, 0%nat, s2)
    end in
  if Nat.eqb (n1 + n2) 0 then None
  else match exponentOf s3 with
       | Some e =>
           let shift := (e - Z.of_nat n2)%Z in
           if (0 <=? shift)%Z then Some (sg * mant * 10 ^ shift)%Z
           else if (mant mod 10 ^ (- shift) =? 0)%Z
                then Some (sg * (mant / 10 ^ (- shift)))%Z
                else None
       | None => None
       end.

Definition stringToNumber (s : string) : option Z :=
  let t := JsString.trim s in
  match t with
  | EmptyString => Some 0%Z
  | String "0" (String c r) =>
      if Ascii.eqb c "x" || Ascii.eqb c "X" then wholeNumber 16 r
      else if Ascii.eqb c "o" || Ascii.eqb c "O" then wholeNumber 8 r
      else if Ascii.eqb c "b" || Ascii.eqb c "B" then wholeNumber 2 r
      else decimalValue t
  | _ => decimalValue t
  end.

Definition stdPlatform : Platform :=
  mkPlatform decodeQuads (fun v => Some (toStr v)) "2024/04/01 09:30:00".

Definition settingsSheet (b1 : string) (flags : list Cell) : Sheet :=
  mkSheet (List.map (fun i => match i with
                              | O => [emptyCell; CStr b1; emptyCell; emptyCell; nth 0 flags emptyCell]
                              | _ => [emptyCell; emptyCell; emptyCell; emptyCell; nth i flags emptyCell]
                              end)
                    (seq 0 5))
          [] [].

(** A fresh deployment: an empty Drive, the settings sheet with the class
    name in B1 and the audio mode switched on, no history sheet yet. *)
Definition fresh (b1 : string) : World :=
  mkWorld [] [] 1
          [(SUBFOLDER_SHEET_NAME, settingsSheet b1 [CNum 1; CNum 0; CNum 0; CNum 0; CNum 0])]
          [] [] stdPlatform.

Definition withHistory (w : World) (header : list string) : World :=
  SpreadsheetApp.withSheets w
    (sheets w ++ [(HISTORY_SHEET_NAME, mkSheet [List.map CStr header] [] [])]).

(** A Drive in which somebody made a folder whose name is one space. *)
Definition withBlankFolder : World :=
  mkWorld [mkFolder 1 " " (DriveApp.folderUrlOf 1) 0] [] 2
          [(SUBFOLDER_SHEET_NAME, settingsSheet "" [CNum 1])] [] [] stdPlatform.

(** A Drive that already holds the parent folder of the app. *)
Definition withParentFolder : World :=
  mkWorld [mkFolder 1 PARENT_FOLDER_NAME (DriveApp.folderUrlOf 1) 0] [] 2
          [(SUBFOLDER_SHEET_NAME, settingsSheet "" [CNum 1])] [] [] stdPlatform.

(** The settings sheet with every mode switched off. *)
Definition allModesOff : World :=
  mkWorld [] [] 1
          [(SUBFOLDER_SHEET_NAME, settingsSheet "" [CNum 0; CStr ""; CNum 0; CBool false; CNum 2])]
          [] [] stdPlatform.

(** A deployment whose spreadsheet has lost the settings sheet. *)
Definition withoutSettings : World :=
  mkWorld [] [] 1 [] [] [] stdPlatform.

(** The header rows of two earlier versions of the history sheet. *)
Definition headerV1 : list string :=
  ["ファイル名"; "保存日時"; "フォルダパス"; "ファイルリンク"].
Definition headerWithMediaType : list string :=
  ["ファイル名"; "保存日時"; "フォルダパス"; "ファイルリンク"; "メディアタイプ"].
Definition headerWithFormat : list string :=
  ["ファイル名"; "保存日時"; "フォルダパス"; "ファイルリンク"; "ファイル形式"].

(** The header row of the history sheet, as text. *)
Definition historyHeader (w : World) : option (list string) :=
  match SpreadsheetApp.lookupSheet HISTORY_SHEET_NAME (sheets w) with
  | Some sh => Some (List.map SpreadsheetApp.cellToString (nth 0 (grid sh) []))
  | None => None
  end.

(** The last row of the history sheet, as text. *)
Definition lastHistoryRow (w : World) : option (list string) :=
  match SpreadsheetApp.lookupSheet HISTORY_SHEET_NAME (sheets w) with
  | Some sh => Some (List.map SpreadsheetApp.cellToString (last (grid sh) []))
  | None => None
  end.

Definition withFaults (w : World) (schedule : list bool) : World :=
  mkWorld (folders w) (files w) (nextId w) (sheets w) (logger w) schedule
          (platform w).

(** The value a run ended with, [d] when it ended by an exception. *)
Definition valueOf {A} (d : A) (r : Outcome A * World) : A :=
  match fst r with Normal a => a | Throw _ => d end.

End Sample.

(** ** Specifications of computations *)

(** [wp m Q w]: started in [w], [m] ends, normally or by an exception, in a
    pair of outcome and world that satisfies [Q]. *)
Definition wp {A} (m : M A) (Q : Outcome A -> World -> Prop) (w : World) : Prop :=
  Q (fst (m w)) (snd (m w)).

(** [returns P m]: whenever [m] ends normally its value satisfies [P]. *)
Definition returns {A} (P : A -> Prop) (m : M A) : Prop :=
  forall w, wp m (fun o _ => match o with Normal a => P a | Throw _ => True end) w.

(** [keeps R m]: [m] relates the world it starts in to the world it ends in
    by [R], however it ends. *)
Definition keeps {A} (R : World -> World -> Prop) (m : M A) : Prop :=
  forall w, wp m (fun _ w' => R w w') w.

(** A frame: a relation that is a preorder on worlds and that ignores the
    script log and the fault schedule. *)
Class Frame (R : World -> World -> Prop) : Prop := {
  frame_refl : forall w, R w w;
  frame_trans : forall w1 w2 w3, R w1 w2 -> R w2 w3 -> R w1 w3;
  frame_aux : forall w l f,
      R w (mkWorld (folders w) (files w) (nextId w) (sheets w) l f (platform w))
}.

(** The files of Drive and the whole spreadsheet are as before. *)
Definition sameStore (w w' : World) : Prop :=
  files w' = files w /\ sheets w' = sheets w /\ platform w' = platform w.

(** Drive is as before. *)
Definition sameDrive (w w' : World) : Prop :=
  folders w' = folders w /\ files w' = files w /\ nextId w' = nextId w
  /\ platform w' = platform w.

(** Drive and the spreadsheet are as before. *)
Definition sameData (w w' : World) : Prop :=
  folders w' = folders w /\ files w' = files w /\ nextId w' = nextId w
  /\ sheets w' = sheets w /\ platform w' = platform w.

(** The shape of what a save handler hands to the client: a success record,
    or the failure record with the handler's fixed message. *)
Definition structured (generic : string) (o : Outcome SaveResult) : Prop :=
  exists r, o = Normal r /\ (success r = true \/ r = failure generic).

(** The data-URL shape in the words of the specification:
    [data:<mime>;base64,<data>] with both parts present. *)
Definition DataUrlShape (s : string) : Prop :=
  exists mime data,
    mime <> "" /\ data <> "" /\ s = "data:" ++ mime ++ ";base64," ++ data.

(** [fails R m]: [m] always ends by an exception, in a world related by [R]
    to the one it started in. *)
Definition fails {A} (R : World -> World -> Prop) (m : M A) : Prop :=
  forall w, wp m (fun o w' => (exists e, o = Throw e) /\ R w w') w.

(** [total m]: [m] always ends normally. *)
Definition total {A} (m : M A) : Prop :=
  forall w, wp m (fun o _ => exists a, o = Normal a) w.

(** [safe R m]: when [m] ends by an exception, the world it leaves is related
    by [R] to the one it started in. *)
Definition safe {A} (R : World -> World -> Prop) (m : M A) : Prop :=
  forall w, wp m (fun o w' => match o with
                              | Normal _ => True
                              | Throw _ => R w w'
                              end) w.

(** The folder a lookup searches: the given parent, or the root of Drive when
    the second argument is omitted. *)
Definition parentOf (parentFolder : option Folder) : Folder :=
  match parentFolder with Some p => p | None => DriveApp.rootFolder end.

(** The names [getOrCreateFolderIdByName] refuses: anything that is not a
    string, the empty string, and strings of white space only. *)
Definition refusedName (v : JsVal) : Prop :=
  isString v = false \/ exists s, v = JStr s /\ JsString.trim s = "".

(** A data URL that declares exactly [image/png]:
    [data:image/png;base64,<data>] with some data. *)
Definition PngDataUrl (v : JsVal) : Prop :=
  exists data, data <> "" /\ v = JStr ("data:image/png;base64," ++ data).


(** ** Notions for the further properties *)

(** Every character of [s] passes the test [p]. *)
Fixpoint allChars (p : ascii -> bool) (s : string) : bool :=
  match s with
  | EmptyString => true
  | String c s' => p c && allChars p s'
  end.

(** A name that Drive takes without complaint: none of the nine characters
    that [getSubFolderNameFromSheet] replaces. *)
Definition safeName (s : string) : bool :=
  allChars (fun c => negb (isUnsafeChar c)) s.

Fixpoint distinct (l : list nat) : bool :=
  match l with
  | [] => true
  | x :: rest => negb (existsb (Nat.eqb x) rest) && distinct rest
  end.

(** Drive as the platform keeps it: the identifiers of the folders are
    distinct, none is the root's, and all lie below the next free one. *)
Definition wellFormedDrive (w : World) : bool :=
  Nat.ltb 0 (nextId w)
  && distinct (List.map folderId (folders w))
  && forallb (fun f => Nat.ltb 0 (folderId f) && Nat.ltb (folderId f) (nextId w))
             (folders w).

(** The sub-folder name the settings sheet configures: cell B1 trimmed and
    sanitized, [None] when the sheet is missing or the cell is blank. *)
Definition configuredSubFolder (w : World) : option string :=
  match lookupSheet SUBFOLDER_SHEET_NAME (sheets w) with
  | Some sh =>
      let text := JsString.trim (cellToString (cellAt (grid sh) 1 2)) in
      if isEmptyStr text then None else Some (sanitize text)
  | None => None
  end.

(** Drive only grows: the folders and files of [w] are still there in [w'],
    in their places, with what was added behind them. *)
Definition driveGrows (w w' : World) : Prop :=
  (exists added, folders w' = (folders w ++ added)%list)
  /\ (exists added, files w' = (files w ++ added)%list).

(** The header of a sheet as [createHistorySheetIfNotExists] reads it. *)
Definition headerOf (sh : Sheet) : list Cell :=
  List.map (fun j => cellAt (grid sh) 1 (1 + j)) (seq 0 (lastColumnOf (grid sh))).

(** A history sheet whose schema is current: it has content and its header
    carries both of the later titles. *)
Definition currentHistory (sh : Sheet) : Prop :=
  lastColumnOf (grid sh) <> 0%nat
  /\ includes (headerOf sh) "メディアタイプ" = true
  /\ includes (headerOf sh) "ファイル形式" = true.


(** The row [addRecordToHistorySheet] writes. *)
Definition historyRow (fileName now folderUrl folderPathText fileUrl format mediaType
                       : string) : list Cell :=
  [CStr fileName; CStr now;
   CStr ("=HYPERLINK(" ++ dq ++ folderUrl ++ dq ++ "," ++ dq ++ folderPathText ++ dq ++ ")");
   CStr ("=HYPERLINK(" ++ dq ++ fileUrl ++ dq ++ "," ++ dq ++ fileName ++ dq ++ ")");
   CStr (JsString.toUpperCase format); CStr mediaType].

(** What the five save handlers have in common once their arguments are
    accepted: the target folder is resolved in [w], giving the path text;
    [file] is created in it under the next free identifier; the history log
    is called with the name, the path text, the link of the folder, the link
    of the file, the format and the media type; and [w'] differs from the
    world the log leaves in nothing but the script log. *)
Definition saved (logFallback : bool) (w : World) (name mime : string)
    (bytes : list Byte.byte) (format mediaType : string) (file : File)
    (path : string) (w' : World) : Prop :=
  exists target url w1 w3,
    resolveTargetFolder logFallback w = (Normal (target, path, url), w1)
    /\ file = mkFile (nextId w1) name mime bytes (folderId target)
                     (DriveApp.fileUrlOf (nextId w1))
    /\ addRecordToHistorySheet name path url (driveFileUrl file) (JStr format)
                               mediaType
         (DriveApp.withDrive w1 (folders w1) (files w1 ++ [file]) (S (nextId w1)))
       = (Normal tt, w3)
    /\ sameData w3 w' /\ faults w' = faults w3.

(** A decimal digit or the minus sign: the characters of an integer in
    decimal notation. *)
Definition plainChar (c : ascii) : bool :=
  (Nat.leb 48 (nat_of_ascii c) && Nat.leb (nat_of_ascii c) 57)
  || Nat.eqb (nat_of_ascii c) 45.

(** The files of Drive are as before. *)
Definition sameFiles (w w' : World) : Prop := files w' = files w.

(** The mode flag in row [row] of column E of the settings sheet. *)
Definition modeFlag (StringToNumber : string -> option Z) (sh : Sheet) (row : nat)
  : bool :=
  looseEqNumber StringToNumber (cellAt (grid sh) row 5) 1.

(** The world with another fault schedule. *)
Definition withSchedule (w : World) (schedule : list bool) : World :=
  mkWorld (folders w) (files w) (nextId w) (sheets w) (logger w) schedule
          (platform w).

(** The world with another script log. *)
Definition withLog (w : World) (lines : list string) : World :=
  mkWorld (folders w) (files w) (nextId w) (sheets w) lines (faults w)
          (platform w).

(** * Properties *)

(** ** The model on small inputs *)

Example strings_run :
  JsString.trim "  2024 / class A  " = "2024 / class A"
  /\ JsString.trim "　メディア　" = "メディア"
  /\ JsString.trim " 　 " = ""
  /\ sanitize "3-A/B:C" = "3-A_B_C"
  /\ JsString.toLowerCase "WebM" = "webm"
  /\ JsString.endsWith "REC.mp3" ".mp3" = true
  /\ JsString.ofZ 42 = "42".
Proof. repeat split; reflexivity. Qed.

Example patterns_run :
  Regex.dataUrl "data:audio/mp3;base64,AAAA" = Some ("audio/mp3", "AAAA")
  /\ Regex.dataUrl "data:;base64,;base64,AA" = Some (";base64,", "AA")
  /\ Regex.dataUrl "data:a;base64,;base64," = Some ("a", ";base64,")
  /\ Regex.dataUrl "data:a;base64," = None
  /\ Regex.dataUrl "data:;base64,AA" = None
  /\ Regex.dataUrl "AAAA" = None
  /\ Regex.pngDataUrl "data:image/png;base64,AAAA" = Some ("image/png", "AAAA")
  /\ Regex.pngDataUrl "data:image/jpeg;base64,AAAA" = None.
Proof. repeat split; reflexivity. Qed.

(** Scenario 1 of the specification: [note.mp3], logged as MP3 audio. *)
Example audio_scenario :
  let run := saveAudioFile (JStr "data:audio/mp3;base64,AAAA") (JStr "note")
                           (Sample.fresh "3-A") in
  fileName (Sample.valueOf (failure "") run) = Some "note.mp3"
  /\ List.map folderName (folders (snd run)) = ["メディア保存フォルダ"; "3-A"]
  /\ List.map driveFileName (files (snd run)) = ["note.mp3"]
  /\ List.map driveFileContent (files (snd run)) = [[Byte.x00; Byte.x00; Byte.x00]]
  /\ option_map (fun row => (nth 0 row "", nth 4 row "", nth 5 row ""))
                (Sample.lastHistoryRow (snd run))
     = Some ("note.mp3", "MP3", "音声").
Proof. vm_compute. repeat split. Qed.

(** Scenario 3: [pic.jpeg], whose format is logged as JPG; scenario 5: a
    blank sub-folder cell sends the file to the parent folder. *)
Example photo_scenario :
  let run := savePhotoFile (JStr "data:image/png;base64,AAAA") (JStr "pic")
                           (JStr "jpeg") (Sample.fresh "") in
  List.map folderName (folders (snd run)) = ["メディア保存フォルダ"]
  /\ List.map (fun f => (driveFileName f, driveFileParent f)) (files (snd run))
     = [("pic.jpeg", 1)]
  /\ option_map (fun row => (nth 4 row "", nth 5 row ""))
                (Sample.lastHistoryRow (snd run))
     = Some ("JPG", "写真").
Proof. vm_compute. repeat split. Qed.

(** ** Reasoning rules *)

Lemma wp_bind {A B} (m : M A) (k : A -> M B) Q w :
  wp m (fun o w1 => match o with
                    | Normal a => wp (k a) Q w1
                    | Throw e => Q (Throw e) w1
                    end) w ->
  wp (bind m k) Q w.
Proof.
  unfold wp, bind. destruct (m w) as [[a | e] w1]; simpl; auto.
Qed.

Lemma wp_tryCatch {A} (m : M A) h Q w :
  wp m (fun o w1 => match o with
                    | Normal a => Q (Normal a) w1
                    | Throw e => wp (h e) Q w1
                    end) w ->
  wp (tryCatch m h) Q w.
Proof.
  unfold wp, tryCatch. destruct (m w) as [[a | e] w1]; simpl; auto.
Qed.

(** *** Values returned *)

Lemma returns_ret {A} (P : A -> Prop) a : P a -> returns P (ret a).
Proof. intros H w. exact H. Qed.

Lemma returns_throw {A} (P : A -> Prop) e : returns P (throw e).
Proof. intros w. exact I. Qed.

Lemma returns_bind {A B} (P : B -> Prop) (m : M A) k :
  (forall a, returns P (k a)) -> returns P (bind m k).
Proof.
  intros H w. apply wp_bind. unfold wp.
  destruct (fst (m w)) as [a | e]; [apply H | exact I].
Qed.

Ltac returns_step :=
  lazymatch goal with
  | |- returns _ (bind _ _) => apply returns_bind; intros
  | |- returns _ (ret _) => apply returns_ret
  | |- returns _ (throw _) => apply returns_throw
  | |- returns _ (if ?b then _ else _) => destruct b
  | |- returns _ (match ?x with _ => _ end) => destruct x
  end.

(** *** Frames *)

#[local] Instance sameStore_frame : Frame sameStore.
Proof. split; unfold sameStore; simpl; intuition congruence. Qed.

#[local] Instance sameDrive_frame : Frame sameDrive.
Proof. split; unfold sameDrive; simpl; intuition congruence. Qed.

#[local] Instance sameData_frame : Frame sameData.
Proof. split; unfold sameData; simpl; intuition congruence. Qed.

Section Frames.

Context (R : World -> World -> Prop) `{Frame R}.

Lemma keeps_ret {A} (a : A) : keeps R (ret a).
Proof. intros w. exact (frame_refl w). Qed.

Lemma keeps_throw {A} e : keeps R (@throw A e).
Proof. intros w. exact (frame_refl w). Qed.

Lemma keeps_bind {A B} (m : M A) (k : A -> M B) :
  keeps R m -> (forall a, keeps R (k a)) -> keeps R (bind m k).
Proof.
  intros Hm Hk w. apply wp_bind. generalize (Hm w). unfold wp.
  destruct (m w) as [[a | e] w1]; simpl; auto.
  intros H1. eapply frame_trans; [exact H1 | apply Hk].
Qed.

Lemma keeps_tryCatch {A} (m : M A) h :
  keeps R m -> (forall e, keeps R (h e)) -> keeps R (tryCatch m h).
Proof.
  intros Hm Hh w. apply wp_tryCatch. generalize (Hm w). unfold wp.
  destruct (m w) as [[a | e] w1]; simpl; auto.
  intros H1. eapply frame_trans; [exact H1 | apply Hh].
Qed.

Lemma keeps_getWorld : keeps R getWorld.
Proof. intros w. exact (frame_refl w). Qed.

Lemma keeps_remote what : keeps R (remote what).
Proof.
  intros w. unfold wp, remote, bind, getWorld.
  destruct (faults w) as [| b rest] eqn:E; simpl.
  - exact (frame_refl w).
  - destruct b; simpl; exact (frame_aux w (logger w) rest).
Qed.

Lemma keeps_log line : keeps R (log line).
Proof. intros w. exact (frame_aux w (logger w ++ [line]) (faults w)). Qed.

Lemma keeps_stringMethod v method : keeps R (stringMethod v method).
Proof. destruct v; simpl; first [apply keeps_ret | apply keeps_throw]. Qed.

End Frames.

Ltac frame := solve [typeclasses eauto | assumption].

Ltac keeps_step :=
  lazymatch goal with
  | |- keeps _ (bind _ _) => apply @keeps_bind; [frame | | intros]
  | |- keeps _ (tryCatch _ _) => apply @keeps_tryCatch; [frame | | intros]
  | |- keeps _ (ret _) => apply @keeps_ret; frame
  | |- keeps _ (throw _) => apply @keeps_throw; frame
  | |- keeps _ getWorld => apply @keeps_getWorld; frame
  | |- keeps _ (remote _) => apply @keeps_remote; frame
  | |- keeps _ (log _) => apply @keeps_log; frame
  | |- keeps _ (stringMethod _ _) => apply @keeps_stringMethod; frame
  | |- keeps _ (if ?b then _ else _) => destruct b
  | |- keeps _ (match ?x with _ => _ end) => destruct x
  end.

(** Reading services leave every frame alone. *)
Section ReadOnly.

Context (R : World -> World -> Prop) `{Frame R}.

Ltac ro := repeat keeps_step.

Lemma keeps_getRootFolder : keeps R DriveApp.getRootFolder.
Proof. unfold DriveApp.getRootFolder. ro. Qed.

Lemma keeps_getFolderById id : keeps R (DriveApp.getFolderById id).
Proof. unfold DriveApp.getFolderById. ro. Qed.

Lemma keeps_getFoldersByName p name : keeps R (DriveApp.getFoldersByName p name).
Proof. unfold DriveApp.getFoldersByName. ro. Qed.

Lemma keeps_base64Decode t : keeps R (Utilities.base64Decode t).
Proof. unfold Utilities.base64Decode. ro. Qed.

Lemma keeps_newBlob d t n : keeps R (Utilities.newBlob d t n).
Proof. unfold Utilities.newBlob. destruct t; ro. Qed.

Lemma keeps_formatNow : keeps R Utilities.formatNow.
Proof. unfold Utilities.formatNow. ro. Qed.

Lemma keeps_openById : keeps R SpreadsheetApp.openById.
Proof. unfold SpreadsheetApp.openById. ro. Qed.

Lemma keeps_getSheetByName name : keeps R (getSheetByName name).
Proof. unfold getSheetByName. ro. Qed.

Lemma keeps_readSheet ref : keeps R (readSheet ref).
Proof. unfold readSheet. ro. Qed.

Lemma keeps_getLastColumn ref : keeps R (getLastColumn ref).
Proof. unfold getLastColumn. ro. apply keeps_readSheet. Qed.

Lemma keeps_getRange r c nr nc : keeps R (getRange r c nr nc).
Proof. unfold getRange. ro. Qed.

Lemma keeps_a1 notation : keeps R (a1 notation).
Proof. unfold a1. ro; apply keeps_getRange. Qed.

Lemma keeps_getValues ref r : keeps R (getValues ref r).
Proof. unfold getValues. ro. apply keeps_readSheet. Qed.

Lemma keeps_getValue ref r : keeps R (getValue ref r).
Proof. unfold getValue. ro. apply keeps_readSheet. Qed.

Lemma keeps_jsMatch v pat : keeps R (jsMatch v pat).
Proof. unfold jsMatch. ro. Qed.

Lemma keeps_getSubFolderNameFromSheet : keeps R getSubFolderNameFromSheet.
Proof.
  unfold getSubFolderNameFromSheet. ro;
    first [apply keeps_openById | apply keeps_getSheetByName
          | apply keeps_a1 | apply keeps_getValue].
Qed.

End ReadOnly.

Create HintDb keeps.

#[local] Hint Resolve keeps_getRootFolder keeps_getFolderById keeps_getFoldersByName
  keeps_base64Decode keeps_newBlob keeps_formatNow keeps_openById
  keeps_getSheetByName keeps_readSheet keeps_getLastColumn keeps_getRange
  keeps_a1 keeps_getValues keeps_getValue keeps_jsMatch
  keeps_getSubFolderNameFromSheet keeps_remote keeps_log keeps_stringMethod
  keeps_ret keeps_throw : keeps.

Ltac keeps_auto :=
  repeat first [ solve [eauto with keeps typeclass_instances] | keeps_step ].

(** Folder creation touches neither the files nor the spreadsheet. *)
Lemma keeps_createFolder p name : keeps sameStore (DriveApp.createFolder p name).
Proof.
  intros w. unfold wp, DriveApp.createFolder, remote, bind, getWorld.
  destruct (faults w) as [| [] rest]; simpl; repeat split.
Qed.

#[local] Hint Resolve keeps_createFolder : keeps.

Lemma keeps_getOrCreateFolderIdByName name parent :
  keeps sameStore (getOrCreateFolderIdByName name parent).
Proof. unfold getOrCreateFolderIdByName. keeps_auto. Qed.

#[local] Hint Resolve keeps_getOrCreateFolderIdByName : keeps.

Lemma keeps_resolveTargetFolder b : keeps sameStore (resolveTargetFolder b).
Proof. unfold resolveTargetFolder. keeps_auto. Qed.

#[local] Hint Resolve keeps_resolveTargetFolder : keeps.

(** Writing to a sheet leaves Drive alone. *)
Lemma keeps_writeSheet ref sh : keeps sameDrive (writeSheet ref sh).
Proof. intros w. unfold wp, writeSheet; simpl. repeat split. Qed.

#[local] Hint Resolve keeps_writeSheet : keeps.

Lemma keeps_insertSheet name : keeps sameDrive (insertSheet name).
Proof.
  intros w. unfold wp, insertSheet, remote, bind, getWorld.
  destruct (faults w) as [| [] rest]; simpl; repeat split;
    destruct (lookupSheet name (sheets w)); simpl; repeat split.
Qed.

Lemma keeps_appendRow ref row : keeps sameDrive (appendRow ref row).
Proof. unfold appendRow. keeps_auto. Qed.

Lemma keeps_setValue ref r v : keeps sameDrive (setValue ref r v).
Proof. unfold setValue. keeps_auto. Qed.

Lemma keeps_setFontWeightBold ref r : keeps sameDrive (setFontWeightBold ref r).
Proof. unfold setFontWeightBold. keeps_auto. Qed.

Lemma keeps_setColumnWidth ref c n : keeps sameDrive (setColumnWidth ref c n).
Proof. unfold setColumnWidth. keeps_auto. Qed.

#[local] Hint Resolve keeps_insertSheet keeps_appendRow keeps_setValue
  keeps_setFontWeightBold keeps_setColumnWidth : keeps.

Lemma keeps_addHeaderColumn ref c title : keeps sameDrive (addHeaderColumn ref c title).
Proof. unfold addHeaderColumn. keeps_auto. Qed.

#[local] Hint Resolve keeps_addHeaderColumn : keeps.

Lemma keeps_createHistorySheetIfNotExists :
  keeps sameDrive createHistorySheetIfNotExists.
Proof. unfold createHistorySheetIfNotExists. keeps_auto. Qed.

#[local] Hint Resolve keeps_createHistorySheetIfNotExists : keeps.

Lemma keeps_addRecordToHistorySheet fn fp fu u ff mt :
  keeps sameDrive (addRecordToHistorySheet fn fp fu u ff mt).
Proof.
  unfold addRecordToHistorySheet, addRecordToHistorySheetTry. keeps_auto.
Qed.

(** *** Computations that fail *)

Section Failing.

Context (R : World -> World -> Prop) `{Frame R}.

Lemma fails_throw {A} e : fails R (@throw A e).
Proof. intros w. split; [exists e; reflexivity | exact (frame_refl w)]. Qed.

Lemma fails_bind_l {A B} (m : M A) (k : A -> M B) :
  fails R m -> fails R (bind m k).
Proof.
  intros Hm w. apply wp_bind. generalize (Hm w). unfold wp.
  destruct (m w) as [[a | e] w1]; simpl; intros [[e' He] HR].
  - discriminate.
  - split; [exists e; reflexivity | exact HR].
Qed.

Lemma fails_bind_r {A B} (m : M A) (k : A -> M B) :
  keeps R m -> (forall a, fails R (k a)) -> fails R (bind m k).
Proof.
  intros Hm Hk w. apply wp_bind. generalize (Hm w). unfold wp.
  destruct (m w) as [[a | e] w1]; simpl; intros HR.
  - destruct (Hk a w1) as [He HR']. split; [exact He |].
    eapply frame_trans; eassumption.
  - split; [exists e; reflexivity | exact HR].
Qed.

Lemma fails_bind_ret {A B} (a : A) (k : A -> M B) :
  fails R (k a) -> fails R (bind (ret a) k).
Proof. exact (fun H => H). Qed.

(** A handler whose [try] block fails hands back its failure record. *)
Lemma tryCatch_fails (body : M SaveResult) line generic :
  fails R body ->
  forall w,
    wp (tryCatch body (fun error => log (line error) ;; ret (failure generic)))
       (fun o w' => o = Normal (failure generic) /\ R w w') w.
Proof.
  intros Hb w. apply wp_tryCatch. generalize (Hb w). unfold wp.
  destruct (body w) as [[a | e] w1]; simpl; intros [[e' He] HR].
  - discriminate.
  - split; [reflexivity |].
    eapply frame_trans; [exact HR |].
    exact (frame_aux w1 (logger w1 ++ [line e]) (faults w1)).
Qed.

End Failing.

(** A handler never throws: its [catch] block only logs and returns. *)
Lemma tryCatch_structured (body : M SaveResult) line generic :
  returns (fun r => success r = true) body ->
  forall w,
    structured generic
      (fst (tryCatch body (fun error => log (line error) ;; ret (failure generic)) w)).
Proof.
  intros Hb w. generalize (Hb w). unfold wp, tryCatch.
  destruct (body w) as [[r | e] w1]; simpl; intros Hr.
  - exists r. auto.
  - exists (failure generic). auto.
Qed.

(** ** The data-URL patterns against the shape *)

Lemma stripPrefix_app p s r : JsString.stripPrefix p s = Some r -> s = p ++ r.
Proof.
  revert s. induction p as [| a p IH]; intros [| b s]; simpl; try congruence.
  destruct (Ascii.eqb_spec a b) as [-> |]; [| discriminate].
  intros E. rewrite (IH _ E). reflexivity.
Qed.

Lemma lazyMime_shape s m d :
  Regex.lazyMime s = Some (m, d) -> d <> "" /\ s = m ++ ";base64," ++ d.
Proof.
  revert m d. induction s as [| c s IH]; intros m d.
  - simpl. discriminate.
  - assert (grow :
        match Regex.lazyMime s with
        | Some (m0, d0) => Some (String c m0, d0)
        | None => None
        end = Some (m, d) -> d <> "" /\ String c s = m ++ ";base64," ++ d).
    { destruct (Regex.lazyMime s) as [[m0 d0] |]; [| discriminate].
      intros E. injection E as <- <-.
      destruct (IH m0 d0 eq_refl) as [Hd Hs]. split; [exact Hd |].
      change (String c s = String c (m0 ++ ";base64," ++ d0)).
      f_equal. exact Hs. }
    change (Regex.lazyMime (String c s)) with
      (match JsString.stripPrefix ";base64," (String c s) with
       | Some d0 =>
           if isEmptyStr d0
           then match Regex.lazyMime s with
                | Some (m0, d1) => Some (String c m0, d1)
                | None => None
                end
           else Some ("", d0)
       | None =>
           match Regex.lazyMime s with
           | Some (m0, d1) => Some (String c m0, d1)
           | None => None
           end
       end).
    destruct (JsString.stripPrefix ";base64," (String c s)) as [d0 |] eqn:E;
      [| exact grow].
    destruct (isEmptyStr d0) eqn:Ed; [exact grow |].
    intros E'. injection E' as <- <-.
    split.
    + intros ->. discriminate.
    + exact (stripPrefix_app _ _ E).
Qed.

Lemma dataUrl_shape s m d :
  Regex.dataUrl s = Some (m, d) ->
  m <> "" /\ d <> "" /\ s = "data:" ++ m ++ ";base64," ++ d.
Proof.
  unfold Regex.dataUrl.
  destruct (JsString.stripPrefix "data:" s) as [[| c rest] |] eqn:E;
    try discriminate.
  destruct (JsString.hasLineTerminator (String c rest)); [discriminate |].
  destruct (Regex.lazyMime rest) as [[m0 d0] |] eqn:El; [| discriminate].
  intros E'. injection E' as <- <-.
  destruct (lazyMime_shape _ El) as [Hd Hs].
  repeat split; [discriminate | exact Hd |].
  rewrite (stripPrefix_app _ _ E), Hs. reflexivity.
Qed.

Lemma pngDataUrl_shape s m d :
  Regex.pngDataUrl s = Some (m, d) ->
  m = "image/png" /\ d <> "" /\ s = "data:image/png;base64," ++ d.
Proof.
  unfold Regex.pngDataUrl.
  destruct (JsString.stripPrefix "data:image/png;base64," s) as [[| c rest] |] eqn:E;
    try discriminate.
  destruct (JsString.hasLineTerminator (String c rest)); [discriminate |].
  intros E'. injection E' as <- <-.
  repeat split; [discriminate | exact (stripPrefix_app _ _ E)].
Qed.

Lemma malformed_dataUrl s : ~ DataUrlShape s -> Regex.dataUrl s = None.
Proof.
  intros Hs. destruct (Regex.dataUrl s) as [[m d] |] eqn:E; [| reflexivity].
  exfalso. apply Hs. exists m, d. exact (dataUrl_shape _ E).
Qed.

Lemma malformed_pngDataUrl s : ~ DataUrlShape s -> Regex.pngDataUrl s = None.
Proof.
  intros Hs. destruct (Regex.pngDataUrl s) as [[m d] |] eqn:E; [| reflexivity].
  exfalso. apply Hs. destruct (pngDataUrl_shape _ E) as (-> & Hd & ->).
  exists "image/png", d. repeat split; [discriminate | exact Hd].
Qed.

(** ** The save handlers as failure boundaries *)

(** C3.  Whatever the client passes and whatever state the services are in,
    including any schedule of service failures, each of the five save
    handlers ends normally and hands back either a success record or the
    failure record carrying its own fixed message; no exception leaves a
    handler. *)
Theorem save_handlers_never_throw :
  forall (payload baseFileName extension mimeType : JsVal) (w : World),
    structured "音声ファイルの保存中にエラーが発生しました。"
      (fst (saveAudioFile payload baseFileName w))
    /\ structured "動画ファイルの保存中にエラーが発生しました。"
      (fst (saveVideoFile payload baseFileName extension mimeType w))
    /\ structured "写真ファイルの保存中にエラーが発生しました。"
      (fst (savePhotoFile payload baseFileName extension w))
    /\ structured "お絵かきファイルの保存中にエラーが発生しました。"
      (fst (saveDrawingFile payload baseFileName w))
    /\ structured "テキストファイルの保存中にエラーが発生しました。"
      (fst (saveTextFile payload baseFileName w)).
Proof.
  intros. unfold saveAudioFile, saveVideoFile, savePhotoFile, saveDrawingFile,
    saveTextFile.
  repeat split; apply tryCatch_structured; repeat returns_step; reflexivity.
Qed.

(** ** Malformed data URLs *)

Lemma jsMatch_string s pattern : jsMatch (JStr s) pattern = ret (pattern s).
Proof. reflexivity. Qed.

Lemma jsMatch_nonstring R `{Frame R} v pattern :
  isString v = false -> fails R (jsMatch v pattern).
Proof.
  intros Hv w. destruct v; try discriminate Hv;
    (split; [eexists; reflexivity | exact (frame_refl w)]).
Qed.

Ltac fails_step Hnone :=
  lazymatch goal with
  | |- fails _ (throw _) => apply @fails_throw; frame
  | |- fails _ (bind (jsMatch (JStr _) _) _) =>
      rewrite jsMatch_string, Hnone; apply fails_bind_ret
  | |- fails _ (bind (jsMatch _ _) _) =>
      apply fails_bind_l; apply @jsMatch_nonstring; [frame | reflexivity]
  | |- fails _ (bind _ _) =>
      apply @fails_bind_r; [frame | solve [keeps_auto] | intros]
  | |- fails _ (if ?b then _ else _) => destruct b
  | |- fails _ (match ?x with _ => _ end) => destruct x
  end.

(** C5.  A payload string that is not of the shape
    [data:<mime>;base64,<data>] makes each of the four media handlers hand
    back its failure record, with the files of Drive and every sheet of the
    spreadsheet (the history sheet among them) exactly as they were. *)
Theorem malformed_data_url_saves_nothing :
  forall (s : string) (baseFileName extension mimeType : JsVal) (w : World),
    ~ DataUrlShape s ->
    wp (saveAudioFile (JStr s) baseFileName)
       (fun o w' => o = Normal (failure "音声ファイルの保存中にエラーが発生しました。")
                    /\ sameStore w w') w
    /\ wp (saveVideoFile (JStr s) baseFileName extension mimeType)
       (fun o w' => o = Normal (failure "動画ファイルの保存中にエラーが発生しました。")
                    /\ sameStore w w') w
    /\ wp (savePhotoFile (JStr s) baseFileName extension)
       (fun o w' => o = Normal (failure "写真ファイルの保存中にエラーが発生しました。")
                    /\ sameStore w w') w
    /\ wp (saveDrawingFile (JStr s) baseFileName)
       (fun o w' => o = Normal (failure "お絵かきファイルの保存中にエラーが発生しました。")
                    /\ sameStore w w') w.
Proof.
  intros s baseFileName extension mimeType w Hs.
  pose proof (malformed_dataUrl Hs) as Hd.
  pose proof (malformed_pngDataUrl Hs) as Hp.
  unfold saveAudioFile, saveVideoFile, savePhotoFile, saveDrawingFile.
  refine (conj _ (conj _ (conj _ _)));
    (apply @tryCatch_fails; [frame |]).
  1-3: repeat fails_step Hd.
  repeat fails_step Hp.
Qed.

(** ** The history log as a side channel *)

Lemma total_ret {A} (a : A) : total (ret a).
Proof. intros w. exists a. reflexivity. Qed.

Lemma total_log line : total (log line).
Proof. intros w. exists tt. reflexivity. Qed.

Lemma total_bind {A B} (m : M A) (k : A -> M B) :
  total m -> (forall a, total (k a)) -> total (bind m k).
Proof.
  intros Hm Hk w. apply wp_bind. generalize (Hm w). unfold wp.
  destruct (m w) as [[a | e] w1]; simpl; intros [a' Ha]; [apply Hk | discriminate].
Qed.

Lemma total_tryCatch {A} (m : M A) h :
  (forall e, total (h e)) -> total (tryCatch m h).
Proof.
  intros Hh w. apply wp_tryCatch. unfold wp.
  destruct (m w) as [[a | e] w1]; simpl; [exists a; reflexivity | apply Hh].
Qed.

Lemma total_addRecordToHistorySheet fn fp fu u ff mt :
  total (addRecordToHistorySheet fn fp fu u ff mt).
Proof. apply total_tryCatch. intros e. apply total_log. Qed.

Ltac total_auto :=
  repeat lazymatch goal with
    | |- total (bind _ _) => apply total_bind; [| intros]
    | |- total (ret _) => apply total_ret
    | |- total (log _) => apply total_log
    | |- total (stringMethod (JStr ?s) _) => apply (total_ret s)
    | |- total (addRecordToHistorySheet _ _ _ _ _ _) =>
        apply total_addRecordToHistorySheet
    end.

Section Safe.

Context (R : World -> World -> Prop) `{Frame R}.

Lemma safe_throw {A} e : safe R (@throw A e).
Proof. intros w. exact (frame_refl w). Qed.

Lemma safe_bind_keeps {A B} (m : M A) (k : A -> M B) :
  keeps R m -> (forall a, safe R (k a)) -> safe R (bind m k).
Proof.
  intros Hm Hk w. apply wp_bind. generalize (Hm w). unfold wp.
  destruct (m w) as [[a | e] w1]; simpl; intros HR; [| exact HR].
  generalize (Hk a w1). unfold wp. destruct (fst (k a w1)); [auto |].
  intros HR'. eapply frame_trans; eassumption.
Qed.

Lemma safe_bind_total {A B} (m : M A) (k : A -> M B) :
  safe R m -> (forall a, total (k a)) -> safe R (bind m k).
Proof.
  intros Hm Hk w. apply wp_bind. generalize (Hm w). unfold wp.
  destruct (m w) as [[a | e] w1]; simpl; intros HR; [| exact HR].
  destruct (Hk a w1) as [b Hb]. unfold wp in Hb. rewrite Hb. exact I.
Qed.

Lemma safe_bind_ret {A B} (a : A) (k : A -> M B) :
  safe R (k a) -> safe R (bind (ret a) k).
Proof. exact (fun H => H). Qed.

Lemma safe_bind_throw {A B} e (k : A -> M B) : safe R (bind (throw e) k).
Proof. intros w. exact (frame_refl w). Qed.

(** A handler whose [try] block is safe and returns success records only:
    it reports success, or else its fixed failure with the frame kept. *)
Lemma tryCatch_safe (body : M SaveResult) line generic :
  safe R body ->
  returns (fun r => success r = true) body ->
  forall w,
    wp (tryCatch body (fun error => log (line error) ;; ret (failure generic)))
       (fun o w' => (exists r, o = Normal r /\ success r = true)
                    \/ (o = Normal (failure generic) /\ R w w')) w.
Proof.
  intros Hs Hr w. apply wp_tryCatch. generalize (Hs w) (Hr w). unfold wp.
  destruct (body w) as [[r | e] w1]; simpl; intros HR Hsucc.
  - left. exists r. auto.
  - right. split; [reflexivity |].
    eapply frame_trans; [exact HR |].
    exact (frame_aux w1 (logger w1 ++ [line e]) (faults w1)).
Qed.

End Safe.

(** Writing the file either fails with files and sheets untouched or
    succeeds; what follows the write cannot fail. *)
Lemma safe_createFile parent blob : safe sameStore (DriveApp.createFile parent blob).
Proof.
  intros w. unfold wp, DriveApp.createFile, remote, bind, getWorld.
  destruct (faults w) as [| [] rest]; simpl; repeat split.
Qed.

Ltac safe_step :=
  lazymatch goal with
  | |- safe _ (throw _) => apply @safe_throw; frame
  | |- safe _ (bind (stringMethod ?v _) _) =>
      lazymatch v with
      | JStr ?s =>
          change (stringMethod (JStr s)) with (fun _ : string => ret s);
          cbv beta; apply safe_bind_ret
      | if ?c then _ else _ => destruct c
      | _ => first [ is_var v; destruct v | apply @safe_bind_throw; frame ]
      end
  | |- safe _ (bind (DriveApp.createFile _ _) _) =>
      apply safe_bind_total; [apply safe_createFile | intros; total_auto]
  | |- safe _ (bind (DriveApp.createTextFile _ _ _ _) _) =>
      apply safe_bind_total; [apply safe_createFile | intros; total_auto]
  | |- safe _ (bind _ _) =>
      apply @safe_bind_keeps; [frame | solve [keeps_auto] | intros]
  | |- safe _ (if ?b then _ else _) => destruct b
  | |- safe _ (match ?x with _ => _ end) => destruct x
  end.

Ltac safe_auto := cbv zeta; repeat safe_step.

Lemma save_handlers_fail_clean :
  forall (payload baseFileName extension mimeType : JsVal) (w : World),
    let verdict generic (m : M SaveResult) :=
      wp m (fun o w' => (exists r, o = Normal r /\ success r = true)
                        \/ (o = Normal (failure generic) /\ sameStore w w')) w in
    verdict "音声ファイルの保存中にエラーが発生しました。"
            (saveAudioFile payload baseFileName)
    /\ verdict "動画ファイルの保存中にエラーが発生しました。"
            (saveVideoFile payload baseFileName extension mimeType)
    /\ verdict "写真ファイルの保存中にエラーが発生しました。"
            (savePhotoFile payload baseFileName extension)
    /\ verdict "お絵かきファイルの保存中にエラーが発生しました。"
            (saveDrawingFile payload baseFileName)
    /\ verdict "テキストファイルの保存中にエラーが発生しました。"
            (saveTextFile payload baseFileName).
Proof.
  intros. subst verdict.
  unfold saveAudioFile, saveVideoFile, savePhotoFile, saveDrawingFile, saveTextFile.
  refine (conj _ (conj _ (conj _ (conj _ _))));
    (apply @tryCatch_safe; [frame | | repeat returns_step; reflexivity]).
  - safe_auto.
  - destruct (orDefault extension (JStr "webm")); safe_auto.
  - destruct (orDefault extension (JStr "jpg")); safe_auto.
  - safe_auto.
  - safe_auto.
Qed.

(** C4.  [addRecordToHistorySheet] always ends normally, whatever fails
    inside it (opening the spreadsheet, [createHistorySheetIfNotExists], the
    row append), and leaves Drive as it was; an exception of its [try] block
    ends up as one more line of the script log and nowhere else.  Hence a
    save handler reports a failure only when files and sheets are still
    untouched, that is, never on account of the history step, which runs
    after the file is written.  In the sample deployment with the row append
    scheduled to fail, [saveTextFile] writes the file, reports success, logs
    the history error, and the history sheet stays as it was. *)
Theorem history_log_failures_are_swallowed :
  (forall fileName folderPathText folderUrl fileUrl fileFormat mediaType w,
      wp (addRecordToHistorySheet fileName folderPathText folderUrl fileUrl
                                  fileFormat mediaType)
         (fun o w' => o = Normal tt /\ sameDrive w w') w)
  /\ (forall fileName folderPathText folderUrl fileUrl fileFormat mediaType w e w1,
         addRecordToHistorySheetTry fileName folderPathText folderUrl fileUrl
                                    fileFormat mediaType w = (Throw e, w1) ->
         addRecordToHistorySheet fileName folderPathText folderUrl fileUrl
                                 fileFormat mediaType w
         = (Normal tt,
            mkWorld (folders w1) (files w1) (nextId w1) (sheets w1)
                    (logger w1 ++ ["履歴シートへの記録エラー: " ++ errToString e])
                    (faults w1) (platform w1)))
  /\ (forall payload baseFileName extension mimeType w,
         let verdict generic (m : M SaveResult) :=
           wp m (fun o w' => (exists r, o = Normal r /\ success r = true)
                             \/ (o = Normal (failure generic) /\ sameStore w w')) w in
         verdict "音声ファイルの保存中にエラーが発生しました。"
                 (saveAudioFile payload baseFileName)
         /\ verdict "動画ファイルの保存中にエラーが発生しました。"
                 (saveVideoFile payload baseFileName extension mimeType)
         /\ verdict "写真ファイルの保存中にエラーが発生しました。"
                 (savePhotoFile payload baseFileName extension)
         /\ verdict "お絵かきファイルの保存中にエラーが発生しました。"
                 (saveDrawingFile payload baseFileName)
         /\ verdict "テキストファイルの保存中にエラーが発生しました。"
                 (saveTextFile payload baseFileName))
  /\ (let w := Sample.withFaults
                 (Sample.withHistory (Sample.fresh "") HISTORY_HEADERS)
                 (repeat false 10 ++ [true]) in
      let run := saveTextFile (JStr "hello") (JStr "memo") w in
      (exists r, fst run = Normal r /\ success r = true)
      /\ List.map driveFileName (files (snd run)) = ["memo.txt"]
      /\ sheets (snd run) = sheets w
      /\ last (logger (snd run)) ""
         = "履歴シートへの記録エラー: Exception: Sheet.appendRow").
Proof.
  split; [| split; [| split]].
  - intros. unfold wp.
    pose proof (total_addRecordToHistorySheet fileName0 folderPathText folderUrl0
                  fileUrl0 fileFormat mediaType w) as [[] Ht].
    pose proof (keeps_addRecordToHistorySheet fileName0 folderPathText folderUrl0
                  fileUrl0 fileFormat mediaType w) as Hk.
    unfold wp in Ht, Hk. split; assumption.
  - intros until w1. intros E. unfold addRecordToHistorySheet, tryCatch.
    rewrite E. reflexivity.
  - exact save_handlers_fail_clean.
  - vm_compute. repeat split. eexists. split; reflexivity.
Qed.

(** ** Following a run step by step *)

Lemma bind_Normal_inv {A B} (m : M A) (k : A -> M B) w b w' :
  bind m k w = (Normal b, w') ->
  exists a w1, m w = (Normal a, w1) /\ k a w1 = (Normal b, w').
Proof.
  unfold bind. destruct (m w) as [[a | e] w1]; [| discriminate].
  intros Hk. exists a, w1. auto.
Qed.

Lemma tryCatch_Normal_inv {A} (m : M A) h w a w' :
  tryCatch m h w = (Normal a, w') ->
  m w = (Normal a, w')
  \/ exists e w1, m w = (Throw e, w1) /\ h e w1 = (Normal a, w').
Proof.
  unfold tryCatch. destruct (m w) as [[a1 | e] w1]; intros E.
  - left. exact E.
  - right. exists e, w1. auto.
Qed.

Lemma ret_inv {A} (a b : A) w w' : ret a w = (Normal b, w') -> b = a /\ w' = w.
Proof. unfold ret. intros E. injection E as <- <-. auto. Qed.

Lemma stringMethod_run v method w s w' :
  stringMethod v method w = (Normal s, w') -> v = JStr s /\ w' = w.
Proof. destruct v; simpl; try discriminate. intros E. injection E as <- <-. auto. Qed.

Lemma keeps_run {A} R (m : M A) w o w' : keeps R m -> m w = (o, w') -> R w w'.
Proof. intros Hk E. generalize (Hk w). unfold wp. rewrite E. auto. Qed.

Lemma base64Decode_run t w bytes w' :
  Utilities.base64Decode t w = (Normal bytes, w') ->
  base64Decode (platform w) t = Some bytes /\ w' = w.
Proof.
  unfold Utilities.base64Decode, bind, getWorld.
  destruct (base64Decode (platform w) t); [| discriminate].
  intros E. injection E as <- <-. auto.
Qed.

(** The content type a blob gets from the value handed to [newBlob]. *)
Lemma newBlob_run data t name w b w' :
  Utilities.newBlob data t name w = (Normal b, w') ->
  blobData b = data /\ blobName b = name /\ w' = w
  /\ match t with
     | JStr s => blobContentType b = s
     | v => coerceToString (platform w) v = Some (blobContentType b)
     end.
Proof.
  unfold Utilities.newBlob, bind, getWorld.
  destruct t; simpl;
    try (destruct (coerceToString (platform w) _) eqn:E; [| discriminate]);
    intros E'; injection E' as <- <-; auto.
Qed.

Lemma createFile_run parent b w f w' :
  DriveApp.createFile parent b w = (Normal f, w') ->
  files w' = (files w ++ [f])%list
  /\ driveFileName f = blobName b
  /\ driveFileMime f = blobContentType b
  /\ driveFileContent f = blobData b
  /\ driveFileParent f = folderId parent
  /\ sheets w' = sheets w /\ platform w' = platform w.
Proof.
  unfold DriveApp.createFile, remote, bind, getWorld.
  destruct (faults w) as [| [] rest]; simpl; try discriminate;
    intros E; injection E as <- <-; simpl; repeat split.
Qed.

Ltac run_inv H :=
  lazymatch type of H with
  | bind _ _ _ = (Normal _, _) =>
      let a := fresh "a" in
      let w1 := fresh "w" in
      let H1 := fresh "Hrun" in
      let H2 := fresh "Hrun" in
      apply bind_Normal_inv in H; destruct H as (a & w1 & H1 & H2);
      cbv beta in H2; run_inv H1; run_inv H2
  | ret _ _ = (Normal _, _) =>
      apply ret_inv in H; destruct H; subst
  | throw _ _ = (Normal _, _) => discriminate H
  | stringMethod _ _ _ = (Normal _, _) =>
      apply stringMethod_run in H; destruct H; subst
  | jsMatch _ _ _ = (Normal _, _) => unfold jsMatch in H; run_inv H
  | (if ?c then _ else _) _ = (Normal _, _) =>
      let E := fresh "Hif" in destruct c eqn:E; run_inv H
  | (match ?x with _ => _ end) _ = (Normal _, _) =>
      let E := fresh "Hcase" in destruct x eqn:E; run_inv H
  | _ => idtac
  end.

Lemma log_run line w o w' : log line w = (o, w') -> sameData w w'.
Proof. unfold log, bind, getWorld, putWorld. intros E. injection E as <- <-. repeat split. Qed.

Ltac use_runs :=
  repeat match goal with
    | H : resolveTargetFolder _ _ = _ |- _ =>
        apply (@keeps_run _ _ _ _ _ _ (keeps_resolveTargetFolder _)) in H;
        destruct H as (? & ? & ?)
    | H : Utilities.base64Decode _ _ = _ |- _ =>
        apply base64Decode_run in H; destruct H as (? & ?)
    | H : Utilities.newBlob _ _ _ _ = _ |- _ =>
        apply newBlob_run in H; destruct H as (? & ? & ? & ?)
    | H : DriveApp.createFile _ _ _ = _ |- _ =>
        apply createFile_run in H; destruct H as (? & ? & ? & ? & ? & ? & ?)
    | H : DriveApp.createTextFile _ _ _ _ _ = _ |- _ =>
        apply createFile_run in H; destruct H as (? & ? & ? & ? & ? & ? & ?)
    | H : addRecordToHistorySheet _ _ _ _ _ _ _ = _ |- _ =>
        apply (@keeps_run _ _ _ _ _ _ (keeps_addRecordToHistorySheet _ _ _ _ _ _)) in H;
        destruct H as (? & ? & ? & ?)
    | H : log _ _ = _ |- _ =>
        apply log_run in H; destruct H as (? & ? & ? & ? & ?)
    end.

Ltac same_strings :=
  repeat match goal with
    | H : JStr _ = JStr _ |- _ => injection H as ?; subst
    | H : ?x = JStr _, H' : ?x = JStr _ |- _ => rewrite H in H'
    end.

Ltac witness_file :=
  match goal with
  | Hf : files _ = (_ ++ [?file])%list,
    Hd : base64Decode _ _ = Some ?bytes |- _ =>
      eexists _, _, _, _, bytes, file
  end;
  repeat lazymatch goal with |- _ /\ _ => split end;
  first [reflexivity | eassumption | congruence].

(** What a successful [saveAudioFile] has done. *)
Lemma saveAudioFile_success audioDataUrl baseFileName w r w' :
  saveAudioFile audioDataUrl baseFileName w = (Normal r, w') ->
  success r = true ->
  exists url base mime data bytes file,
    audioDataUrl = JStr url /\ baseFileName = JStr base
    /\ Regex.dataUrl url = Some (mime, data)
    /\ base64Decode (platform w) data = Some bytes
    /\ files w' = (files w ++ [file])%list
    /\ driveFileName file
       = (if JsString.endsWith (JsString.toLowerCase base) ".mp3"
          then base else base ++ ".mp3")
    /\ driveFileMime file = mime
    /\ driveFileContent file = bytes.
Proof.
  intros Hrun Hok. unfold saveAudioFile in Hrun.
  apply tryCatch_Normal_inv in Hrun.
  destruct Hrun as [Hrun | (e & w1 & _ & Hrun)].
  2: { run_inv Hrun. discriminate Hok. }
  run_inv Hrun. use_runs. subst. simpl toStr in *.
  witness_file.
Qed.

(** What a successful [saveVideoFile] has done. *)
Lemma saveVideoFile_success videoDataUrl baseFileName extension mimeType w r w' :
  saveVideoFile videoDataUrl baseFileName extension mimeType w = (Normal r, w') ->
  success r = true ->
  exists url given declared data bytes file,
    videoDataUrl = JStr url
    /\ orDefault extension (JStr "webm") = JStr given
    /\ Regex.dataUrl url = Some (declared, data)
    /\ base64Decode (platform w) data = Some bytes
    /\ files w' = (files w ++ [file])%list
    /\ driveFileName file
       = toStr baseFileName ++ "."
         ++ (if inList (JsString.toLowerCase given) ["mp4"; "webm"]
             then JsString.toLowerCase given else "webm")
    /\ match jsOr (orDefault mimeType (JStr "video/webm")) (JStr declared) with
       | JStr t => driveFileMime file = t
       | v => coerceToString (platform w) v = Some (driveFileMime file)
       end
    /\ driveFileContent file = bytes.
Proof.
  intros Hrun Hok. unfold saveVideoFile in Hrun.
  remember (orDefault extension (JStr "webm")) as ext0 eqn:Hext.
  apply tryCatch_Normal_inv in Hrun.
  destruct Hrun as [Hrun | (e & w1 & _ & Hrun)].
  2: { run_inv Hrun. discriminate Hok. }
  run_inv Hrun; use_runs; subst.
  match goal with
  | Hf : files _ = (_ ++ [?file])%list,
    Hd : base64Decode _ _ = Some ?bytes |- _ =>
      eexists _, _, _, _, bytes, file
  end.
  repeat lazymatch goal with |- _ /\ _ => split end;
    try first [reflexivity | eassumption | congruence].
  - destruct (inList (JsString.toLowerCase a) ["mp4"; "webm"]);
      simpl negb in *; cbv iota in *; same_strings;
      change (JsString.toLowerCase "webm") with "webm" in *; congruence.
  - destruct (jsOr (orDefault mimeType (JStr "video/webm")) (JStr s1));
      congruence.
Qed.

(** What a successful [savePhotoFile] has done. *)
Lemma savePhotoFile_success photoDataUrl baseFileName extension w r w' :
  savePhotoFile photoDataUrl baseFileName extension w = (Normal r, w') ->
  success r = true ->
  exists url given declared data bytes file,
    photoDataUrl = JStr url
    /\ orDefault extension (JStr "jpg") = JStr given
    /\ Regex.dataUrl url = Some (declared, data)
    /\ base64Decode (platform w) data = Some bytes
    /\ files w' = (files w ++ [file])%list
    /\ driveFileName file
       = toStr baseFileName ++ "."
         ++ (if inList (JsString.toLowerCase given) ["jpg"; "jpeg"; "png"]
             then JsString.toLowerCase given else "jpg")
    /\ driveFileMime file = declared
    /\ driveFileContent file = bytes.
Proof.
  intros Hrun Hok. unfold savePhotoFile in Hrun.
  remember (orDefault extension (JStr "jpg")) as ext0 eqn:Hext.
  apply tryCatch_Normal_inv in Hrun.
  destruct Hrun as [Hrun | (e & w1 & _ & Hrun)].
  2: { run_inv Hrun. discriminate Hok. }
  run_inv Hrun; use_runs; subst.
  match goal with
  | Hf : files _ = (_ ++ [?file])%list,
    Hd : base64Decode _ _ = Some ?bytes |- _ =>
      eexists _, _, _, _, bytes, file
  end.
  repeat lazymatch goal with |- _ /\ _ => split end;
    try first [reflexivity | eassumption | congruence].
  destruct (inList (JsString.toLowerCase a) ["jpg"; "jpeg"; "png"]);
    simpl negb in *; cbv iota in *; same_strings;
    change (JsString.toLowerCase "jpg") with "jpg" in *; congruence.
Qed.

(** What a successful [saveDrawingFile] has done. *)
Lemma saveDrawingFile_success drawingDataUrl baseFileName w r w' :
  saveDrawingFile drawingDataUrl baseFileName w = (Normal r, w') ->
  success r = true ->
  exists url mime data bytes file,
    drawingDataUrl = JStr url
    /\ Regex.pngDataUrl url = Some (mime, data)
    /\ base64Decode (platform w) data = Some bytes
    /\ files w' = (files w ++ [file])%list
    /\ driveFileName file = toStr baseFileName ++ ".png"
    /\ driveFileMime file = mime
    /\ driveFileContent file = bytes.
Proof.
  intros Hrun Hok. unfold saveDrawingFile in Hrun.
  apply tryCatch_Normal_inv in Hrun.
  destruct Hrun as [Hrun | (e & w1 & _ & Hrun)].
  2: { run_inv Hrun. discriminate Hok. }
  run_inv Hrun; use_runs; subst.
  match goal with
  | Hf : files _ = (_ ++ [?file])%list,
    Hd : base64Decode _ _ = Some ?bytes |- _ =>
      eexists _, _, _, bytes, file
  end.
  repeat lazymatch goal with |- _ /\ _ => split end;
    first [reflexivity | eassumption | congruence].
Qed.

Lemma nonEmptyString_inv v :
  negb (truthy v) || negb (isString v) = false ->
  exists s, v = JStr s /\ s <> "".
Proof.
  destruct v; simpl; rewrite ?orb_true_r; try discriminate.
  rewrite orb_false_r, negb_involutive. unfold isEmptyStr.
  intros E. exists s. split; [reflexivity |].
  intros ->. discriminate E.
Qed.

(** What a successful [saveTextFile] has done. *)
Lemma saveTextFile_success textData baseFileName w r w' :
  saveTextFile textData baseFileName w = (Normal r, w') ->
  success r = true ->
  exists content base file,
    textData = JStr content /\ baseFileName = JStr base
    /\ files w' = (files w ++ [file])%list
    /\ driveFileName file = base ++ ".txt"
    /\ driveFileMime file = "text/plain"
    /\ driveFileContent file = list_byte_of_string content.
Proof.
  intros Hrun Hok. unfold saveTextFile in Hrun.
  apply tryCatch_Normal_inv in Hrun.
  destruct Hrun as [Hrun | (e & w1 & _ & Hrun)].
  2: { run_inv Hrun. discriminate Hok. }
  run_inv Hrun.
  destruct (nonEmptyString_inv _ Hif) as (content & -> & _).
  apply orb_false_elim in Hif0. destruct Hif0 as [Hif0 _].
  destruct (nonEmptyString_inv _ Hif0) as (base & -> & _).
  unfold DriveApp.createTextFile in *. use_runs. simpl in *.
  match goal with
  | Hf : files _ = (_ ++ [?file])%list |- _ => eexists _, _, file
  end.
  repeat lazymatch goal with |- _ /\ _ => split end;
    first [reflexivity | eassumption | congruence].
Qed.

(** ** File names and content types of successful saves *)

Lemma run_split {A} (p : Outcome A * World) a :
  fst p = Normal a -> p = (Normal a, snd p).
Proof. destruct p as [o w]. simpl. intros ->. reflexivity. Defined.

Lemma throw_split {A} (p : Outcome A * World) e :
  fst p = Throw e -> p = (Throw e, snd p).
Proof. destruct p as [o w]. simpl. intros ->. reflexivity. Defined.

(** The row append failing under an existing, current history sheet: the
    error goes to the log and the call ends normally. *)
Lemma history_log_witness :
  let w := Sample.withFaults
             (Sample.withHistory (Sample.fresh "") HISTORY_HEADERS)
             [false; false; false; true] in
  let w1 := snd (addRecordToHistorySheetTry "memo.txt" "メディア保存フォルダ" "u" "v"
                                            (JStr "TXT") "テキスト" w) in
  addRecordToHistorySheet "memo.txt" "メディア保存フォルダ" "u" "v" (JStr "TXT")
                          "テキスト" w
  = (Normal tt,
     mkWorld (folders w1) (files w1) (nextId w1) (sheets w1)
             (logger w1 ++ ["履歴シートへの記録エラー: "
                            ++ errToString (serviceError "Sheet.appendRow")])
             (faults w1) (platform w1)).
Proof.
  intros w w1.
  apply (proj1 (proj2 history_log_failures_are_swallowed)).
  apply throw_split. vm_compute. reflexivity.
Defined.

Lemma map_append f a b :
  JsString.map f (a ++ b) = JsString.map f a ++ JsString.map f b.
Proof. induction a as [| c a IH]; simpl; [reflexivity | now rewrite IH]. Qed.

Lemma endsWith_append a p : JsString.endsWith (a ++ p) p = true.
Proof.
  induction a as [| c a IH].
  - destruct p; simpl; [reflexivity |].
    rewrite Ascii.eqb_refl, String.eqb_refl. reflexivity.
  - change (String.eqb (String c (a ++ p)) p || JsString.endsWith (a ++ p) p = true).
    rewrite IH. apply orb_true_r.
Qed.

(** The claim as first stated asks for the extension [.mp3] itself on every
    audio file; a base name that already ends in [.MP3] is kept as it is. *)
Lemma audio_extension_counterexample :
  ~ (forall audioDataUrl baseFileName w r w',
        saveAudioFile audioDataUrl baseFileName w = (Normal r, w') ->
        success r = true ->
        exists file,
          files w' = (files w ++ [file])%list
          /\ JsString.endsWith (driveFileName file) ".mp3" = true).
Proof.
  intros H.
  specialize (H (JStr "data:audio/mp3;base64,AAAA") (JStr "REC.MP3")
                (Sample.fresh "3-A")
                (Sample.valueOf (failure "")
                   (saveAudioFile (JStr "data:audio/mp3;base64,AAAA")
                                  (JStr "REC.MP3") (Sample.fresh "3-A")))
                (snd (saveAudioFile (JStr "data:audio/mp3;base64,AAAA")
                                    (JStr "REC.MP3") (Sample.fresh "3-A")))).
  destruct H as (file & Hfiles & Hends);
    [apply run_split; vm_compute; reflexivity | vm_compute; reflexivity |].
  vm_compute in Hfiles. injection Hfiles as <-.
  vm_compute in Hends. discriminate Hends.
Qed.

(** C6, amended.  Every successful save has added exactly one file, named
    after the media type: for audio the base name itself when it ends in
    [.mp3] in any letter case and the base name plus [.mp3] otherwise, so the
    name ends in [.mp3] up to letter case; for video the base name, a dot and
    the lower-cased extension when that is [mp4] or [webm], else [webm]; for
    photo likewise with [jpg], [jpeg], [png] and the fall-back [jpg]; for a
    drawing the base name plus [.png]; for text the base name plus [.txt]. *)
Theorem saved_file_names :
  forall (payload baseFileName extension mimeType : JsVal) (w : World),
    (forall r w',
        saveAudioFile payload baseFileName w = (Normal r, w') ->
        success r = true ->
        exists base file,
          baseFileName = JStr base
          /\ files w' = (files w ++ [file])%list
          /\ driveFileName file
             = (if JsString.endsWith (JsString.toLowerCase base) ".mp3"
                then base else base ++ ".mp3")
          /\ JsString.endsWith (JsString.toLowerCase (driveFileName file)) ".mp3"
             = true)
    /\ (forall r w',
        saveVideoFile payload baseFileName extension mimeType w = (Normal r, w') ->
        success r = true ->
        exists given file,
          orDefault extension (JStr "webm") = JStr given
          /\ files w' = (files w ++ [file])%list
          /\ driveFileName file
             = toStr baseFileName ++ "."
               ++ (if inList (JsString.toLowerCase given) ["mp4"; "webm"]
                   then JsString.toLowerCase given else "webm"))
    /\ (forall r w',
        savePhotoFile payload baseFileName extension w = (Normal r, w') ->
        success r = true ->
        exists given file,
          orDefault extension (JStr "jpg") = JStr given
          /\ files w' = (files w ++ [file])%list
          /\ driveFileName file
             = toStr baseFileName ++ "."
               ++ (if inList (JsString.toLowerCase given) ["jpg"; "jpeg"; "png"]
                   then JsString.toLowerCase given else "jpg"))
    /\ (forall r w',
        saveDrawingFile payload baseFileName w = (Normal r, w') ->
        success r = true ->
        exists file,
          files w' = (files w ++ [file])%list
          /\ driveFileName file = toStr baseFileName ++ ".png")
    /\ (forall r w',
        saveTextFile payload baseFileName w = (Normal r, w') ->
        success r = true ->
        exists base file,
          baseFileName = JStr base
          /\ files w' = (files w ++ [file])%list
          /\ driveFileName file = base ++ ".txt").
Proof.
  intros. refine (conj _ (conj _ (conj _ (conj _ _)))); intros r w' Hrun Hok.
  - destruct (saveAudioFile_success _ _ _ Hrun Hok)
      as (url & base & mime & data & bytes & file & _ & -> & _ & _ & Hf & Hn & _).
    exists base, file. repeat split; try assumption.
    rewrite Hn.
    destruct (JsString.endsWith (JsString.toLowerCase base) ".mp3") eqn:E;
      [exact E |].
    unfold JsString.toLowerCase. rewrite map_append. apply endsWith_append.
  - destruct (saveVideoFile_success _ _ _ _ _ Hrun Hok)
      as (url & given & declared & data & bytes & file & _ & Hg & _ & _ & Hf & Hn & _).
    exists given, file. auto.
  - destruct (savePhotoFile_success _ _ _ _ Hrun Hok)
      as (url & given & declared & data & bytes & file & _ & Hg & _ & _ & Hf & Hn & _).
    exists given, file. auto.
  - destruct (saveDrawingFile_success _ _ _ Hrun Hok)
      as (url & mime & data & bytes & file & _ & _ & _ & Hf & Hn & _).
    exists file. auto.
  - destruct (saveTextFile_success _ _ _ Hrun Hok)
      as (content & base & file & _ & -> & Hf & Hn & _).
    exists base, file. auto.
Qed.

(** The video of scenario 2: extension [mkv] falls back to [webm]. *)
Lemma saved_file_names_witness :
  exists given file,
    orDefault (JStr "mkv") (JStr "webm") = JStr given
    /\ files (snd (saveVideoFile (JStr "data:video/webm;base64,AAAA") (JStr "clip")
                                 (JStr "mkv") JUndefined (Sample.fresh "3-A")))
       = (files (Sample.fresh "3-A") ++ [file])%list
    /\ driveFileName file
       = "clip" ++ "."
         ++ (if inList (JsString.toLowerCase given) ["mp4"; "webm"]
             then JsString.toLowerCase given else "webm").
Proof.
  pose (run := saveVideoFile (JStr "data:video/webm;base64,AAAA") (JStr "clip")
                             (JStr "mkv") JUndefined (Sample.fresh "3-A")).
  apply (proj1 (proj2 (saved_file_names (JStr "data:video/webm;base64,AAAA")
                         (JStr "clip") (JStr "mkv") JUndefined (Sample.fresh "3-A")))
               (Sample.valueOf (failure "") run) (snd run)).
  - apply run_split. vm_compute. reflexivity.
  - vm_compute. reflexivity.
Defined.

(** C10.  When [saveVideoFile] succeeds, the file it wrote carries the
    content type of the [mimeType] argument whenever that argument is truthy:
    [video/webm] when it is omitted, the argument itself when it is a
    non-empty string, and what the platform makes of it when it is a truthy
    value of another type.  Only a falsy argument ([null], [false], [0],
    [NaN], the empty string) lets the type declared in the data URL
    through. *)
Theorem video_content_type_prefers_argument :
  forall (videoDataUrl baseFileName extension mimeType : JsVal) (w : World) r w',
    saveVideoFile videoDataUrl baseFileName extension mimeType w = (Normal r, w') ->
    success r = true ->
    exists url declared data file,
      videoDataUrl = JStr url
      /\ Regex.dataUrl url = Some (declared, data)
      /\ files w' = (files w ++ [file])%list
      /\ (mimeType = JUndefined -> driveFileMime file = "video/webm")
      /\ (forall t, mimeType = JStr t -> t <> "" -> driveFileMime file = t)
      /\ (truthy mimeType = true -> isString mimeType = false ->
          coerceToString (platform w) mimeType = Some (driveFileMime file))
      /\ (mimeType <> JUndefined -> truthy mimeType = false ->
          driveFileMime file = declared).
Proof.
  intros videoDataUrl baseFileName extension mimeType w r w' Hrun Hok.
  destruct (saveVideoFile_success _ _ _ _ _ Hrun Hok)
    as (url & given & declared & data & bytes & file
        & Hu & _ & Hd & _ & Hf & _ & Hm & _).
  exists url, declared, data, file.
  repeat lazymatch goal with |- _ /\ _ => split end; try assumption.
  - intros ->. exact Hm.
  - intros t -> Ht. simpl in Hm. unfold jsOr in Hm. simpl in Hm.
    destruct (isEmptyStr t) eqn:E; [| exact Hm].
    unfold isEmptyStr in E. apply String.eqb_eq in E. contradiction.
  - intros Ht Hs. unfold jsOr in Hm.
    destruct mimeType as [| | [] | | | |]; try discriminate; simpl in Hm, Ht;
      rewrite ?Ht in Hm; exact Hm.
  - intros Hu' Ht. unfold jsOr in Hm.
    destruct mimeType as [| | [] | | | |]; try contradiction; simpl in Hm, Ht;
      rewrite ?Ht in Hm; try discriminate; exact Hm.
Qed.

(** A recording declared [video/webm] in its data URL and saved with the
    argument [video/mp4] is stored as [video/mp4]. *)
Lemma video_content_type_witness :
  exists url declared data file,
    JStr "data:video/webm;base64,AAAA" = JStr url
    /\ Regex.dataUrl url = Some (declared, data)
    /\ files (snd (saveVideoFile (JStr "data:video/webm;base64,AAAA") (JStr "clip")
                                 (JStr "mp4") (JStr "video/mp4") (Sample.fresh "3-A")))
       = (files (Sample.fresh "3-A") ++ [file])%list
    /\ (JStr "video/mp4" = JUndefined -> driveFileMime file = "video/webm")
    /\ (forall t, JStr "video/mp4" = JStr t -> t <> "" -> driveFileMime file = t)
    /\ (truthy (JStr "video/mp4") = true -> isString (JStr "video/mp4") = false ->
        coerceToString (platform (Sample.fresh "3-A")) (JStr "video/mp4")
        = Some (driveFileMime file))
    /\ (JStr "video/mp4" <> JUndefined -> truthy (JStr "video/mp4") = false ->
        driveFileMime file = declared).
Proof.
  apply (video_content_type_prefers_argument
           (JStr "data:video/webm;base64,AAAA") (JStr "clip") (JStr "mp4")
           (JStr "video/mp4") (Sample.fresh "3-A")
           (r := Sample.valueOf (failure "")
                   (saveVideoFile (JStr "data:video/webm;base64,AAAA") (JStr "clip")
                                  (JStr "mp4") (JStr "video/mp4") (Sample.fresh "3-A")))).
  - apply run_split. vm_compute. reflexivity.
  - vm_compute. reflexivity.
Defined.

(** Raw base64 text without the [data:] prefix, sent to each media handler. *)
Lemma malformed_data_url_witness :
  let w := Sample.fresh "3-A" in
  wp (saveAudioFile (JStr "AAAA") (JStr "note"))
     (fun o w' => o = Normal (failure "音声ファイルの保存中にエラーが発生しました。")
                  /\ sameStore w w') w
  /\ wp (saveVideoFile (JStr "AAAA") (JStr "note") JUndefined JUndefined)
     (fun o w' => o = Normal (failure "動画ファイルの保存中にエラーが発生しました。")
                  /\ sameStore w w') w
  /\ wp (savePhotoFile (JStr "AAAA") (JStr "note") JUndefined)
     (fun o w' => o = Normal (failure "写真ファイルの保存中にエラーが発生しました。")
                  /\ sameStore w w') w
  /\ wp (saveDrawingFile (JStr "AAAA") (JStr "note"))
     (fun o w' => o = Normal (failure "お絵かきファイルの保存中にエラーが発生しました。")
                  /\ sameStore w w') w.
Proof.
  apply (malformed_data_url_saves_nothing (s := "AAAA")).
  intros (mime & data & _ & _ & E). simpl in E. discriminate E.
Defined.

(** ** Folder lookup *)

Unset Implicit Arguments.

Lemma bind_run {A B} {m : M A} (k : A -> M B) {w a w1} :
  m w = (Normal a, w1) -> bind m k w = k a w1.
Proof. unfold bind. intros ->. reflexivity. Qed.

Lemma bind_throws {A B} {m : M A} (k : A -> M B) {w e w1} :
  m w = (Throw e, w1) -> bind m k w = (Throw e, w1).
Proof. unfold bind. intros ->. reflexivity. Qed.

Lemma remote_reliable what w : faults w = [] -> remote what w = (Normal tt, w).
Proof. unfold remote, bind, getWorld. intros ->. reflexivity. Qed.

Lemma parent_reliable parentFolder w :
  faults w = [] ->
  match parentFolder with
  | Some p => ret p
  | None => DriveApp.getRootFolder
  end w = (Normal (parentOf parentFolder), w).
Proof.
  intros Hf. destruct parentFolder as [p |]; [reflexivity |].
  unfold DriveApp.getRootFolder.
  rewrite (bind_run _ (remote_reliable _ _ Hf)). reflexivity.
Qed.

Lemma getFoldersByName_reliable parent name w :
  faults w = [] ->
  DriveApp.getFoldersByName parent name w
  = (Normal (filter (DriveApp.isChildNamed parent name) (folders w)), w).
Proof.
  intros Hf. unfold DriveApp.getFoldersByName.
  rewrite (bind_run _ (remote_reliable _ _ Hf)). reflexivity.
Qed.

Lemma accepted_name name :
  isEmptyStr (JsString.trim name) = false ->
  negb (truthy (JStr name)) || negb (isString (JStr name))
  || isEmptyStr (JsString.trim (toStr (JStr name))) = false.
Proof.
  intros Ht. simpl. rewrite Ht.
  destruct name; [discriminate Ht | reflexivity].
Qed.

Lemma refused_name v :
  refusedName v ->
  negb (truthy v) || negb (isString v)
  || isEmptyStr (JsString.trim (toStr v)) = true.
Proof.
  intros [Hs | (s & -> & Ht)].
  - rewrite Hs. simpl. rewrite orb_true_r. reflexivity.
  - simpl. rewrite Ht. simpl. apply orb_true_r.
Qed.

(** The claim as first stated promises the identifier for every name that
    has a folder; a folder whose name is a single space exists here, and the
    lookup by that name throws. *)
Lemma blank_folder_name_counterexample :
  ~ (forall w name parentFolder first rest,
        faults w = [] ->
        filter (DriveApp.isChildNamed (parentOf parentFolder) name) (folders w)
        = first :: rest ->
        getOrCreateFolderIdByName (JStr name) parentFolder w
        = (Normal (folderId first), w)).
Proof.
  intros H.
  specialize (H Sample.withBlankFolder " " None
                (mkFolder 1 " " (DriveApp.folderUrlOf 1) 0) [] eq_refl eq_refl).
  apply (f_equal fst) in H. vm_compute in H. discriminate H.
Qed.

(** C8, amended.  With a backend that answers, a name that has something
    other than white space in it and already names a child folder of the
    parent is resolved to the first such folder, the world is left exactly as
    it was, and so a second call gives the same identifier again and still
    creates nothing.  A name that is not a string, is empty, or is made of
    white space only is refused with the error of the script, before Drive is
    searched. *)
Theorem folder_lookup_is_idempotent :
  forall (w : World) (parentFolder : option Folder),
    faults w = [] ->
    (forall name first rest,
        isEmptyStr (JsString.trim name) = false ->
        filter (DriveApp.isChildNamed (parentOf parentFolder) name) (folders w)
        = first :: rest ->
        getOrCreateFolderIdByName (JStr name) parentFolder w
        = (Normal (folderId first), w)
        /\ getOrCreateFolderIdByName (JStr name) parentFolder
             (snd (getOrCreateFolderIdByName (JStr name) parentFolder w))
           = (Normal (folderId first), w))
    /\ (forall v,
           refusedName v ->
           getOrCreateFolderIdByName v parentFolder w
           = (Throw (newError "有効なフォルダ名が指定されていません。"), w)).
Proof.
  intros w parentFolder Hf. split.
  - intros name first rest Hname Hfound.
    assert (E : getOrCreateFolderIdByName (JStr name) parentFolder w
                = (Normal (folderId first), w)).
    { unfold getOrCreateFolderIdByName.
      rewrite (bind_run _ (parent_reliable parentFolder w Hf)).
      rewrite (accepted_name _ Hname).
      simpl toStr.
      rewrite (bind_run _ (getFoldersByName_reliable _ _ _ Hf)).
      rewrite Hfound. reflexivity. }
    split; [exact E |]. rewrite E. exact E.
  - intros v Hv. unfold getOrCreateFolderIdByName.
    rewrite (bind_run _ (parent_reliable parentFolder w Hf)).
    rewrite (refused_name _ Hv). reflexivity.
Qed.

(** The parent folder of the app, already present in Drive, looked up twice;
    and the empty name refused. *)
Lemma folder_lookup_witness :
  (getOrCreateFolderIdByName (JStr PARENT_FOLDER_NAME) None Sample.withParentFolder
   = (Normal 1, Sample.withParentFolder)
   /\ getOrCreateFolderIdByName (JStr PARENT_FOLDER_NAME) None
        (snd (getOrCreateFolderIdByName (JStr PARENT_FOLDER_NAME) None
                                        Sample.withParentFolder))
      = (Normal 1, Sample.withParentFolder))
  /\ getOrCreateFolderIdByName (JStr "") None Sample.withParentFolder
     = (Throw (newError "有効なフォルダ名が指定されていません。"), Sample.withParentFolder).
Proof.
  destruct (folder_lookup_is_idempotent Sample.withParentFolder None eq_refl)
    as [Hfound Hrefused].
  split.
  - exact (Hfound PARENT_FOLDER_NAME
             (mkFolder 1 PARENT_FOLDER_NAME (DriveApp.folderUrlOf 1) 0) []
             eq_refl eq_refl).
  - apply Hrefused. right. exists "". split; reflexivity.
Defined.

(** ** The mode settings *)

Lemma remote_passes what w rest :
  faults w = false :: rest ->
  remote what w = (Normal tt, withSchedule w rest).
Proof. unfold remote, bind, getWorld. intros ->. reflexivity. Qed.

Lemma remote_fails what w rest :
  faults w = true :: rest ->
  remote what w = (Throw (serviceError what), withSchedule w rest).
Proof. unfold remote, bind, getWorld. intros ->. reflexivity. Qed.

Lemma lookup_replace name sh sh' ss :
  lookupSheet name ss = Some sh ->
  lookupSheet name (replaceSheet name sh' ss) = Some sh'.
Proof.
  unfold lookupSheet. induction ss as [| [n old] ss IH]; simpl; [discriminate |].
  destruct (String.eqb n name) eqn:E; simpl; rewrite E; auto.
Qed.

Lemma getSheetByName_found name sh w :
  lookupSheet name (sheets w) = Some sh ->
  getSheetByName name w = (Normal (Some name), w).
Proof. unfold getSheetByName, bind, getWorld. intros ->. reflexivity. Qed.

Lemma getSheetByName_missing name w :
  lookupSheet name (sheets w) = None ->
  getSheetByName name w = (Normal None, w).
Proof. unfold getSheetByName, bind, getWorld. intros ->. reflexivity. Qed.

Lemma readSheet_found name sh w :
  lookupSheet name (sheets w) = Some sh -> readSheet name w = (Normal sh, w).
Proof. unfold readSheet, bind, getWorld. intros ->. reflexivity. Qed.

Lemma getValues_reliable name sh r w :
  faults w = [] ->
  lookupSheet name (sheets w) = Some sh ->
  getValues name r w
  = (Normal (List.map (fun i => List.map (fun j => cellAt (grid sh) (rangeRow r + i)
                                                          (rangeCol r + j))
                                         (seq 0 (rangeCols r)))
                      (seq 0 (rangeRows r))), w).
Proof.
  intros Hf Hs. unfold getValues.
  rewrite (bind_run _ (remote_reliable _ _ Hf)).
  rewrite (bind_run _ (readSheet_found _ _ _ Hs)). reflexivity.
Qed.

Lemma setValue_reliable name sh r v w :
  faults w = [] ->
  lookupSheet name (sheets w) = Some sh ->
  setValue name r v w
  = (Normal tt,
     withSheets w
       (replaceSheet name
          (mkSheet (fold_left (fun g rc => setCell g (fst rc) (snd rc) v)
                              (rangeCells r) (grid sh))
                   (boldCells sh) (columnWidths sh))
          (sheets w))).
Proof.
  intros Hf Hs. unfold setValue.
  rewrite (bind_run _ (remote_reliable _ _ Hf)).
  rewrite (bind_run _ (readSheet_found _ _ _ Hs)). reflexivity.
Qed.

Lemma getModeSettings_reliable StringToNumber w sh :
  faults w = [] ->
  lookupSheet SUBFOLDER_SHEET_NAME (sheets w) = Some sh ->
  getModeSettings StringToNumber w
  = if modeFlag StringToNumber sh 1 || modeFlag StringToNumber sh 2
       || modeFlag StringToNumber sh 3 || modeFlag StringToNumber sh 4
       || modeFlag StringToNumber sh 5
    then (Normal (mkModes (modeFlag StringToNumber sh 1) (modeFlag StringToNumber sh 2)
                          (modeFlag StringToNumber sh 3) (modeFlag StringToNumber sh 4)
                          (modeFlag StringToNumber sh 5) None), w)
    else (Normal (mkModes true false false false false None),
          withSheets w
            (replaceSheet SUBFOLDER_SHEET_NAME
               (mkSheet (setCell (grid sh) 1 5 (CNum 1)) (boldCells sh)
                        (columnWidths sh))
               (sheets w))).
Proof.
  intros Hf Hs. unfold getModeSettings, tryCatch, getModeSettingsTry.
  unfold SpreadsheetApp.openById.
  rewrite (bind_run _ (remote_reliable _ _ Hf)).
  rewrite (bind_run _ (getSheetByName_found _ _ _ Hs)).
  change (a1 "E1:E5") with (ret (mkRange 1 5 5 1)).
  rewrite (bind_run _ (eq_refl : ret (mkRange 1 5 5 1) w = (Normal _, w))).
  rewrite (bind_run _ (getValues_reliable _ _ _ _ Hf Hs)).
  cbn [rangeRow rangeCol rangeRows rangeCols seq List.map concat app flagAt
       nth_error Nat.add].
  fold (modeFlag StringToNumber sh 1) (modeFlag StringToNumber sh 2)
       (modeFlag StringToNumber sh 3) (modeFlag StringToNumber sh 4)
       (modeFlag StringToNumber sh 5).
  destruct (modeFlag StringToNumber sh 1), (modeFlag StringToNumber sh 2),
    (modeFlag StringToNumber sh 3), (modeFlag StringToNumber sh 4),
    (modeFlag StringToNumber sh 5);
    cbn [negb andb orb]; try reflexivity.
  change (a1 "E1") with (ret (mkRange 1 5 1 1)).
  rewrite (bind_run _
             (setValue_reliable SUBFOLDER_SHEET_NAME sh (mkRange 1 5 1 1) (CNum 1)
                                w Hf Hs
              : (range <- ret (mkRange 1 5 1 1) ;;
                 setValue SUBFOLDER_SHEET_NAME range (CNum 1)) w = _)).
  reflexivity.
Qed.






(** ** Arguments the handlers refuse *)

Section Refusals.

Context (R : World -> World -> Prop) `{Frame R}.

Lemma fails_guard {A} (test : bool) e (k : unit -> M A) :
  test = true -> fails R (bind (if test then throw e else ret tt) k).
Proof. intros ->. apply fails_bind_l. apply @fails_throw; frame. Qed.

End Refusals.

Lemma not_a_nonempty_string v :
  truthy v = false \/ isString v = false ->
  negb (truthy v) || negb (isString v) = true.
Proof. intros [-> | ->]; [reflexivity | apply orb_true_r]. Qed.

(** ** The header of the history sheet *)

(** The header row as [createHistorySheetIfNotExists] reads it: the cells of
    row 1 up to the last column of the sheet that has content. *)
Lemma header_read {A} name sh w (k : list (list Cell) -> M A) :
  faults w = [] ->
  lookupSheet name (sheets w) = Some sh ->
  lastColumnOf (grid sh) <> 0 ->
  (lastColumn <- getLastColumn name ;;
   range <- getRange 1 1 1 lastColumn ;;
   values <- getValues name range ;;
   k values) w
  = k [List.map (fun j => cellAt (grid sh) 1 (1 + j))
                (seq 0 (lastColumnOf (grid sh)))] w.
Proof.
  intros Hf Hs Hn.
  assert (E : getLastColumn name w = (Normal (lastColumnOf (grid sh)), w)).
  { unfold getLastColumn.
    rewrite (bind_run _ (remote_reliable _ _ Hf)).
    rewrite (bind_run _ (readSheet_found _ _ _ Hs)). reflexivity. }
  rewrite (bind_run _ E).
  assert (Er : getRange 1 1 1 (lastColumnOf (grid sh)) w
               = (Normal (mkRange 1 1 1 (lastColumnOf (grid sh))), w)).
  { unfold getRange. destruct (lastColumnOf (grid sh)); [now elim Hn | reflexivity]. }
  rewrite (bind_run _ Er).
  rewrite (bind_run _ (getValues_reliable _ _ _ _ Hf Hs)). reflexivity.
Qed.

(** A history sheet whose header already carries both titles is left exactly
    as it is, however often the function runs. *)
Lemma current_header_is_left_alone w sh :
  faults w = [] ->
  lookupSheet HISTORY_SHEET_NAME (sheets w) = Some sh ->
  lastColumnOf (grid sh) <> 0 ->
  let headers := List.map (fun j => cellAt (grid sh) 1 (1 + j))
                          (seq 0 (lastColumnOf (grid sh))) in
  includes headers "メディアタイプ" = true ->
  includes headers "ファイル形式" = true ->
  createHistorySheetIfNotExists w = (Normal HISTORY_SHEET_NAME, w).
Proof.
  intros Hf Hs Hn headers Hmedia Hformat.
  unfold createHistorySheetIfNotExists, SpreadsheetApp.openById.
  rewrite (bind_run _ (remote_reliable _ _ Hf)).
  rewrite (bind_run _ (getSheetByName_found _ _ _ Hs)).
  rewrite (header_read _ _ _ _ Hf Hs Hn).
  cbn [nth]. fold headers.
  rewrite Hmedia, Hformat. reflexivity.
Qed.

Lemma nth_padTo {A} n (d : A) l j : nth j (padTo n d l) d = nth j l d.
Proof.
  unfold padTo. destruct (Nat.lt_ge_cases j (List.length l)) as [Hj | Hj].
  - apply app_nth1. exact Hj.
  - rewrite app_nth2 by exact Hj. rewrite nth_repeat.
    symmetry. apply nth_overflow. exact Hj.
Qed.

Lemma padTo_length {A} n (d : A) l : n <= List.length (padTo n d l).
Proof. unfold padTo. rewrite length_app, repeat_length. lia. Qed.

Lemma nth_setNth {A} i (v d : A) l j :
  i < List.length l ->
  nth j (setNth i v l) d = if Nat.eqb j i then v else nth j l d.
Proof.
  intros Hi. unfold setNth.
  assert (Hlen : List.length (firstn i l) = i) by (apply firstn_length_le; lia).
  destruct (Nat.eqb_spec j i) as [-> | Hne].
  - rewrite app_nth2 by lia. rewrite Hlen, Nat.sub_diag. reflexivity.
  - destruct (Nat.lt_ge_cases j i) as [Hlt | Hge].
    + rewrite app_nth1 by lia.
      rewrite <- (firstn_skipn i l) at 2. rewrite app_nth1 by lia. reflexivity.
    + rewrite app_nth2 by lia. rewrite Hlen.
      destruct (j - i) as [| k] eqn:Hk; [lia |]. simpl.
      rewrite <- (firstn_skipn (S i) l) at 2.
      assert (Hlen' : List.length (firstn (S i) l) = S i)
        by (apply firstn_length_le; lia).
      rewrite app_nth2 by lia. rewrite Hlen'. f_equal. lia.
Qed.

(** Writing one cell changes that cell and no other. *)
Lemma cellAt_setCell g r c v r' c' :
  1 <= r -> 1 <= c ->
  cellAt (setCell g r c v) r' c'
  = if Nat.eqb (r' - 1) (r - 1) && Nat.eqb (c' - 1) (c - 1)
    then v else cellAt g r' c'.
Proof.
  intros Hr Hc. unfold cellAt, setCell.
  pose proof (padTo_length r [] g) as Hg.
  rewrite nth_setNth by lia.
  destruct (Nat.eqb_spec (r' - 1) (r - 1)) as [-> | Hne]; cbn [andb].
  - pose proof (padTo_length c emptyCell (nth (r - 1) (padTo r [] g) [])) as Hrow.
    rewrite nth_setNth by lia.
    destruct (Nat.eqb (c' - 1) (c - 1)); [reflexivity |].
    rewrite nth_padTo, nth_padTo. reflexivity.
  - rewrite nth_padTo. reflexivity.
Qed.

Lemma replaceSheet_twice name a b ss :
  replaceSheet name b (replaceSheet name a ss) = replaceSheet name b ss.
Proof.
  induction ss as [| [n old] ss IH]; simpl; [reflexivity |].
  destruct (String.eqb n name) eqn:E; simpl; rewrite E; [reflexivity |].
  now rewrite IH.
Qed.

(** One header column: the title lands in row 1 of the column, in bold, and
    the column is made 100 wide. *)
Lemma addHeaderColumn_reliable name sh c title w :
  faults w = [] ->
  lookupSheet name (sheets w) = Some sh ->
  1 <= c ->
  addHeaderColumn name c title w
  = (Normal tt,
     withSheets w
       (replaceSheet name
          (mkSheet (setCell (grid sh) 1 c (CStr title))
                   (boldCells sh ++ [(1, c)]) ((c, 100) :: columnWidths sh))
          (sheets w))).
Proof.
  intros Hf Hs Hc. unfold addHeaderColumn.
  assert (Er : getRange 1 c 1 1 = ret (mkRange 1 c 1 1)).
  { unfold getRange. replace (c =? 0)%nat with false; [reflexivity |].
    symmetry. apply Nat.eqb_neq. lia. }
  rewrite Er.
  set (sh3 := mkSheet (setCell (grid sh) 1 c (CStr title))
                      (boldCells sh) (columnWidths sh)).
  set (w3 := withSheets w (replaceSheet name sh3 (sheets w))).
  assert (E3 : (range <- ret (mkRange 1 c 1 1) ;;
                setValue name range (CStr title)) w = (Normal tt, w3)).
  { change ((range <- ret (mkRange 1 c 1 1) ;; setValue name range (CStr title)) w)
      with (setValue name (mkRange 1 c 1 1) (CStr title) w).
    rewrite (setValue_reliable _ _ _ _ _ Hf Hs).
    unfold rangeCells. cbn [rangeRow rangeCol rangeRows rangeCols seq flat_map
                             List.map app fold_left fst snd].
    rewrite !Nat.add_0_r. reflexivity. }
  assert (Hs3 : lookupSheet name (sheets w3) = Some sh3)
    by exact (lookup_replace _ _ _ _ Hs).
  set (sh4 := mkSheet (grid sh3) (boldCells sh3 ++ [(1, c)]) (columnWidths sh3)).
  set (w4 := withSheets w3 (replaceSheet name sh4 (sheets w3))).
  assert (E4 : (range <- ret (mkRange 1 c 1 1) ;;
                setFontWeightBold name range) w3 = (Normal tt, w4)).
  { change ((range <- ret (mkRange 1 c 1 1) ;; setFontWeightBold name range) w3)
      with (setFontWeightBold name (mkRange 1 c 1 1) w3).
    unfold setFontWeightBold.
    rewrite (bind_run _ (remote_reliable _ w3 Hf)).
    rewrite (bind_run _ (readSheet_found _ _ _ Hs3)).
    unfold rangeCells. cbn [rangeRow rangeCol rangeRows rangeCols seq flat_map
                             List.map app].
    rewrite !Nat.add_0_r. reflexivity. }
  assert (Hs4 : lookupSheet name (sheets w4) = Some sh4)
    by exact (lookup_replace _ _ _ _ Hs3).
  rewrite (bind_run _ E3), (bind_run _ E4).
  unfold setColumnWidth.
  rewrite (bind_run _ (remote_reliable _ w4 Hf)).
  rewrite (bind_run _ (readSheet_found _ _ _ Hs4)).
  unfold writeSheet, bind, getWorld, putWorld, w4, w3, withSheets.
  cbn [sheets folders files nextId logger faults platform].
  rewrite !replaceSheet_twice. reflexivity.
Qed.

(** The case of the specification's migration test: a header that has the
    file-format title and lacks the media-type title gets that title in the
    first column after the last one in use, in bold and 100 wide, and every
    other cell of the sheet reads as before. *)
Lemma media_type_column_is_appended w sh :
  faults w = [] ->
  lookupSheet HISTORY_SHEET_NAME (sheets w) = Some sh ->
  lastColumnOf (grid sh) <> 0 ->
  let n := lastColumnOf (grid sh) in
  let headers := List.map (fun j => cellAt (grid sh) 1 (1 + j)) (seq 0 n) in
  includes headers "メディアタイプ" = false ->
  includes headers "ファイル形式" = true ->
  let sh' := mkSheet (setCell (grid sh) 1 (n + 1) (CStr "メディアタイプ"))
                     (boldCells sh ++ [(1, n + 1)])
                     ((n + 1, 100) :: columnWidths sh) in
  createHistorySheetIfNotExists w
  = (Normal HISTORY_SHEET_NAME,
     withSheets w (replaceSheet HISTORY_SHEET_NAME sh' (sheets w)))
  /\ cellAt (grid sh') 1 (n + 1) = CStr "メディアタイプ"
  /\ forall r c, 1 <= r -> 1 <= c -> (r, c) <> (1, n + 1) ->
                 cellAt (grid sh') r c = cellAt (grid sh) r c.
Proof.
  intros Hf Hs Hn n headers Hmedia Hformat sh'.
  split; [| split].
  - unfold createHistorySheetIfNotExists, SpreadsheetApp.openById.
    rewrite (bind_run _ (remote_reliable _ _ Hf)).
    rewrite (bind_run _ (getSheetByName_found _ _ _ Hs)).
    rewrite (header_read _ _ _ _ Hf Hs Hn).
    cbn [nth]. fold n. fold headers.
    rewrite Hmedia, Hformat. cbn [negb].
    assert (Hlen : List.length headers = n)
      by (unfold headers; rewrite length_map, length_seq; reflexivity).
    rewrite Hlen.
    rewrite (bind_run _ (addHeaderColumn_reliable _ _ (n + 1) _ _ Hf Hs
                           ltac:(lia))).
    reflexivity.
  - unfold sh'. cbn [grid]. rewrite cellAt_setCell by lia.
    rewrite !Nat.eqb_refl. reflexivity.
  - intros r c Hr Hc Hne. unfold sh'. cbn [grid].
    rewrite cellAt_setCell by lia.
    destruct (Nat.eqb_spec (r - 1) (1 - 1)) as [Er |]; [| reflexivity].
    destruct (Nat.eqb_spec (c - 1) (n + 1 - 1)) as [Ec |]; [| reflexivity].
    exfalso. apply Hne. f_equal; lia.
Qed.

(** The other case, on every sheet: a header that has the media-type title
    and lacks the file-format title gets the file-format title written into
    the last column in use, whatever stood there, and gains no column. *)
Lemma file_format_title_replaces_last_header w sh :
  faults w = [] ->
  lookupSheet HISTORY_SHEET_NAME (sheets w) = Some sh ->
  lastColumnOf (grid sh) <> 0 ->
  let n := lastColumnOf (grid sh) in
  let headers := List.map (fun j => cellAt (grid sh) 1 (1 + j)) (seq 0 n) in
  includes headers "メディアタイプ" = true ->
  includes headers "ファイル形式" = false ->
  let sh' := mkSheet (setCell (grid sh) 1 n (CStr "ファイル形式"))
                     (boldCells sh ++ [(1, n)])
                     ((n, 100) :: columnWidths sh) in
  createHistorySheetIfNotExists w
  = (Normal HISTORY_SHEET_NAME,
     withSheets w (replaceSheet HISTORY_SHEET_NAME sh' (sheets w)))
  /\ cellAt (grid sh') 1 n = CStr "ファイル形式"
  /\ cellAt (grid sh') 1 (n + 1) = cellAt (grid sh) 1 (n + 1).
Proof.
  intros Hf Hs Hn n headers Hmedia Hformat sh'.
  assert (Hpos : 1 <= n) by (unfold n; lia).
  split; [| split].
  - unfold createHistorySheetIfNotExists, SpreadsheetApp.openById.
    rewrite (bind_run _ (remote_reliable _ _ Hf)).
    rewrite (bind_run _ (getSheetByName_found _ _ _ Hs)).
    rewrite (header_read _ _ _ _ Hf Hs Hn).
    cbn [nth]. fold n. fold headers.
    rewrite Hmedia, Hformat. cbn [negb].
    assert (Hlen : List.length headers = n)
      by (unfold headers; rewrite length_map, length_seq; reflexivity).
    rewrite Hlen.
    rewrite (bind_run _ (eq_refl : ret tt w = (Normal tt, w))).
    rewrite (bind_run _ (addHeaderColumn_reliable _ _ n _ _ Hf Hs Hpos)).
    reflexivity.
  - unfold sh'. cbn [grid]. rewrite cellAt_setCell by lia.
    rewrite !Nat.eqb_refl. reflexivity.
  - unfold sh'. cbn [grid]. rewrite cellAt_setCell by lia.
    destruct (Nat.eqb_spec (n + 1 - 1) (n - 1)) as [E |]; [lia |].
    rewrite andb_false_r. reflexivity.
Qed.

(** ** Where the script departs from its description *)

(** C1, evaluated.  A history sheet whose header ends in the media-type
    column and lacks the file-format column: the call writes the file-format
    title into that last header cell, so the media-type title is gone and no
    column was appended; only the next call appends a media-type column.  A
    sheet that lacks both columns gets one column, not two, on the first
    call.  The one case that behaves as described is the sheet that lacks
    the media-type column only. *)
Theorem history_header_migration_overwrites :
  let migrate w := snd (createHistorySheetIfNotExists w) in
  let legacy header := Sample.withHistory (Sample.fresh "") header in
  Sample.historyHeader (migrate (legacy Sample.headerWithMediaType))
  = Some ["ファイル名"; "保存日時"; "フォルダパス"; "ファイルリンク"; "ファイル形式"]
  /\ Sample.historyHeader (migrate (migrate (legacy Sample.headerWithMediaType)))
     = Some HISTORY_HEADERS
  /\ Sample.historyHeader (migrate (legacy Sample.headerV1))
     = Some ["ファイル名"; "保存日時"; "フォルダパス"; "ファイルリンク"; "ファイル形式"]
  /\ Sample.historyHeader (migrate (legacy Sample.headerWithFormat))
     = Some HISTORY_HEADERS
  /\ Sample.historyHeader (migrate (migrate (legacy Sample.headerWithFormat)))
     = Some HISTORY_HEADERS.
Proof. vm_compute. repeat split. Qed.

(** [saveVideoFile], [savePhotoFile] and [saveDrawingFile] test their
    arguments for truthiness only: a base name of three spaces, and a base
    name that is the number 5, pass, the save succeeds and a file is
    written.  [saveAudioFile] and [saveTextFile] refuse the same
    arguments. *)
Example blank_base_name_is_accepted :
  let w := Sample.fresh "3-A" in
  let saved (run : Outcome SaveResult * World) :=
    (success (Sample.valueOf (failure "") run),
     List.map driveFileName (files (snd run))) in
  saved (saveVideoFile (JStr "data:video/webm;base64,AAAA") (JStr "   ")
                       JUndefined JUndefined w)
  = (true, ["   .webm"])
  /\ saved (savePhotoFile (JStr "data:image/png;base64,AAAA") (JStr "   ")
                          JUndefined w)
     = (true, ["   .jpg"])
  /\ saved (saveDrawingFile (JStr "data:image/png;base64,AAAA") (JStr "   ") w)
     = (true, ["   .png"])
  /\ saved (saveVideoFile (JStr "data:video/webm;base64,AAAA") (JNum 5)
                          JUndefined JUndefined w)
     = (true, ["5.webm"])
  /\ saved (saveAudioFile (JStr "data:audio/mp3;base64,AAAA") (JStr "   ") w)
     = (false, [])
  /\ saved (saveTextFile (JStr "hello") (JStr "   ") w)
     = (false, []).
Proof. vm_compute. repeat split. Qed.

(** ** White space, trimming and the sub-folder name *)

Section Trim.

Import JsString.

#[local] Open Scope nat_scope.

Lemma stripWs_shorter s r : stripWs s = Some r -> String.length r < String.length s.
Proof.
  unfold stripWs.
  destruct s as [| a [| b [| c r3]]]; try discriminate;
    repeat match goal with
      | |- context [if ?t then _ else _] => destruct t
      end;
    intros E; try discriminate E; injection E as <-; simpl; lia.
Qed.

Lemma stripWs_trimStartN n s :
  String.length s <= n -> stripWs (trimStartN n s) = None.
Proof.
  revert s. induction n as [| n IH]; intros s Hn; simpl.
  - destruct s; [reflexivity | simpl in Hn; lia].
  - destruct (stripWs s) as [r |] eqn:E; [| exact E].
    apply IH. apply stripWs_shorter in E. lia.
Qed.

Lemma stripWs_trimStart s : stripWs (trimStart s) = None.
Proof. apply stripWs_trimStartN. lia. Qed.

Lemma trimEnd_head s :
  trimEnd s = "" \/ exists c r, s = String c r /\ trimEnd s = String c (trimEnd r).
Proof.
  destruct s as [| c r]; [left; reflexivity |].
  simpl. destruct (allWs (String c r)); [left; reflexivity |].
  right. exists c, r. auto.
Qed.

Lemma allWs_unstripped c r : stripWs (String c r) = None -> allWs (String c r) = false.
Proof.
  intros Hu. unfold allWs.
  change (String.length (String c r)) with (S (String.length r)).
  cbn [allWsN]. rewrite Hu. reflexivity.
Qed.

Lemma trimStart_unstripped s : stripWs s = None -> trimStart s = s.
Proof.
  intros Hu. unfold trimStart.
  destruct (String.length s); cbn [trimStartN]; [reflexivity |].
  rewrite Hu. reflexivity.
Qed.

Lemma stripWs_trimEnd c r :
  stripWs (String c r) = None -> stripWs (String c (trimEnd r)) = None.
Proof.
  destruct (trimEnd_head r) as [E | (b & r2 & -> & E)]; rewrite E.
  - unfold stripWs. destruct (isAsciiWs c); [discriminate | reflexivity].
  - destruct (trimEnd_head r2) as [E2 | (d & r3 & -> & E2)]; rewrite E2;
      unfold stripWs;
      destruct (isAsciiWs c); try discriminate;
      destruct (isWs2 c b); try discriminate; auto;
      destruct (isWs3 c b d); try discriminate; auto.
Qed.

(** A trimmed text that is not empty starts with a character that is no
    white space. *)
Lemma trim_unstripped s :
  trim s <> "" -> exists c r, trim s = String c r /\ stripWs (String c r) = None.
Proof.
  unfold trim. pose proof (stripWs_trimStart s) as Hu.
  destruct (trimStart s) as [| c r]; [intros H; now elim H |].
  intros _. exists c, (trimEnd r).
  split; [| exact (stripWs_trimEnd _ _ Hu)].
  simpl. rewrite (allWs_unstripped _ _ Hu). reflexivity.
Qed.

Lemma trim_of_unstripped c r :
  stripWs (String c r) = None -> trim (String c r) <> "".
Proof.
  intros Hu. unfold trim. rewrite (trimStart_unstripped _ Hu).
  simpl. rewrite (allWs_unstripped _ _ Hu). discriminate.
Qed.

Ltac codes :=
  unfold isAsciiWs, isWs2, isWs3, isHighByte, isUnsafeChar, existsb, code in *;
  repeat match goal with
    | |- context [nat_of_ascii ?a] =>
        is_var a; generalize (nat_of_ascii a); clear a; intro a
    | H : context [nat_of_ascii ?a] |- _ =>
        is_var a; revert H; generalize (nat_of_ascii a); clear a; intros a H
    end;
  repeat (progress rewrite ?orb_true_iff, ?andb_true_iff, ?orb_false_iff,
            ?andb_false_iff, ?Nat.eqb_eq, ?Nat.leb_le, ?Nat.eqb_neq, ?Nat.leb_gt in *).

Lemma unsafe_is_ascii a : isUnsafeChar a = true -> isHighByte a = false.
Proof. intros H. codes. lia. Qed.

Lemma san_high a : isHighByte a = true -> sanitizeChar a = a.
Proof.
  intros H. unfold sanitizeChar. destruct (isUnsafeChar a) eqn:E; [| reflexivity].
  rewrite (unsafe_is_ascii _ E) in H. discriminate.
Qed.

Lemma high_san a : isHighByte (sanitizeChar a) = isHighByte a.
Proof.
  unfold sanitizeChar. destruct (isUnsafeChar a) eqn:E; [| reflexivity].
  rewrite (unsafe_is_ascii _ E). reflexivity.
Qed.

Lemma isAsciiWs_san a : isAsciiWs (sanitizeChar a) = isAsciiWs a.
Proof.
  unfold sanitizeChar. destruct (isUnsafeChar a) eqn:E; [| reflexivity].
  transitivity false; [reflexivity |].
  symmetry. destruct (isAsciiWs a) eqn:W; [| reflexivity].
  exfalso. codes. lia.
Qed.

Lemma isWs2_high a b : isWs2 a b = true -> isHighByte a = true /\ isHighByte b = true.
Proof. intros H. codes. lia. Qed.

Lemma isWs3_high a b c :
  isWs3 a b c = true -> isHighByte a = true /\ isHighByte b = true /\ isHighByte c = true.
Proof. intros H. codes. lia. Qed.

Lemma isWs2_san a b : isWs2 (sanitizeChar a) (sanitizeChar b) = isWs2 a b.
Proof.
  destruct (isWs2 a b) eqn:E.
  - destruct (isWs2_high _ _ E) as [Ha Hb].
    rewrite (san_high _ Ha), (san_high _ Hb). exact E.
  - destruct (isWs2 (sanitizeChar a) (sanitizeChar b)) eqn:E'; [| reflexivity].
    destruct (isWs2_high _ _ E') as [Ha Hb]. rewrite high_san in Ha, Hb.
    rewrite (san_high _ Ha), (san_high _ Hb) in E'. congruence.
Qed.

Lemma isWs3_san a b c : isWs3 (sanitizeChar a) (sanitizeChar b) (sanitizeChar c) = isWs3 a b c.
Proof.
  destruct (isWs3 a b c) eqn:E.
  - destruct (isWs3_high _ _ _ E) as (Ha & Hb & Hc).
    rewrite (san_high _ Ha), (san_high _ Hb), (san_high _ Hc). exact E.
  - destruct (isWs3 (sanitizeChar a) (sanitizeChar b) (sanitizeChar c)) eqn:E'; [| reflexivity].
    destruct (isWs3_high _ _ _ E') as (Ha & Hb & Hc).
    rewrite high_san in Ha, Hb, Hc.
    rewrite (san_high _ Ha), (san_high _ Hb), (san_high _ Hc) in E'. congruence.
Qed.

Lemma stripWs_sanitize s : stripWs s = None -> stripWs (sanitize s) = None.
Proof.
  unfold sanitize.
  destruct s as [| a [| b [| c r]]]; simpl;
    rewrite ?isAsciiWs_san, ?isWs2_san, ?isWs3_san;
    repeat match goal with
      | |- context [if ?t then _ else _] => destruct t
      end; auto; discriminate.
Qed.

(** What [getSubFolderNameFromSheet] returns passes the name test of
    [getOrCreateFolderIdByName]. *)
Lemma sanitized_name_accepted text :
  isEmptyStr (trim text) = false ->
  isEmptyStr (trim (sanitize (trim text))) = false.
Proof.
  unfold isEmptyStr. intros Ht.
  assert (Hne : trim text <> "") by (intros E; rewrite E in Ht; discriminate).
  destruct (trim_unstripped _ Hne) as (c & r & -> & Hu).
  pose proof (stripWs_sanitize _ Hu) as Hs.
  change (sanitize (String c r)) with (String (sanitizeChar c) (sanitize r)) in *.
  apply String.eqb_neq. exact (trim_of_unstripped _ _ Hs).
Qed.

End Trim.

(** ** A save that goes through *)

Lemma find_exists {A} (p : A -> bool) (l : list A) x :
  In x l -> p x = true -> exists y, find p l = Some y.
Proof.
  induction l as [| a l IH]; simpl; [contradiction |].
  intros [-> | Hin] Hp.
  - rewrite Hp. eauto.
  - destruct (p a); eauto.
Qed.

Lemma getFolderById_reliable id w :
  faults w = [] ->
  (exists x, In x (folders w) /\ folderId x = id) ->
  exists f, DriveApp.getFolderById id w = (Normal f, w).
Proof.
  intros Hf (x & Hin & Hid). unfold DriveApp.getFolderById.
  rewrite (bind_run _ (remote_reliable _ _ Hf)).
  unfold bind, getWorld.
  destruct (Nat.eqb id (folderId DriveApp.rootFolder)); [eexists; reflexivity |].
  destruct (find_exists (fun f => Nat.eqb (folderId f) id) _ x Hin) as [y Hy].
  { rewrite Hid. apply Nat.eqb_refl. }
  rewrite Hy. eexists. reflexivity.
Qed.

Lemma getOrCreateFolderIdByName_reliable name parentFolder w :
  faults w = [] ->
  isEmptyStr (JsString.trim name) = false ->
  exists id w',
    getOrCreateFolderIdByName (JStr name) parentFolder w = (Normal id, w')
    /\ faults w' = [] /\ platform w' = platform w /\ files w' = files w
    /\ exists f, DriveApp.getFolderById id w' = (Normal f, w').
Proof.
  intros Hf Hname. unfold getOrCreateFolderIdByName.
  rewrite (bind_run _ (parent_reliable parentFolder w Hf)).
  rewrite (accepted_name _ Hname). simpl toStr.
  rewrite (bind_run _ (getFoldersByName_reliable _ _ _ Hf)).
  destruct (filter (DriveApp.isChildNamed (parentOf parentFolder) name) (folders w))
    as [| first rest] eqn:Hfound.
  - unfold tryCatch, DriveApp.createFolder.
    rewrite (bind_run _ (bind_run _ (remote_reliable _ _ Hf))).
    eexists _, _. split; [reflexivity |].
    repeat split; try assumption.
    apply getFolderById_reliable; [assumption |].
    eexists. split; [apply in_or_app; right; left; reflexivity | reflexivity].
  - exists (folderId first), w. repeat split; try assumption.
    apply getFolderById_reliable; [assumption |].
    exists first. split; [| reflexivity].
    assert (Hin : In first (filter (DriveApp.isChildNamed (parentOf parentFolder) name)
                                   (folders w)))
      by (rewrite Hfound; left; reflexivity).
    apply filter_In in Hin. tauto.
Qed.

Lemma getValue_reliable name sh r w :
  faults w = [] ->
  lookupSheet name (sheets w) = Some sh ->
  getValue name r w = (Normal (cellAt (grid sh) (rangeRow r) (rangeCol r)), w).
Proof.
  intros Hf Hs. unfold getValue.
  rewrite (bind_run _ (remote_reliable _ _ Hf)).
  rewrite (bind_run _ (readSheet_found _ _ _ Hs)). reflexivity.
Qed.

Lemma getSubFolderNameFromSheet_reliable w :
  faults w = [] ->
  exists o w',
    getSubFolderNameFromSheet w = (Normal o, w')
    /\ faults w' = [] /\ platform w' = platform w /\ files w' = files w
    /\ forall sub, o = Some sub -> isEmptyStr (JsString.trim sub) = false.
Proof.
  intros Hf. unfold getSubFolderNameFromSheet, tryCatch, SpreadsheetApp.openById.
  rewrite (bind_run _ (remote_reliable _ _ Hf)).
  destruct (lookupSheet SUBFOLDER_SHEET_NAME (sheets w)) as [sh |] eqn:Hs.
  - rewrite (bind_run _ (getSheetByName_found _ _ _ Hs)).
    change (a1 SUBFOLDER_CELL) with (ret (mkRange 1 2 1 1)).
    rewrite (bind_run _ (eq_refl : ret (mkRange 1 2 1 1) w = (Normal _, w))).
    rewrite (bind_run _ (getValue_reliable _ _ _ _ Hf Hs)).
    destruct (isEmptyStr (JsString.trim (cellToString (cellAt (grid sh) 1 2))))
      eqn:Hblank; cbn [rangeRow rangeCol]; rewrite Hblank.
    + eexists _, _. split; [reflexivity |].
      repeat split; try assumption. discriminate.
    + eexists _, _. split; [reflexivity |].
      repeat split; try assumption.
      intros sub E. injection E as <-.
      apply sanitized_name_accepted. exact Hblank.
  - rewrite (bind_run _ (getSheetByName_missing _ _ Hs)).
    eexists _, _. split; [reflexivity |].
    repeat split; try assumption. discriminate.
Qed.

Lemma resolveTargetFolder_reliable logFallback w :
  faults w = [] ->
  exists target w',
    resolveTargetFolder logFallback w = (Normal target, w')
    /\ faults w' = [] /\ platform w' = platform w /\ files w' = files w.
Proof.
  intros Hf. unfold resolveTargetFolder.
  destruct (getOrCreateFolderIdByName_reliable PARENT_FOLDER_NAME None w Hf eq_refl)
    as (id & w1 & E1 & Hf1 & Hp1 & Hfl1 & parent & Eparent).
  rewrite (bind_run _ E1), (bind_run _ Eparent).
  destruct (getSubFolderNameFromSheet_reliable w1 Hf1)
    as (o & w2 & E2 & Hf2 & Hp2 & Hfl2 & Hsub).
  rewrite (bind_run _ E2).
  assert (Hfallback :
            exists target w',
              ((if logFallback
                then log "サブフォルダ名が取得できなかったため、親フォルダに保存します。"
                else ret tt) ;;
               ret (parent, folderName parent, folderUrl parent)) w2
              = (Normal target, w')
              /\ faults w' = [] /\ platform w' = platform w /\ files w' = files w).
  { destruct logFallback; eexists _, _; (split; [reflexivity |]);
      simpl; repeat split; congruence. }
  destruct o as [sub |]; [| exact Hfallback].
  destruct (isEmptyStr sub); cbn [negb]; [exact Hfallback |].
  destruct (getOrCreateFolderIdByName_reliable sub (Some parent) w2 Hf2
              (Hsub sub eq_refl))
    as (id3 & w3 & E3 & Hf3 & Hp3 & Hfl3 & child & Echild).
  rewrite (bind_run _ E3), (bind_run _ Echild).
  eexists _, _. split; [reflexivity |]. repeat split; congruence.
Qed.

Lemma createFile_reliable parent blob w :
  faults w = [] ->
  exists f w', DriveApp.createFile parent blob w = (Normal f, w').
Proof.
  intros Hf. unfold DriveApp.createFile.
  rewrite (bind_run _ (remote_reliable _ _ Hf)).
  eexists _, _. reflexivity.
Qed.

Lemma base64Decode_reliable data bytes w :
  base64Decode (platform w) data = Some bytes ->
  Utilities.base64Decode data w = (Normal bytes, w).
Proof. unfold Utilities.base64Decode, bind, getWorld. intros ->. reflexivity. Qed.

Lemma pngDataUrl_match data :
  data <> "" ->
  JsString.hasLineTerminator data = false ->
  Regex.pngDataUrl ("data:image/png;base64," ++ data) = Some ("image/png", data).
Proof.
  intros Hd Hlt. destruct data as [| c d]; [now elim Hd |].
  change (Regex.pngDataUrl ("data:image/png;base64," ++ String c d))
    with (if JsString.hasLineTerminator (String c d)
          then None else Some ("image/png", String c d)).
  rewrite Hlt. reflexivity.
Qed.

(** C7.  [saveDrawingFile] hands back its failure record, with files and
    sheets untouched, for every payload that is not a data URL declaring
    exactly [image/png] (another declared type, no data, not a data URL, not
    a string).  For a payload [data:image/png;base64,<data>] whose data has no
    line break and decodes, a truthy base name and a backend that answers,
    the save succeeds and has added one file: the base name plus [.png], of
    type [image/png], holding the decoded bytes. *)
Theorem drawing_requires_png :
  forall (drawingDataUrl baseFileName : JsVal) (w : World),
    (~ PngDataUrl drawingDataUrl ->
     wp (saveDrawingFile drawingDataUrl baseFileName)
        (fun o w' => o = Normal (failure "お絵かきファイルの保存中にエラーが発生しました。")
                     /\ sameStore w w') w)
    /\ (forall data bytes,
           drawingDataUrl = JStr ("data:image/png;base64," ++ data) ->
           data <> "" ->
           JsString.hasLineTerminator data = false ->
           base64Decode (platform w) data = Some bytes ->
           truthy baseFileName = true ->
           faults w = [] ->
           exists r w' file,
             saveDrawingFile drawingDataUrl baseFileName w = (Normal r, w')
             /\ success r = true
             /\ files w' = (files w ++ [file])%list
             /\ driveFileName file = toStr baseFileName ++ ".png"
             /\ driveFileMime file = "image/png"
             /\ driveFileContent file = bytes).
Proof.
  intros drawingDataUrl baseFileName w. split.
  - intros Hpng. unfold saveDrawingFile. apply @tryCatch_fails; [frame |].
    assert (Hnone : forall s, drawingDataUrl = JStr s -> Regex.pngDataUrl s = None).
    { intros s ->. destruct (Regex.pngDataUrl s) as [[m d] |] eqn:E; [| reflexivity].
      exfalso. apply Hpng. destruct (pngDataUrl_shape _ E) as (_ & Hd & ->).
      exists d. auto. }
    destruct drawingDataUrl; try specialize (Hnone _ eq_refl);
      repeat fails_step Hnone.
  - intros data bytes -> Hdata Hlt Hdecode Hbase Hf.
    assert (Hrun : exists r w',
               saveDrawingFile (JStr ("data:image/png;base64," ++ data))
                               baseFileName w = (Normal r, w')
               /\ success r = true).
    { assert (Hurl : truthy (JStr ("data:image/png;base64," ++ data)) = true)
        by reflexivity.
      unfold saveDrawingFile, tryCatch.
      rewrite Hurl, Hbase. cbn [negb orb].
      rewrite (bind_run _ (eq_refl : ret tt w = (Normal tt, w))).
      destruct (resolveTargetFolder_reliable false w Hf)
        as ([[targetFolder folderPathText] targetFolderUrl] & w1 & E1 & Hf1 & Hp1 & _).
      rewrite (bind_run _ E1).
      rewrite jsMatch_string, (pngDataUrl_match _ Hdata Hlt).
      rewrite (bind_run _ (eq_refl : ret _ w1 = (Normal _, w1))).
      rewrite <- Hp1 in Hdecode.
      rewrite (bind_run _ (base64Decode_reliable _ _ _ Hdecode)).
      rewrite (bind_run _ (eq_refl : Utilities.newBlob bytes (JStr "image/png") _ w1
                                      = (Normal _, w1))).
      destruct (createFile_reliable targetFolder
                  (mkBlob bytes "image/png" (toStr baseFileName ++ ".png")) w1 Hf1)
        as (file & w2 & E2).
      rewrite (bind_run _ E2).
      destruct (total_addRecordToHistorySheet
                  (toStr baseFileName ++ ".png") folderPathText targetFolderUrl
                  (driveFileUrl file) (JStr "PNG") "お絵かき" w2) as [[] E3].
      unfold wp in E3.
      rewrite (bind_run _ (run_split _ E3)).
      eexists _, _. split; reflexivity. }
    destruct Hrun as (r & w' & Hrun & Hok).
    destruct (saveDrawingFile_success _ _ _ Hrun Hok)
      as (url & mime & d & bytes' & file & Hu & Hm & Hd & Hfiles & Hn & Hmime & Hc).
    assert (Hurl : url = "data:image/png;base64," ++ data) by congruence.
    subst url.
    rewrite (pngDataUrl_match _ Hdata Hlt) in Hm.
    assert (mime = "image/png") by congruence.
    assert (d = data) by congruence.
    assert (bytes' = bytes) by congruence.
    subst. exists r, w', file. repeat split; congruence.
Qed.

(** Scenario 4 and its counterpart: a JPEG data URL is refused, a PNG data
    URL is saved as [art.png]. *)
Lemma drawing_requires_png_witness :
  wp (saveDrawingFile (JStr "data:image/jpeg;base64,AAAA") (JStr "art"))
     (fun o w' => o = Normal (failure "お絵かきファイルの保存中にエラーが発生しました。")
                  /\ sameStore (Sample.fresh "3-A") w')
     (Sample.fresh "3-A")
  /\ exists r w' file,
       saveDrawingFile (JStr "data:image/png;base64,AAAA") (JStr "art")
                       (Sample.fresh "3-A") = (Normal r, w')
       /\ success r = true
       /\ files w' = (files (Sample.fresh "3-A") ++ [file])%list
       /\ driveFileName file = toStr (JStr "art") ++ ".png"
       /\ driveFileMime file = "image/png"
       /\ driveFileContent file = [Byte.x00; Byte.x00; Byte.x00].
Proof.
  split.
  - apply (proj1 (drawing_requires_png (JStr "data:image/jpeg;base64,AAAA")
                    (JStr "art") (Sample.fresh "3-A"))).
    intros (data & _ & E). discriminate E.
  - apply (proj2 (drawing_requires_png (JStr "data:image/png;base64,AAAA")
                    (JStr "art") (Sample.fresh "3-A")) "AAAA");
      first [reflexivity | discriminate].
Defined.

(** * Further properties of Code.js *)

(** ** Services under a fault schedule *)

Lemma createFolder_reliable parent name w :
  faults w = [] ->
  DriveApp.createFolder parent name w
  = (Normal (mkFolder (nextId w) name (DriveApp.folderUrlOf (nextId w))
                      (folderId parent)),
     DriveApp.withDrive w
       (folders w ++ [mkFolder (nextId w) name (DriveApp.folderUrlOf (nextId w))
                               (folderId parent)])
       (files w) (S (nextId w))).
Proof.
  intros Hf. unfold DriveApp.createFolder.
  rewrite (bind_run _ (remote_reliable _ _ Hf)). reflexivity.
Qed.

Lemma getFoldersByName_passes parent name w rest :
  faults w = false :: rest ->
  DriveApp.getFoldersByName parent name w
  = (Normal (filter (DriveApp.isChildNamed parent name) (folders w)),
     withSchedule w rest).
Proof.
  intros Hf. unfold DriveApp.getFoldersByName.
  rewrite (bind_run _ (remote_passes _ _ _ Hf)). reflexivity.
Qed.

Lemma createFolder_fails parent name w rest :
  faults w = true :: rest ->
  DriveApp.createFolder parent name w
  = (Throw (serviceError "Folder.createFolder"), withSchedule w rest).
Proof.
  intros Hf. unfold DriveApp.createFolder.
  rewrite (bind_throws _ (remote_fails _ _ _ Hf)). reflexivity.
Qed.

Lemma isChildNamed_new parent name id url :
  DriveApp.isChildNamed parent name (mkFolder id name url (folderId parent)) = true.
Proof.
  unfold DriveApp.isChildNamed. simpl.
  rewrite Nat.eqb_refl, String.eqb_refl. reflexivity.
Qed.

(** ** The folder resolver when it has to create *)

(** X1.  With a backend that answers, a name the resolver accepts and no child
    folder of that name: exactly one folder of that name is added under the
    parent, at the end of Drive's folders and under the next free identifier,
    which is returned; files and sheets stay as they are; and the call
    repeated on the result finds that folder, returns the same identifier and
    changes nothing. *)
Theorem folder_is_created_once :
  forall (w : World) (parentFolder : option Folder) (name : string),
    faults w = [] ->
    isEmptyStr (JsString.trim name) = false ->
    filter (DriveApp.isChildNamed (parentOf parentFolder) name) (folders w) = [] ->
    let created := mkFolder (nextId w) name (DriveApp.folderUrlOf (nextId w))
                            (folderId (parentOf parentFolder)) in
    let run := getOrCreateFolderIdByName (JStr name) parentFolder w in
    fst run = Normal (nextId w)
    /\ folders (snd run) = (folders w ++ [created])%list
    /\ nextId (snd run) = S (nextId w)
    /\ files (snd run) = files w
    /\ sheets (snd run) = sheets w
    /\ getOrCreateFolderIdByName (JStr name) parentFolder (snd run)
       = (Normal (nextId w), snd run).
Proof.
  intros w parentFolder name Hf Hname Hnone created run.
  assert (E : run
              = (Normal (nextId w),
                 withLog (DriveApp.withDrive w (folders w ++ [created]) (files w)
                                             (S (nextId w)))
                         (logger w ++ ["フォルダ " ++ dq ++ name ++ dq ++ " (ID: "
                                       ++ JsString.ofNat (nextId w)
                                       ++ ") を作成しました。"]))).
  { unfold run, getOrCreateFolderIdByName.
    rewrite (bind_run _ (parent_reliable parentFolder w Hf)).
    rewrite (accepted_name _ Hname). simpl toStr.
    rewrite (bind_run _ (getFoldersByName_reliable _ _ _ Hf)).
    rewrite Hnone. unfold tryCatch.
    rewrite (bind_run _ (createFolder_reliable _ _ _ Hf)). reflexivity. }
  rewrite E. cbn [fst snd].
  repeat lazymatch goal with |- _ /\ _ => split end; try reflexivity.
  unfold getOrCreateFolderIdByName.
  set (w1 := withLog _ _).
  assert (Hf1 : faults w1 = []) by exact Hf.
  rewrite (bind_run _ (parent_reliable parentFolder w1 Hf1)).
  rewrite (accepted_name _ Hname). simpl toStr.
  rewrite (bind_run _ (getFoldersByName_reliable _ _ _ Hf1)).
  change (folders w1) with (folders w ++ [created])%list.
  rewrite filter_app, Hnone. cbn [filter app].
  unfold created at 1. rewrite isChildNamed_new. reflexivity.
Qed.

(** The sub-folder 3-A made under the parent folder of the app. *)
Lemma folder_is_created_once_witness :
  let w := Sample.withParentFolder in
  let parent := mkFolder 1 PARENT_FOLDER_NAME (DriveApp.folderUrlOf 1) 0 in
  let created := mkFolder 2 "3-A" (DriveApp.folderUrlOf 2) 1 in
  let run := getOrCreateFolderIdByName (JStr "3-A") (Some parent) w in
  fst run = Normal 2
  /\ folders (snd run) = (folders w ++ [created])%list
  /\ nextId (snd run) = 3
  /\ files (snd run) = files w
  /\ sheets (snd run) = sheets w
  /\ getOrCreateFolderIdByName (JStr "3-A") (Some parent) (snd run)
     = (Normal 2, snd run).
Proof.
  exact (folder_is_created_once Sample.withParentFolder
           (Some (mkFolder 1 PARENT_FOLDER_NAME (DriveApp.folderUrlOf 1) 0))
           "3-A" eq_refl eq_refl eq_refl).
Defined.

(** X2.  When Drive refuses the creation, the resolver logs the cause and throws
    its own error, and Drive and the spreadsheet are as before. *)
Theorem folder_creation_failure_is_rethrown :
  forall (w : World) (parent : Folder) (name : string) (rest : list bool),
    faults w = false :: true :: rest ->
    isEmptyStr (JsString.trim name) = false ->
    filter (DriveApp.isChildNamed parent name) (folders w) = [] ->
    getOrCreateFolderIdByName (JStr name) (Some parent) w
    = (Throw (newError ("フォルダ " ++ dq ++ name ++ dq ++ " の作成に失敗しました。")),
       withLog (withSchedule w rest)
               (logger w ++ ["フォルダ " ++ dq ++ name ++ dq ++ " の作成に失敗しました: "
                             ++ errToString (serviceError "Folder.createFolder")])).
Proof.
  intros w parent name rest Hf Hname Hnone.
  unfold getOrCreateFolderIdByName.
  rewrite (bind_run _ (eq_refl : ret parent w = (Normal parent, w))).
  rewrite (accepted_name _ Hname). simpl toStr.
  rewrite (bind_run _ (getFoldersByName_passes parent name _ _ Hf)).
  rewrite Hnone. unfold tryCatch.
  rewrite (bind_throws _ (createFolder_fails parent name
                            (withSchedule w (true :: rest)) rest eq_refl)).
  reflexivity.
Qed.

Lemma folder_creation_failure_witness :
  getOrCreateFolderIdByName (JStr "3-A")
    (Some (mkFolder 1 PARENT_FOLDER_NAME (DriveApp.folderUrlOf 1) 0))
    (Sample.withFaults Sample.withParentFolder [false; true])
  = (Throw (newError ("フォルダ " ++ dq ++ "3-A" ++ dq ++ " の作成に失敗しました。")),
     withLog (withSchedule (Sample.withFaults Sample.withParentFolder [false; true]) [])
             (logger (Sample.withFaults Sample.withParentFolder [false; true])
              ++ ["フォルダ " ++ dq ++ "3-A" ++ dq ++ " の作成に失敗しました: "
                  ++ errToString (serviceError "Folder.createFolder")])).
Proof.
  exact (folder_creation_failure_is_rethrown
           (Sample.withFaults Sample.withParentFolder [false; true])
           (mkFolder 1 PARENT_FOLDER_NAME (DriveApp.folderUrlOf 1) 0)
           "3-A" [] eq_refl eq_refl eq_refl).
Defined.

(** ** The sub-folder name *)

Lemma sanitizeChar_safe c : isUnsafeChar (sanitizeChar c) = false.
Proof.
  unfold sanitizeChar. destruct (isUnsafeChar c) eqn:E; [reflexivity | exact E].
Qed.

Lemma sanitize_cons c s :
  sanitize (String c s) = String (sanitizeChar c) (sanitize s).
Proof. reflexivity. Qed.

Lemma sanitize_safe text : safeName (sanitize text) = true.
Proof.
  induction text as [| c s IH]; [reflexivity |].
  rewrite sanitize_cons. unfold safeName in *. simpl.
  rewrite sanitizeChar_safe, IH. reflexivity.
Qed.

Lemma sanitize_of_safe text : safeName text = true -> sanitize text = text.
Proof.
  induction text as [| c s IH]; [reflexivity |].
  unfold safeName in *. simpl. intros Hs.
  apply andb_prop in Hs as [Hc Hs]. rewrite sanitize_cons, (IH Hs).
  unfold sanitizeChar. destruct (isUnsafeChar c); [discriminate Hc | reflexivity].
Qed.

(** X3.  The replacement of unsafe characters keeps the length of the text, leaves
    none of the nine characters behind, changes nothing when applied a second
    time, and leaves a text alone exactly when the text has none of them. *)
Theorem sanitize_replaces_unsafe_characters :
  forall text : string,
    String.length (sanitize text) = String.length text
    /\ safeName (sanitize text) = true
    /\ sanitize (sanitize text) = sanitize text
    /\ (sanitize text = text <-> safeName text = true).
Proof.
  intros text. split; [| split; [| split]].
  - induction text as [| c s IH]; [reflexivity |].
    rewrite sanitize_cons. simpl. rewrite IH. reflexivity.
  - apply sanitize_safe.
  - apply sanitize_of_safe, sanitize_safe.
  - split.
    + intros E. rewrite <- E. apply sanitize_safe.
    + apply sanitize_of_safe.
Qed.

(** X4.  Whatever the spreadsheet service does, reading the sub-folder name ends
    normally and leaves Drive and the spreadsheet as they are; a name it
    returns is not blank, also after trimming, and has none of the nine
    unsafe characters. *)
Theorem subfolder_name_is_usable :
  forall w : World,
    wp getSubFolderNameFromSheet
       (fun o w' =>
          sameData w w'
          /\ exists r, o = Normal r
                       /\ match r with
                          | Some sub => isEmptyStr (JsString.trim sub) = false
                                        /\ isEmptyStr sub = false
                                        /\ safeName sub = true
                          | None => True
                          end) w.
Proof.
  intros w. unfold wp.
  destruct (getSubFolderNameFromSheet w) as [o w'] eqn:E. cbn [fst snd].
  split.
  { exact (@keeps_run _ sameData _ _ _ _ (@keeps_getSubFolderNameFromSheet sameData _) E). }
  destruct o as [r | e].
  2:{ assert (Ht : total getSubFolderNameFromSheet).
      { apply total_tryCatch. intros e0. total_auto. }
      specialize (Ht w). unfold wp in Ht. rewrite E in Ht.
      destruct Ht as [a Ha]. discriminate Ha. }
  exists r. split; [reflexivity |].
  destruct r as [sub |]; [| exact I].
  assert (Hsub : exists v, isEmptyStr (JsString.trim (cellToString v)) = false
                           /\ sub = sanitize (JsString.trim (cellToString v))).
  { unfold getSubFolderNameFromSheet in E.
    apply tryCatch_Normal_inv in E as [E | (e & w1 & _ & E)].
    - run_inv E; try discriminate.
      match goal with
      | H : Some _ = Some _ /\ _ |- _ => destruct H as [H _]; injection H as ->
      | H : Some _ = Some _ |- _ => injection H as ->
      end.
      eexists. split; [eassumption | reflexivity].
    - run_inv E; discriminate. }
  destruct Hsub as (v & Hv & ->).
  pose proof (sanitized_name_accepted _ Hv) as Ht.
  split; [exact Ht |]. split; [| apply sanitize_safe].
  destruct (sanitize (JsString.trim (cellToString v))); [discriminate Ht | reflexivity].
Qed.

(** ** The target folder of a save *)

Lemma distinct_NoDup l : distinct l = true <-> NoDup l.
Proof.
  induction l as [| x l IH]; simpl.
  - split; [constructor | reflexivity].
  - rewrite andb_true_iff, negb_true_iff, IH. split.
    + intros [Hx Hl]. constructor; [| exact Hl].
      intros Hin. assert (E : existsb (Nat.eqb x) l = true).
      { apply existsb_exists. exists x. split; [exact Hin | apply Nat.eqb_refl]. }
      congruence.
    + intros Hnd. inversion Hnd as [| ? ? Hx Hl]; subst. split; [| exact Hl].
      destruct (existsb (Nat.eqb x) l) eqn:E; [| reflexivity].
      apply existsb_exists in E as (y & Hy & Exy). apply Nat.eqb_eq in Exy. subst y.
      contradiction.
Qed.

Lemma wellFormedDrive_spec w :
  wellFormedDrive w = true
  <-> (0 < nextId w)%nat
      /\ NoDup (List.map folderId (folders w))
      /\ forall f, In f (folders w) -> (0 < folderId f < nextId w)%nat.
Proof.
  unfold wellFormedDrive.
  rewrite !andb_true_iff, Nat.ltb_lt, distinct_NoDup, forallb_forall.
  split.
  - intros [[H0 Hd] Hb]. split; [exact H0 |]. split; [exact Hd |].
    intros f Hin. specialize (Hb f Hin).
    apply andb_true_iff in Hb. rewrite !Nat.ltb_lt in Hb. exact Hb.
  - intros (H0 & Hd & Hb). split; [split; assumption |].
    intros f Hin. apply andb_true_iff. rewrite !Nat.ltb_lt. exact (Hb f Hin).
Qed.

Lemma find_unique (l : list Folder) f :
  NoDup (List.map folderId l) -> In f l ->
  find (fun g => Nat.eqb (folderId g) (folderId f)) l = Some f.
Proof.
  induction l as [| a l IH]; simpl; [contradiction |].
  intros Hnd [-> | Hin].
  - rewrite Nat.eqb_refl. reflexivity.
  - inversion Hnd as [| ? ? Ha Hl]; subst.
    destruct (Nat.eqb (folderId a) (folderId f)) eqn:E.
    + apply Nat.eqb_eq in E. exfalso. apply Ha. rewrite E.
      apply in_map. exact Hin.
    + apply IH; assumption.
Qed.






Lemma getSubFolderNameFromSheet_exact w :
  faults w = [] ->
  exists w',
    getSubFolderNameFromSheet w = (Normal (configuredSubFolder w), w')
    /\ sameData w w' /\ faults w' = [].
Proof.
  intros Hf.
  unfold getSubFolderNameFromSheet, configuredSubFolder, tryCatch,
    SpreadsheetApp.openById.
  rewrite (bind_run _ (remote_reliable _ _ Hf)).
  destruct (lookupSheet SUBFOLDER_SHEET_NAME (sheets w)) as [sh |] eqn:Hs.
  - rewrite (bind_run _ (getSheetByName_found _ _ _ Hs)).
    change (a1 SUBFOLDER_CELL) with (ret (mkRange 1 2 1 1)).
    rewrite (bind_run _ (eq_refl : ret (mkRange 1 2 1 1) w = (Normal _, w))).
    rewrite (bind_run _ (getValue_reliable _ _ _ _ Hf Hs)).
    cbn [rangeRow rangeCol].
    destruct (isEmptyStr (JsString.trim (cellToString (cellAt (grid sh) 1 2)))).
    + eexists. split; [reflexivity |]. repeat split. exact Hf.
    + eexists. split; [reflexivity |]. repeat split. exact Hf.
  - rewrite (bind_run _ (getSheetByName_missing _ _ Hs)).
    eexists. split; [reflexivity |]. repeat split. exact Hf.
Qed.

(** The character class of the replacement, character by character. *)
Lemma sanitizeChar_explicit c :
  sanitizeChar c
  = if existsb (Ascii.eqb c) ["\"; "/"; ":"; "*"; "?"; "034"; "<"; ">"; "|"]%char
    then "_"%char else c.
Proof. destruct c as [[] [] [] [] [] [] [] []]; reflexivity. Qed.

Lemma sanitize_explicit text :
  sanitize text
  = JsString.map
      (fun c => if existsb (Ascii.eqb c)
                           ["\"; "/"; ":"; "*"; "?"; "034"; "<"; ">"; "|"]%char
                then "_"%char else c) text.
Proof.
  induction text as [| c text IH]; [reflexivity |].
  rewrite sanitize_cons, sanitizeChar_explicit, IH. reflexivity.
Qed.

Lemma plain_unstripped a r : plainChar a = true -> JsString.stripWs (String a r) = None.
Proof.
  intros Ha.
  destruct a as [[] [] [] [] [] [] [] []]; vm_compute in Ha; try discriminate Ha;
    destruct r as [| b [| c r]]; reflexivity.
Qed.

Lemma plain_safe a : plainChar a = true -> isUnsafeChar a = false.
Proof.
  intros Ha.
  destruct a as [[] [] [] [] [] [] [] []]; vm_compute in Ha; try discriminate Ha;
    reflexivity.
Qed.

Lemma plain_trimEnd s : allChars plainChar s = true -> JsString.trimEnd s = s.
Proof.
  induction s as [| a s IH]; [reflexivity |].
  cbn [allChars]. intros Hs. apply andb_prop in Hs as [Ha Hs].
  destruct (trimEnd_head (String a s)) as [E | (c & r & Ecr & E)].
  - exfalso.
    pose proof (allWs_unstripped a s (plain_unstripped a s Ha)) as Hw.
    simpl in E. rewrite Hw in E. discriminate E.
  - injection Ecr as <- <-. rewrite E, (IH Hs). reflexivity.
Qed.

Lemma plain_trim s : allChars plainChar s = true -> JsString.trim s = s.
Proof.
  intros Hs. unfold JsString.trim.
  assert (Hstart : JsString.trimStart s = s).
  { destruct s as [| a s]; [reflexivity |].
    apply trimStart_unstripped. apply plain_unstripped.
    cbn [allChars] in Hs. apply andb_prop in Hs as [Ha _]. exact Ha. }
  rewrite Hstart. apply plain_trimEnd. exact Hs.
Qed.

Lemma plain_sanitize s : allChars plainChar s = true -> sanitize s = s.
Proof.
  intros Hs. apply sanitize_of_safe. unfold safeName.
  induction s as [| a s IH]; [reflexivity |].
  cbn [allChars] in *. apply andb_prop in Hs as [Ha Hs].
  rewrite (plain_safe a Ha), (IH Hs). reflexivity.
Qed.

Lemma uint_plain d : allChars plainChar (NilEmpty.string_of_uint d) = true.
Proof. induction d; simpl; auto. Qed.

Lemma ofZ_plain z :
  allChars plainChar (JsString.ofZ z) = true /\ JsString.ofZ z <> "".
Proof.
  unfold JsString.ofZ, NilZero.string_of_int.
  destruct (Z.to_int z) as [d | d]; unfold NilZero.string_of_uint;
    destruct d; simpl; rewrite ?uint_plain; split; first [reflexivity | discriminate].
Qed.

(** X5.  With a backend that answers, the reader returns the content of cell
    B1 (row 1, column 2) of the settings sheet as follows.  A text comes back
    trimmed, with each of the nine characters backslash, slash, colon,
    asterisk, question mark, double quote, less-than, greater-than and
    vertical bar replaced by an underscore, and null stands for a text that is
    empty or white space only.  A whole number up to 2^53 in size comes back
    as its decimal digits.  A missing settings sheet gives null.  The reader
    writes nothing but log lines. *)
Theorem configured_subfolder_is_read :
  forall w : World,
    faults w = [] ->
    match lookupSheet SUBFOLDER_SHEET_NAME (sheets w) with
    | None => fst (getSubFolderNameFromSheet w) = Normal None
    | Some sh =>
        (forall text,
            cellAt (grid sh) 1 2 = CStr text ->
            fst (getSubFolderNameFromSheet w)
            = Normal
                (if isEmptyStr (JsString.trim text) then None
                 else Some (JsString.map
                              (fun c =>
                                 if existsb (Ascii.eqb c)
                                      ["\"; "/"; ":"; "*"; "?"; "034"; "<"; ">"; "|"]%char
                                 then "_"%char else c)
                              (JsString.trim text))))
        /\ (forall z,
               cellAt (grid sh) 1 2 = CNum z ->
               (Z.abs z <= 2 ^ 53)%Z ->
               fst (getSubFolderNameFromSheet w) = Normal (Some (JsString.ofZ z)))
    end
    /\ sameData w (snd (getSubFolderNameFromSheet w))
    /\ faults (snd (getSubFolderNameFromSheet w)) = [].
Proof.
  intros w Hf.
  destruct (getSubFolderNameFromSheet_exact w Hf) as (w' & E & Hd & Hf').
  rewrite E. cbn [fst snd]. split; [| auto].
  unfold configuredSubFolder.
  destruct (lookupSheet SUBFOLDER_SHEET_NAME (sheets w)) as [sh |]; [| reflexivity].
  split.
  - intros text ->. cbn [cellToString]. rewrite sanitize_explicit. reflexivity.
  - intros z -> _. cbn [cellToString].
    destruct (ofZ_plain z) as [Hplain Hne].
    rewrite (plain_trim _ Hplain), (plain_sanitize _ Hplain).
    destruct (JsString.ofZ z); [now elim Hne | reflexivity].
Qed.

(** The class 3/A typed between spaces, a class name between two ideographic
    spaces, a cell of spaces only, the number 301, and a spreadsheet without
    the settings sheet. *)
Lemma configured_subfolder_witness :
  fst (getSubFolderNameFromSheet (Sample.fresh " 3/A ")) = Normal (Some "3_A")
  /\ fst (getSubFolderNameFromSheet (Sample.fresh "　1年2組:A　"))
     = Normal (Some "1年2組_A")
  /\ fst (getSubFolderNameFromSheet (Sample.fresh "   ")) = Normal None
  /\ fst (getSubFolderNameFromSheet
            (mkWorld [] [] 1
               [(SUBFOLDER_SHEET_NAME, mkSheet [[emptyCell; CNum 301]] [] [])]
               [] [] Sample.stdPlatform))
     = Normal (Some "301")
  /\ fst (getSubFolderNameFromSheet Sample.withoutSettings) = Normal None.
Proof.
  split; [| split; [| split; [| split]]].
  - exact (proj1 (proj1 (configured_subfolder_is_read (Sample.fresh " 3/A ") eq_refl))
             " 3/A " eq_refl).
  - exact (proj1 (proj1 (configured_subfolder_is_read
                           (Sample.fresh "　1年2組:A　") eq_refl))
             "　1年2組:A　" eq_refl).
  - exact (proj1 (proj1 (configured_subfolder_is_read (Sample.fresh "   ") eq_refl))
             "   " eq_refl).
  - apply (proj2 (proj1 (configured_subfolder_is_read
                           (mkWorld [] [] 1
                              [(SUBFOLDER_SHEET_NAME,
                                mkSheet [[emptyCell; CNum 301]] [] [])]
                              [] [] Sample.stdPlatform) eq_refl)) 301%Z);
      [reflexivity | vm_compute; discriminate].
  - exact (proj1 (configured_subfolder_is_read Sample.withoutSettings eq_refl)).
Defined.






(** ** The history sheet *)

Lemma lookup_new_sheet name ss sh :
  lookupSheet name ss = None ->
  lookupSheet name (ss ++ [(name, sh)]) = Some sh.
Proof.
  unfold lookupSheet. induction ss as [| [n old] ss IH]; simpl.
  - rewrite String.eqb_refl. reflexivity.
  - destruct (String.eqb n name); [discriminate | exact IH].
Qed.

Lemma replace_new_sheet name ss sh sh' :
  lookupSheet name ss = None ->
  replaceSheet name sh' (ss ++ [(name, sh)]) = (ss ++ [(name, sh')])%list.
Proof.
  unfold lookupSheet. induction ss as [| [n old] ss IH]; simpl.
  - rewrite String.eqb_refl. reflexivity.
  - destruct (String.eqb n name); [discriminate |].
    intros Hs. rewrite (IH Hs). reflexivity.
Qed.

Lemma lookup_replace_other name other sh ss :
  other <> name ->
  lookupSheet other (replaceSheet name sh ss) = lookupSheet other ss.
Proof.
  intros Hne. unfold lookupSheet.
  induction ss as [| [n old] ss IH]; simpl; [reflexivity |].
  destruct (String.eqb n name) eqn:E; simpl.
  - apply String.eqb_eq in E. subst n.
    destruct (String.eqb name other) eqn:E'; [| reflexivity].
    apply String.eqb_eq in E'. congruence.
  - destruct (String.eqb n other); [reflexivity | exact IH].
Qed.

(** A sheet service that rewrites the sheet it is called on. *)
Lemma update_reliable what name (change : Sheet -> Sheet) sh w :
  faults w = [] ->
  lookupSheet name (sheets w) = Some sh ->
  (remote what ;; sh <- readSheet name ;; writeSheet name (change sh)) w
  = (Normal tt, withSheets w (replaceSheet name (change sh) (sheets w))).
Proof.
  intros Hf Hs.
  rewrite (bind_run _ (remote_reliable _ _ Hf)).
  rewrite (bind_run _ (readSheet_found _ _ _ Hs)). reflexivity.
Qed.

Lemma update_new_sheet what name (change : Sheet -> Sheet) sh w :
  faults w = [] ->
  lookupSheet name (sheets w) = None ->
  (remote what ;; sh <- readSheet name ;; writeSheet name (change sh))
    (withSheets w (sheets w ++ [(name, sh)]))
  = (Normal tt, withSheets w (sheets w ++ [(name, change sh)])).
Proof.
  intros Hf Hs.
  rewrite (update_reliable what name change sh
             (withSheets w (sheets w ++ [(name, sh)])) Hf (lookup_new_sheet _ _ _ Hs)).
  unfold withSheets. cbn [sheets folders files nextId logger faults platform].
  rewrite (replace_new_sheet _ _ _ _ Hs). reflexivity.
Qed.

Lemma insertSheet_reliable name w :
  faults w = [] ->
  lookupSheet name (sheets w) = None ->
  insertSheet name w
  = (Normal name, withSheets w (sheets w ++ [(name, mkSheet [] [] [])])).
Proof.
  intros Hf Hs. unfold insertSheet.
  rewrite (bind_run _ (remote_reliable _ _ Hf)).
  unfold bind, getWorld. rewrite Hs. reflexivity.
Qed.

(** The history sheet as [createHistorySheetIfNotExists] sets it up. *)
Lemma created_history_sheet w :
  faults w = [] ->
  lookupSheet HISTORY_SHEET_NAME (sheets w) = None ->
  createHistorySheetIfNotExists w
  = (Normal HISTORY_SHEET_NAME,
     withLog
       (withSheets w
          (sheets w
           ++ [(HISTORY_SHEET_NAME,
                mkSheet [List.map CStr HISTORY_HEADERS]
                        [(1, 1); (1, 2); (1, 3); (1, 4); (1, 5); (1, 6)]
                        [(6, 100); (5, 100); (4, 300); (3, 250); (2, 150);
                         (1, 250)])]))
       (logger w ++ ["履歴シート " ++ dq ++ HISTORY_SHEET_NAME ++ dq
                     ++ " を作成しました。"]))%nat.
Proof.
  intros Hf Hs.
  unfold createHistorySheetIfNotExists, SpreadsheetApp.openById.
  rewrite (bind_run _ (remote_reliable _ _ Hf)).
  rewrite (bind_run _ (getSheetByName_missing _ _ Hs)).
  rewrite (bind_run _ (insertSheet_reliable _ _ Hf Hs)).
  unfold appendRow.
  rewrite (bind_run _ (update_new_sheet "Sheet.appendRow" HISTORY_SHEET_NAME
                         (fun sh => mkSheet (firstn (lastRowOf (grid sh)) (grid sh)
                                             ++ [List.map CStr HISTORY_HEADERS])
                                            (boldCells sh) (columnWidths sh))
                         _ w Hf Hs)).
  change (getRange 1 1 1 (List.length HISTORY_HEADERS)) with (ret (mkRange 1 1 1 6)).
  unfold bind at 2. unfold ret at 1. unfold setFontWeightBold.
  rewrite (bind_run _ (update_new_sheet "Range.setFontWeight" HISTORY_SHEET_NAME
                         (fun sh => mkSheet (grid sh)
                                            (boldCells sh ++ rangeCells (mkRange 1 1 1 6))
                                            (columnWidths sh))
                         _ w Hf Hs)).
  unfold setColumnWidth.
  do 6 (rewrite (bind_run _ (update_new_sheet "Sheet.setColumnWidth" HISTORY_SHEET_NAME
                               (fun sh => mkSheet (grid sh) (boldCells sh)
                                                  ((_, _) :: columnWidths sh))
                               _ w Hf Hs))).
  reflexivity.
Qed.

(** X8.  In a spreadsheet without a history sheet and with a backend that answers,
    the history sheet is added behind the other sheets with the six titles as
    its only row, that row in bold and the six column widths set; Drive is as
    before; and a second call finds the sheet current and changes nothing. *)
Theorem history_sheet_is_created_once :
  forall w : World,
    faults w = [] ->
    lookupSheet HISTORY_SHEET_NAME (sheets w) = None ->
    let run := createHistorySheetIfNotExists w in
    fst run = Normal HISTORY_SHEET_NAME
    /\ sheets (snd run)
       = (sheets w
          ++ [(HISTORY_SHEET_NAME,
               mkSheet [List.map CStr HISTORY_HEADERS]
                       [(1, 1); (1, 2); (1, 3); (1, 4); (1, 5); (1, 6)]
                       [(6, 100); (5, 100); (4, 300); (3, 250); (2, 150);
                        (1, 250)])])%list%nat
    /\ sameDrive w (snd run)
    /\ createHistorySheetIfNotExists (snd run) = (Normal HISTORY_SHEET_NAME, snd run).
Proof.
  intros w Hf Hs run. unfold run. rewrite (created_history_sheet w Hf Hs).
  cbn [fst snd]. split; [reflexivity |]. split; [reflexivity |].
  split; [repeat split |].
  lazymatch goal with
  | |- createHistorySheetIfNotExists ?w1 = _ =>
      apply (current_header_is_left_alone w1 _ Hf (lookup_new_sheet _ _ _ Hs));
        [discriminate | reflexivity | reflexivity]
  end.
Qed.

Lemma history_sheet_is_created_witness :
  let run := createHistorySheetIfNotExists (Sample.fresh "3-A") in
  fst run = Normal HISTORY_SHEET_NAME
  /\ sheets (snd run)
     = (sheets (Sample.fresh "3-A")
        ++ [(HISTORY_SHEET_NAME,
             mkSheet [List.map CStr HISTORY_HEADERS]
                     [(1, 1); (1, 2); (1, 3); (1, 4); (1, 5); (1, 6)]
                     [(6, 100); (5, 100); (4, 300); (3, 250); (2, 150);
                      (1, 250)])])%list%nat
  /\ sameDrive (Sample.fresh "3-A") (snd run)
  /\ createHistorySheetIfNotExists (snd run) = (Normal HISTORY_SHEET_NAME, snd run).
Proof.
  exact (history_sheet_is_created_once (Sample.fresh "3-A") eq_refl eq_refl).
Defined.

Lemma empty_history_sheet w sh :
  faults w = [] ->
  lookupSheet HISTORY_SHEET_NAME (sheets w) = Some sh ->
  lastColumnOf (grid sh) = 0%nat ->
  createHistorySheetIfNotExists w
  = (Throw (serviceError "The coordinates or dimensions of the range are invalid."),
     w).
Proof.
  intros Hf Hs Hempty.
  unfold createHistorySheetIfNotExists, SpreadsheetApp.openById.
  rewrite (bind_run _ (remote_reliable _ _ Hf)).
  rewrite (bind_run _ (getSheetByName_found _ _ _ Hs)).
  assert (E : getLastColumn HISTORY_SHEET_NAME w = (Normal 0%nat, w)).
  { unfold getLastColumn.
    rewrite (bind_run _ (remote_reliable _ _ Hf)).
    rewrite (bind_run _ (readSheet_found _ _ _ Hs)). rewrite Hempty. reflexivity. }
  rewrite (bind_run _ E). reflexivity.
Qed.

(** X9.  A history sheet that exists but has no content at all stops the schema
    check: reading its header asks for a range without columns, which the
    spreadsheet service refuses.  The check then ends by an exception, the
    page request [doGet] ends by the same exception, and a history log ends
    normally after logging the error, the sheet still empty. *)
Theorem empty_history_sheet_stops_the_schema_check :
  forall (w : World) (sh : Sheet) (e : JsVal)
         (fileName folderPathText folderUrl fileUrl : string) (fileFormat : JsVal)
         (mediaType : string),
    faults w = [] ->
    lookupSheet HISTORY_SHEET_NAME (sheets w) = Some sh ->
    lastColumnOf (grid sh) = 0%nat ->
    exists err,
      createHistorySheetIfNotExists w = (Throw err, w)
      /\ doGet e w = (Throw err, w)
      /\ addRecordToHistorySheet fileName folderPathText folderUrl fileUrl
                                 fileFormat mediaType w
         = (Normal tt,
            withLog w (logger w ++ ["履歴シートへの記録エラー: " ++ errToString err])).
Proof.
  intros w sh e fileName folderPathText folderUrl fileUrl fileFormat mediaType
         Hf Hs Hempty.
  pose proof (empty_history_sheet w sh Hf Hs Hempty) as E.
  eexists. split; [exact E |]. split.
  - unfold doGet. rewrite (bind_throws _ E). reflexivity.
  - unfold addRecordToHistorySheet, tryCatch, addRecordToHistorySheetTry.
    rewrite (bind_throws _ E). reflexivity.
Qed.

(** A history sheet somebody added by hand and left empty. *)
Lemma empty_history_sheet_witness :
  let w := SpreadsheetApp.withSheets (Sample.fresh "3-A")
             (sheets (Sample.fresh "3-A")
              ++ [(HISTORY_SHEET_NAME, mkSheet [] [] [])]) in
  exists err,
    createHistorySheetIfNotExists w = (Throw err, w)
    /\ doGet JUndefined w = (Throw err, w)
    /\ addRecordToHistorySheet "memo.txt" "メディア保存フォルダ" "u" "v"
                               (JStr "TXT") "テキスト" w
       = (Normal tt,
          withLog w (logger w ++ ["履歴シートへの記録エラー: " ++ errToString err])).
Proof.
  exact (empty_history_sheet_stops_the_schema_check
           (SpreadsheetApp.withSheets (Sample.fresh "3-A")
              (sheets (Sample.fresh "3-A")
               ++ [(HISTORY_SHEET_NAME, mkSheet [] [] [])]))
           (mkSheet [] [] []) JUndefined "memo.txt" "メディア保存フォルダ" "u" "v"
           (JStr "TXT") "テキスト" eq_refl eq_refl eq_refl).
Defined.

Lemma lastRowOf_le g : (lastRowOf g <= List.length g)%nat.
Proof.
  induction g as [| row g IH]; simpl; [lia |].
  destruct (lastRowOf g); [destruct (lastFilled row); lia | lia].
Qed.

Lemma appendRow_reliable name sh row w :
  faults w = [] ->
  lookupSheet name (sheets w) = Some sh ->
  appendRow name row w
  = (Normal tt,
     withSheets w
       (replaceSheet name
          (mkSheet (firstn (lastRowOf (grid sh)) (grid sh) ++ [row])
                   (boldCells sh) (columnWidths sh))
          (sheets w))).
Proof.
  intros Hf Hs. unfold appendRow.
  exact (update_reliable "Sheet.appendRow" name
           (fun sh => mkSheet (firstn (lastRowOf (grid sh)) (grid sh) ++ [row])
                              (boldCells sh) (columnWidths sh)) sh w Hf Hs).
Qed.

(** X10.  Under a current history sheet and a backend that answers, a history log
    writes one row: the file name, the time stamp, the two link formulas, the
    format in upper case and the media type.  The row goes right under the
    last row with content; no cell of the rows above changes, nor does the
    formatting, any other sheet, or Drive. *)
Theorem history_row_is_appended :
  forall (w : World) (sh : Sheet)
         (fileName folderPathText folderUrl fileUrl format mediaType : string),
    faults w = [] ->
    lookupSheet HISTORY_SHEET_NAME (sheets w) = Some sh ->
    currentHistory sh ->
    let row := historyRow fileName (formattedNow (platform w)) folderUrl
                          folderPathText fileUrl format mediaType in
    let last := lastRowOf (grid sh) in
    exists w' sh',
      addRecordToHistorySheet fileName folderPathText folderUrl fileUrl
                              (JStr format) mediaType w = (Normal tt, w')
      /\ lookupSheet HISTORY_SHEET_NAME (sheets w') = Some sh'
      /\ grid sh' = (firstn last (grid sh) ++ [row])%list
      /\ nth last (grid sh') [] = row
      /\ (forall r c, (1 <= r <= last)%nat ->
                      cellAt (grid sh') r c = cellAt (grid sh) r c)
      /\ boldCells sh' = boldCells sh /\ columnWidths sh' = columnWidths sh
      /\ (forall other, other <> HISTORY_SHEET_NAME ->
                        lookupSheet other (sheets w') = lookupSheet other (sheets w))
      /\ sameDrive w w'.
Proof.
  intros w sh fileName folderPathText folderUrl fileUrl format mediaType
         Hf Hs (Hn & Hmedia & Hformat) row last.
  pose proof (lastRowOf_le (grid sh)) as Hle.
  assert (Hlen : List.length (firstn last (grid sh)) = last)
    by (apply firstn_length_le; exact Hle).
  eexists. exists (mkSheet (firstn last (grid sh) ++ [row]) (boldCells sh)
                           (columnWidths sh)).
  split.
  { unfold addRecordToHistorySheet, tryCatch, addRecordToHistorySheetTry.
    rewrite (bind_run _ (current_header_is_left_alone w sh Hf Hs Hn Hmedia Hformat)).
    rewrite (bind_run _ (eq_refl : Utilities.formatNow w
                                   = (Normal (formattedNow (platform w)), w))).
    rewrite (bind_run _ (eq_refl : stringMethod (JStr format) "fileFormat.toUpperCase" w
                                   = (Normal format, w))).
    rewrite (bind_run _ (appendRow_reliable _ _ _ _ Hf Hs)).
    reflexivity. }
  cbn [sheets grid boldCells columnWidths withSheets].
  split; [exact (lookup_replace _ _ _ _ Hs) |].
  split; [reflexivity |].
  split.
  { rewrite app_nth2 by lia. rewrite Hlen, Nat.sub_diag. reflexivity. }
  split.
  { intros r c Hr. unfold cellAt. f_equal.
    rewrite app_nth1 by lia.
    rewrite <- (firstn_skipn last (grid sh)) at 2.
    rewrite app_nth1 by lia. reflexivity. }
  split; [reflexivity |]. split; [reflexivity |].
  split; [intros other Hne; apply lookup_replace_other; exact Hne |].
  repeat split.
Qed.

(** A text file logged into the history sheet of a deployment in use. *)
Lemma history_row_witness :
  let w := Sample.withHistory (Sample.fresh "") HISTORY_HEADERS in
  let sh := mkSheet [List.map CStr HISTORY_HEADERS] [] [] in
  let row := historyRow "memo.txt" (formattedNow (platform w)) "u"
                        "メディア保存フォルダ" "v" "txt" "テキスト" in
  let last := lastRowOf (grid sh) in
  exists w' sh',
    addRecordToHistorySheet "memo.txt" "メディア保存フォルダ" "u" "v"
                            (JStr "txt") "テキスト" w = (Normal tt, w')
    /\ lookupSheet HISTORY_SHEET_NAME (sheets w') = Some sh'
    /\ grid sh' = (firstn last (grid sh) ++ [row])%list
    /\ nth last (grid sh') [] = row
    /\ (forall r c, (1 <= r <= last)%nat ->
                    cellAt (grid sh') r c = cellAt (grid sh) r c)
    /\ boldCells sh' = boldCells sh /\ columnWidths sh' = columnWidths sh
    /\ (forall other, other <> HISTORY_SHEET_NAME ->
                      lookupSheet other (sheets w') = lookupSheet other (sheets w))
    /\ sameDrive w w'.
Proof.
  apply (history_row_is_appended
           (Sample.withHistory (Sample.fresh "") HISTORY_HEADERS)
           (mkSheet [List.map CStr HISTORY_HEADERS] [] [])
           "memo.txt" "メディア保存フォルダ" "u" "v" "txt" "テキスト").
  - reflexivity.
  - reflexivity.
  - split; [discriminate |]. split; reflexivity.
Defined.

(** ** The page request *)

Lemma created_history_is_current :
  currentHistory
    (mkSheet [List.map CStr HISTORY_HEADERS]
             [(1, 1); (1, 2); (1, 3); (1, 4); (1, 5); (1, 6)]
             [(6, 100); (5, 100); (4, 300); (3, 250); (2, 150); (1, 250)])%nat.
Proof. split; [discriminate |]. split; reflexivity. Qed.

(** X12.  With a backend that answers and a history sheet that is missing or
    current, the page request serves the page of the file [app] with the
    title and the viewport tag; afterwards a current history sheet exists,
    Drive is as before, and the same request again returns the same page and
    changes nothing. *)
Theorem page_request_serves_the_app :
  forall (e : JsVal) (w : World),
    faults w = [] ->
    match lookupSheet HISTORY_SHEET_NAME (sheets w) with
    | Some sh => currentHistory sh
    | None => True
    end ->
    let page := mkHtml "app" "スーパー記録くん - メディア記録アプリ"
                       [("viewport", "width=device-width, initial-scale=1")] in
    exists w' sh',
      doGet e w = (Normal page, w')
      /\ lookupSheet HISTORY_SHEET_NAME (sheets w') = Some sh'
      /\ currentHistory sh'
      /\ sameDrive w w'
      /\ doGet e w' = (Normal page, w').
Proof.
  intros e w Hf Hcur page. unfold doGet.
  destruct (lookupSheet HISTORY_SHEET_NAME (sheets w)) as [sh |] eqn:Hs.
  - destruct Hcur as (Hn & Hmedia & Hformat).
    pose proof (current_header_is_left_alone w sh Hf Hs Hn Hmedia Hformat) as E.
    exists w, sh. rewrite (bind_run _ E).
    split; [reflexivity |]. split; [exact Hs |].
    split; [repeat split; assumption |]. split; [repeat split | reflexivity].
  - rewrite (bind_run _ (created_history_sheet w Hf Hs)).
    eexists. eexists.
    split; [reflexivity |].
    split; [exact (lookup_new_sheet _ _ _ Hs) |].
    split; [exact created_history_is_current |].
    split; [repeat split |].
    lazymatch goal with
    | |- bind createHistorySheetIfNotExists _ ?w1 = _ =>
        rewrite (bind_run _
                   (current_header_is_left_alone w1 _ Hf (lookup_new_sheet _ _ _ Hs)
                      (proj1 created_history_is_current)
                      (proj1 (proj2 created_history_is_current))
                      (proj2 (proj2 created_history_is_current))))
    end.
    reflexivity.
Qed.

(** The first request to a fresh deployment. *)
Lemma page_request_witness :
  let page := mkHtml "app" "スーパー記録くん - メディア記録アプリ"
                     [("viewport", "width=device-width, initial-scale=1")] in
  exists w' sh',
    doGet JUndefined (Sample.fresh "3-A") = (Normal page, w')
    /\ lookupSheet HISTORY_SHEET_NAME (sheets w') = Some sh'
    /\ currentHistory sh'
    /\ sameDrive (Sample.fresh "3-A") w'
    /\ doGet JUndefined w' = (Normal page, w').
Proof.
  exact (page_request_serves_the_app JUndefined (Sample.fresh "3-A") eq_refl I).
Defined.

(** ** The mode settings *)

Lemma keeps_getModeSettings StringToNumber :
  keeps sameDrive (getModeSettings StringToNumber).
Proof. unfold getModeSettings, getModeSettingsTry. keeps_auto. Qed.

Lemma total_getModeSettings StringToNumber : total (getModeSettings StringToNumber).
Proof. apply total_tryCatch. intros e. total_auto. Qed.

(** X13.  Whatever the cells hold and whatever the spreadsheet service does, the
    reader of the mode settings ends normally with at least one of the five
    modes switched on, and it never touches Drive. *)
Theorem mode_settings_offer_a_mode :
  forall (StringToNumber : string -> option Z) (w : World),
    wp (getModeSettings StringToNumber)
       (fun o w' =>
          sameDrive w w'
          /\ exists m, o = Normal m
                       /\ audio m || video m || photo m || drawing m || text m = true)
       w.
Proof.
  intros StringToNumber w. unfold wp.
  destruct (getModeSettings StringToNumber w) as [o w'] eqn:E. cbn [fst snd].
  split.
  { exact (@keeps_run _ sameDrive _ _ _ _ (keeps_getModeSettings StringToNumber) E). }
  destruct o as [m | e].
  2:{ pose proof (total_getModeSettings StringToNumber w) as Ht.
      unfold wp in Ht. rewrite E in Ht. destruct Ht as [a Ha]. discriminate Ha. }
  exists m. split; [reflexivity |].
  unfold getModeSettings in E.
  apply tryCatch_Normal_inv in E as [E | (e & w1 & _ & E)].
  - unfold getModeSettingsTry in E. run_inv E; try reflexivity.
    cbn [audio video photo drawing text].
    lazymatch goal with
    | Hif : _ = false |- _ =>
        repeat lazymatch goal with
          | |- context [flagAt ?f ?v ?i] => destruct (flagAt f v i)
          end; try reflexivity; discriminate Hif
    end.
  - run_inv E. reflexivity.
Qed.

(** X14.  With a backend that answers, the settings settle after one read: a
    second read returns the settings the first one returned and leaves the
    world of the first one as it is.  In particular the audio mode that the
    reader switches on when every mode is off is found switched on, and is
    not written again. *)
Theorem mode_settings_settle :
  forall (StringToNumber : string -> option Z) (w : World),
    faults w = [] ->
    getModeSettings StringToNumber (snd (getModeSettings StringToNumber w))
    = getModeSettings StringToNumber w.
Proof.
  intros StringToNumber w Hf.
  destruct (lookupSheet SUBFOLDER_SHEET_NAME (sheets w)) as [sh |] eqn:Hs.
  - pose proof (getModeSettings_reliable StringToNumber w sh Hf Hs) as E.
    destruct (modeFlag StringToNumber sh 1 || modeFlag StringToNumber sh 2
              || modeFlag StringToNumber sh 3 || modeFlag StringToNumber sh 4
              || modeFlag StringToNumber sh 5) eqn:Hany.
    + rewrite E. cbn [snd]. exact E.
    + rewrite E. cbn [snd].
      set (sh1 := mkSheet (setCell (grid sh) 1 5 (CNum 1)) (boldCells sh)
                          (columnWidths sh)).
      set (w1 := withSheets w (replaceSheet SUBFOLDER_SHEET_NAME sh1 (sheets w))).
      rewrite (getModeSettings_reliable StringToNumber w1 sh1 Hf
                 (lookup_replace _ _ _ _ Hs)).
      apply orb_false_iff in Hany as [Hany H5].
      apply orb_false_iff in Hany as [Hany H4].
      apply orb_false_iff in Hany as [Hany H3].
      apply orb_false_iff in Hany as [H1 H2].
      assert (Hrow1 : modeFlag StringToNumber sh1 1 = true).
      { unfold modeFlag, sh1. cbn [grid].
        rewrite cellAt_setCell by lia. reflexivity. }
      assert (Hrows : forall row, (2 <= row)%nat ->
                modeFlag StringToNumber sh1 row = modeFlag StringToNumber sh row).
      { intros row Hrow. unfold modeFlag, sh1. cbn [grid].
        rewrite cellAt_setCell by lia.
        replace (Nat.eqb (row - 1) (1 - 1)) with false; [reflexivity |].
        symmetry. apply Nat.eqb_neq. lia. }
      rewrite Hrow1, !Hrows by lia. cbn [orb].
      rewrite H2, H3, H4, H5. reflexivity.
  - assert (E : getModeSettings StringToNumber w
                = (Normal (allVisible ("Sheet " ++ dq ++ SUBFOLDER_SHEET_NAME ++ dq
                                       ++ " not found.")), w)).
    { unfold getModeSettings, tryCatch, getModeSettingsTry, SpreadsheetApp.openById.
      rewrite (bind_run _ (remote_reliable _ _ Hf)).
      rewrite (bind_run _ (getSheetByName_missing _ _ Hs)). reflexivity. }
    rewrite E. cbn [snd]. exact E.
Qed.

(** Every mode switched off in the settings sheet. *)
Lemma mode_settings_settle_witness :
  getModeSettings Sample.stringToNumber
    (snd (getModeSettings Sample.stringToNumber Sample.allModesOff))
  = getModeSettings Sample.stringToNumber Sample.allModesOff.
Proof.
  exact (mode_settings_settle Sample.stringToNumber Sample.allModesOff eq_refl).
Defined.

(** ** Saves that go through *)

Lemma createFile_exact parent blob w :
  faults w = [] ->
  DriveApp.createFile parent blob w
  = (Normal (mkFile (nextId w) (blobName blob) (blobContentType blob) (blobData blob)
                    (folderId parent) (DriveApp.fileUrlOf (nextId w))),
     DriveApp.withDrive w (folders w)
       (files w ++ [mkFile (nextId w) (blobName blob) (blobContentType blob)
                           (blobData blob) (folderId parent)
                           (DriveApp.fileUrlOf (nextId w))])
       (S (nextId w))).
Proof.
  intros Hf. unfold DriveApp.createFile.
  rewrite (bind_run _ (remote_reliable _ _ Hf)). reflexivity.
Qed.

Lemma dataUrl_truthy url parts :
  Regex.dataUrl url = Some parts -> truthy (JStr url) = true.
Proof. destruct url; [discriminate | reflexivity]. Qed.

Lemma nonempty_truthy base : base <> "" -> truthy (JStr base) = true.
Proof. destruct base; [intros H; now elim H | reflexivity]. Qed.

Lemma nonblank_truthy base :
  isEmptyStr (JsString.trim base) = false -> truthy (JStr base) = true.
Proof. destruct base; [discriminate | reflexivity]. Qed.

(** The history log always comes back, and leaves Drive alone. *)
Lemma addRecordToHistorySheet_runs fn fp fu u ff mt w :
  exists w',
    addRecordToHistorySheet fn fp fu u ff mt w = (Normal tt, w') /\ sameDrive w w'.
Proof.
  destruct (total_addRecordToHistorySheet fn fp fu u ff mt w) as [[] E].
  unfold wp in E. apply run_split in E.
  eexists. split; [exact E |].
  exact (@keeps_run _ sameDrive _ _ _ _
           (keeps_addRecordToHistorySheet fn fp fu u ff mt) E).
Qed.

(** A save adds its file behind the files there were. *)
Lemma saved_files logFallback w name mime bytes format mediaType file path w' :
  saved logFallback w name mime bytes format mediaType file path w' ->
  files w' = (files w ++ [file])%list
  /\ driveFileName file = name /\ driveFileMime file = mime
  /\ driveFileContent file = bytes.
Proof.
  intros (target & url & w1 & w3 & E1 & -> & E3 & (_ & Hfl & _) & _).
  apply (@keeps_run _ sameStore _ _ _ _ (keeps_resolveTargetFolder logFallback))
    in E1 as (Hfl1 & _).
  apply (@keeps_run _ sameDrive _ _ _ _
           (keeps_addRecordToHistorySheet _ _ _ _ _ _)) in E3 as (_ & Hfl3 & _).
  cbn [DriveApp.withDrive files] in Hfl3.
  split; [| repeat split]. rewrite Hfl, Hfl3, Hfl1. reflexivity.
Qed.

(** X15.  With a backend that answers, a payload of the data-URL shape whose data
    decode, and a base name that is not blank, the audio save goes through:
    it returns the success record with the message naming the file and the
    folder path and with the identifier, name and link of the new file; the
    file is named by the base name, with [.mp3] appended unless it ends in it
    already, has the declared type and the decoded bytes, and is the one file
    added; the history log is called for it with format MP3 and the audio
    label. *)
Theorem audio_save_goes_through :
  forall (url base mime data : string) (bytes : list Byte.byte) (w : World),
    faults w = [] ->
    Regex.dataUrl url = Some (mime, data) ->
    base64Decode (platform w) data = Some bytes ->
    isEmptyStr (JsString.trim base) = false ->
    let name := if JsString.endsWith (JsString.toLowerCase base) ".mp3"
                then base else base ++ ".mp3" in
    exists file path w',
      saveAudioFile (JStr url) (JStr base) w
      = (Normal (mkResult true
                   ("音声ファイル " ++ dq ++ name ++ dq ++ " をフォルダ「" ++ path
                    ++ "」に保存しました。")
                   (Some (driveFileId file)) (Some name) (Some (driveFileUrl file))),
         w')
      /\ saved true w name mime bytes "MP3" "音声" file path w'
      /\ files w' = (files w ++ [file])%list.
Proof.
  intros url base mime data bytes w Hf Hmatch Hdecode Hbase name.
  assert (Hrun : exists file path w',
             saveAudioFile (JStr url) (JStr base) w
             = (Normal (mkResult true
                          ("音声ファイル " ++ dq ++ name ++ dq ++ " をフォルダ「" ++ path
                           ++ "」に保存しました。")
                          (Some (driveFileId file)) (Some name)
                          (Some (driveFileUrl file))), w')
             /\ saved true w name mime bytes "MP3" "音声" file path w').
  { unfold saveAudioFile, tryCatch.
    rewrite (dataUrl_truthy _ _ Hmatch), (accepted_name _ Hbase).
    cbn [negb orb isString].
    rewrite (bind_run _ (eq_refl : ret tt w = (Normal tt, w))).
    rewrite (bind_run _ (eq_refl : ret tt w = (Normal tt, w))).
    destruct (resolveTargetFolder_reliable true w Hf)
      as ([[target path] turl] & w1 & E1 & Hf1 & Hp1 & _).
    rewrite (bind_run _ E1).
    rewrite jsMatch_string, Hmatch.
    rewrite (bind_run _ (eq_refl : ret _ w1 = (Normal _, w1))).
    rewrite (bind_run _ (eq_refl : stringMethod (JStr base) _ w1 = (Normal base, w1))).
    cbn [toStr]. fold name.
    rewrite <- Hp1 in Hdecode.
    rewrite (bind_run _ (base64Decode_reliable _ _ _ Hdecode)).
    rewrite (bind_run _ (eq_refl : Utilities.newBlob bytes (JStr mime) name w1
                                   = (Normal (mkBlob bytes mime name), w1))).
    rewrite (bind_run _ (createFile_exact target (mkBlob bytes mime name) w1 Hf1)).
    cbn [blobName blobContentType blobData].
    set (file := mkFile (nextId w1) name mime bytes (folderId target)
                        (DriveApp.fileUrlOf (nextId w1))).
    destruct (addRecordToHistorySheet_runs name path turl (driveFileUrl file)
                (JStr "MP3") "音声"
                (DriveApp.withDrive w1 (folders w1) (files w1 ++ [file])
                                    (S (nextId w1))))
      as (w3 & E3 & _).
    rewrite (bind_run _ E3).
    exists file, path. eexists. split; [reflexivity |].
    exists target, turl, w1, w3.
    split; [exact E1 |]. split; [reflexivity |]. split; [exact E3 |].
    split; [repeat split | reflexivity]. }
  destruct Hrun as (file & path & w' & Hrun & Hsaved).
  exists file, path, w'. split; [exact Hrun |]. split; [exact Hsaved |].
  exact (proj1 (saved_files _ _ _ _ _ _ _ _ _ _ Hsaved)).
Qed.

(** Scenario 1: a recording saved into a fresh deployment. *)
Lemma audio_save_witness :
  let w := Sample.fresh "3-A" in
  let name := if JsString.endsWith (JsString.toLowerCase "rec01") ".mp3"
              then "rec01" else "rec01" ++ ".mp3" in
  exists file path w',
    saveAudioFile (JStr "data:audio/mpeg;base64,AAAA") (JStr "rec01") w
    = (Normal (mkResult true
                 ("音声ファイル " ++ dq ++ name ++ dq ++ " をフォルダ「" ++ path
                  ++ "」に保存しました。")
                 (Some (driveFileId file)) (Some name) (Some (driveFileUrl file))),
       w')
    /\ saved true w name "audio/mpeg" [Byte.x00; Byte.x00; Byte.x00] "MP3" "音声"
             file path w'
    /\ files w' = (files w ++ [file])%list.
Proof.
  exact (audio_save_goes_through "data:audio/mpeg;base64,AAAA" "rec01" "audio/mpeg"
           "AAAA" [Byte.x00; Byte.x00; Byte.x00] (Sample.fresh "3-A")
           eq_refl eq_refl eq_refl eq_refl).
Defined.

(** X16.  With a backend that answers, a base name that is a string and not
    empty, an extension that is a string, a payload of the data-URL shape
    whose data decode and a content type that comes out as a string, the
    video save goes through.  The format
    is the given extension when its lower case is mp4 or webm, and webm
    otherwise; the file is named by the base name, a dot and the format in
    lower case and is the one file added; the message shows the format in
    upper case; the history log is called with the format and the video
    label. *)
Theorem video_save_goes_through :
  forall (url base : string) (extension mimeType : JsVal)
         (given detected data mime : string) (bytes : list Byte.byte) (w : World),
    faults w = [] ->
    base <> "" ->
    orDefault extension (JStr "webm") = JStr given ->
    Regex.dataUrl url = Some (detected, data) ->
    jsOr (orDefault mimeType (JStr "video/webm")) (JStr detected) = JStr mime ->
    base64Decode (platform w) data = Some bytes ->
    let format := if inList (JsString.toLowerCase given) ["mp4"; "webm"]
                  then given else "webm" in
    let name := base ++ "." ++ JsString.toLowerCase format in
    exists file path w',
      saveVideoFile (JStr url) (JStr base) extension mimeType w
      = (Normal (mkResult true
                   ("動画ファイル " ++ dq ++ name ++ dq ++ " ("
                    ++ JsString.toUpperCase format ++ "形式) をフォルダ「"
                    ++ path ++ "」に保存しました。")
                   None None None),
         w')
      /\ saved false w name mime bytes format "動画" file path w'
      /\ files w' = (files w ++ [file])%list.
Proof.
  intros url base extension mimeType given detected data mime bytes w
         Hf Hbase Hext Hmatch Hmime Hdecode format name.
  assert (Hrun : exists file path w',
             saveVideoFile (JStr url) (JStr base) extension mimeType w
             = (Normal (mkResult true
                          ("動画ファイル " ++ dq ++ name ++ dq ++ " ("
                           ++ JsString.toUpperCase format ++ "形式) をフォルダ「"
                           ++ path ++ "」に保存しました。")
                          None None None), w')
             /\ saved false w name mime bytes format "動画" file path w').
  { unfold saveVideoFile, tryCatch. rewrite Hext.
    rewrite (dataUrl_truthy _ _ Hmatch), (nonempty_truthy _ Hbase). cbn [negb orb].
    rewrite (bind_run _ (eq_refl : ret tt w = (Normal tt, w))).
    rewrite (bind_run _ (eq_refl : stringMethod (JStr given) _ w = (Normal given, w))).
    assert (Hfmt : (if negb (inList (JsString.toLowerCase given) ["mp4"; "webm"])
                    then JStr "webm" else JStr given) = JStr format).
    { unfold format.
      destruct (inList (JsString.toLowerCase given) ["mp4"; "webm"]); reflexivity. }
    rewrite Hfmt.
    destruct (resolveTargetFolder_reliable false w Hf)
      as ([[target path] turl] & w1 & E1 & Hf1 & Hp1 & _).
    rewrite (bind_run _ E1).
    rewrite jsMatch_string, Hmatch.
    rewrite (bind_run _ (eq_refl : ret _ w1 = (Normal _, w1))).
    rewrite (bind_run _ (eq_refl : stringMethod (JStr format) _ w1
                                   = (Normal format, w1))).
    cbn [toStr]. fold name.
    rewrite <- Hp1 in Hdecode.
    rewrite (bind_run _ (base64Decode_reliable _ _ _ Hdecode)).
    rewrite Hmime.
    rewrite (bind_run _ (eq_refl : Utilities.newBlob bytes (JStr mime) name w1
                                   = (Normal (mkBlob bytes mime name), w1))).
    rewrite (bind_run _ (createFile_exact target (mkBlob bytes mime name) w1 Hf1)).
    cbn [blobName blobContentType blobData].
    set (file := mkFile (nextId w1) name mime bytes (folderId target)
                        (DriveApp.fileUrlOf (nextId w1))).
    destruct (addRecordToHistorySheet_runs name path turl (driveFileUrl file)
                (JStr format) "動画"
                (DriveApp.withDrive w1 (folders w1) (files w1 ++ [file])
                                    (S (nextId w1))))
      as (w3 & E3 & _).
    rewrite (bind_run _ E3).
    exists file, path, w3. split; [reflexivity |].
    exists target, turl, w1, w3.
    split; [exact E1 |]. split; [reflexivity |]. split; [exact E3 |].
    split; [repeat split | reflexivity]. }
  destruct Hrun as (file & path & w' & Hrun & Hsaved).
  exists file, path, w'. split; [exact Hrun |]. split; [exact Hsaved |].
  exact (proj1 (saved_files _ _ _ _ _ _ _ _ _ _ Hsaved)).
Qed.

(** Scenario 3: the extension MP4 in upper case, the content type given. *)
Lemma video_save_witness :
  let w := Sample.fresh "3-A" in
  let format := if inList (JsString.toLowerCase "MP4") ["mp4"; "webm"]
                then "MP4" else "webm" in
  let name := "clip" ++ "." ++ JsString.toLowerCase format in
  exists file path w',
    saveVideoFile (JStr "data:video/webm;base64,AAAA") (JStr "clip") (JStr "MP4")
                  (JStr "video/mp4") w
    = (Normal (mkResult true
                 ("動画ファイル " ++ dq ++ name ++ dq ++ " ("
                  ++ JsString.toUpperCase format ++ "形式) をフォルダ「"
                  ++ path ++ "」に保存しました。")
                 None None None),
       w')
    /\ saved false w name "video/mp4" [Byte.x00; Byte.x00; Byte.x00] format "動画"
             file path w'
    /\ files w' = (files w ++ [file])%list.
Proof.
  exact (video_save_goes_through "data:video/webm;base64,AAAA" "clip"
           (JStr "MP4") (JStr "video/mp4") "MP4" "video/webm" "AAAA" "video/mp4"
           [Byte.x00; Byte.x00; Byte.x00] (Sample.fresh "3-A")
           eq_refl ltac:(discriminate) eq_refl eq_refl eq_refl eq_refl).
Defined.

(** X17.  With a backend that answers, a base name that is a string and not
    empty, an extension that is a string and a payload of the data-URL shape
    whose data decode, the photo save goes through.  The format is the given
    extension when its lower case
    is jpg, jpeg or png, and jpg otherwise; the file is named by the base
    name, a dot and the format in lower case, has the type the payload
    declares and is the one file added; the format shown in the message and
    handed to the history log is the format in upper case, with JPG in place
    of JPEG. *)
Theorem photo_save_goes_through :
  forall (url base : string) (extension : JsVal)
         (given detected data : string) (bytes : list Byte.byte) (w : World),
    faults w = [] ->
    base <> "" ->
    orDefault extension (JStr "jpg") = JStr given ->
    Regex.dataUrl url = Some (detected, data) ->
    base64Decode (platform w) data = Some bytes ->
    let format := if inList (JsString.toLowerCase given) ["jpg"; "jpeg"; "png"]
                  then given else "jpg" in
    let name := base ++ "." ++ JsString.toLowerCase format in
    let shown := if String.eqb (JsString.toUpperCase format) "JPEG"
                 then "JPG" else JsString.toUpperCase format in
    exists file path w',
      savePhotoFile (JStr url) (JStr base) extension w
      = (Normal (mkResult true
                   ("写真ファイル " ++ dq ++ name ++ dq ++ " (" ++ shown
                    ++ "形式) をフォルダ「" ++ path ++ "」に保存しました。")
                   None None None),
         w')
      /\ saved false w name detected bytes shown "写真" file path w'
      /\ files w' = (files w ++ [file])%list.
Proof.
  intros url base extension given detected data bytes w
         Hf Hbase Hext Hmatch Hdecode format name shown.
  assert (Hrun : exists file path w',
             savePhotoFile (JStr url) (JStr base) extension w
             = (Normal (mkResult true
                          ("写真ファイル " ++ dq ++ name ++ dq ++ " (" ++ shown
                           ++ "形式) をフォルダ「" ++ path ++ "」に保存しました。")
                          None None None), w')
             /\ saved false w name detected bytes shown "写真" file path w').
  { unfold savePhotoFile, tryCatch. rewrite Hext.
    rewrite (dataUrl_truthy _ _ Hmatch), (nonempty_truthy _ Hbase). cbn [negb orb].
    rewrite (bind_run _ (eq_refl : ret tt w = (Normal tt, w))).
    rewrite (bind_run _ (eq_refl : stringMethod (JStr given) _ w = (Normal given, w))).
    assert (Hfmt : (if negb (inList (JsString.toLowerCase given) ["jpg"; "jpeg"; "png"])
                    then JStr "jpg" else JStr given) = JStr format).
    { unfold format.
      destruct (inList (JsString.toLowerCase given) ["jpg"; "jpeg"; "png"]);
        reflexivity. }
    rewrite Hfmt.
    destruct (resolveTargetFolder_reliable false w Hf)
      as ([[target path] turl] & w1 & E1 & Hf1 & Hp1 & _).
    rewrite (bind_run _ E1).
    rewrite jsMatch_string, Hmatch.
    rewrite (bind_run _ (eq_refl : ret _ w1 = (Normal _, w1))).
    rewrite (bind_run _ (eq_refl : stringMethod (JStr format) _ w1
                                   = (Normal format, w1))).
    cbn [toStr]. fold name.
    rewrite <- Hp1 in Hdecode.
    rewrite (bind_run _ (base64Decode_reliable _ _ _ Hdecode)).
    rewrite (bind_run _ (eq_refl : Utilities.newBlob bytes (JStr detected) name w1
                                   = (Normal (mkBlob bytes detected name), w1))).
    rewrite (bind_run _ (createFile_exact target (mkBlob bytes detected name) w1 Hf1)).
    cbn [blobName blobContentType blobData].
    set (file := mkFile (nextId w1) name detected bytes (folderId target)
                        (DriveApp.fileUrlOf (nextId w1))).
    set (w2 := DriveApp.withDrive w1 (folders w1) (files w1 ++ [file])
                                  (S (nextId w1))).
    rewrite (bind_run _ (eq_refl : stringMethod (JStr format) _ w2
                                   = (Normal format, w2))).
    fold shown.
    destruct (addRecordToHistorySheet_runs name path turl (driveFileUrl file)
                (JStr shown) "写真" w2)
      as (w3 & E3 & _).
    rewrite (bind_run _ E3).
    exists file, path, w3. split; [reflexivity |].
    exists target, turl, w1, w3.
    split; [exact E1 |]. split; [reflexivity |]. split; [exact E3 |].
    split; [repeat split | reflexivity]. }
  destruct Hrun as (file & path & w' & Hrun & Hsaved).
  exists file, path, w'. split; [exact Hrun |]. split; [exact Hsaved |].
  exact (proj1 (saved_files _ _ _ _ _ _ _ _ _ _ Hsaved)).
Qed.

(** A photo sent with the extension jpeg: the file is [shot.jpeg], the format
    logged is JPG. *)
Lemma photo_save_witness :
  let w := Sample.fresh "3-A" in
  let format := if inList (JsString.toLowerCase "jpeg") ["jpg"; "jpeg"; "png"]
                then "jpeg" else "jpg" in
  let name := "shot" ++ "." ++ JsString.toLowerCase format in
  let shown := if String.eqb (JsString.toUpperCase format) "JPEG"
               then "JPG" else JsString.toUpperCase format in
  exists file path w',
    savePhotoFile (JStr "data:image/jpeg;base64,AAAA") (JStr "shot") (JStr "jpeg") w
    = (Normal (mkResult true
                 ("写真ファイル " ++ dq ++ name ++ dq ++ " (" ++ shown
                  ++ "形式) をフォルダ「" ++ path ++ "」に保存しました。")
                 None None None),
       w')
    /\ saved false w name "image/jpeg" [Byte.x00; Byte.x00; Byte.x00] shown "写真"
             file path w'
    /\ files w' = (files w ++ [file])%list.
Proof.
  exact (photo_save_goes_through "data:image/jpeg;base64,AAAA" "shot"
           (JStr "jpeg") "jpeg" "image/jpeg" "AAAA"
           [Byte.x00; Byte.x00; Byte.x00] (Sample.fresh "3-A")
           eq_refl ltac:(discriminate) eq_refl eq_refl eq_refl).
Defined.

Lemma saveTextFile_saved textData base w :
  faults w = [] ->
  textData <> "" ->
  isEmptyStr (JsString.trim base) = false ->
  exists file path w',
    saveTextFile (JStr textData) (JStr base) w
    = (Normal (mkResult true
                 ("テキストファイル " ++ dq ++ (base ++ ".txt") ++ dq ++ " をフォルダ「"
                  ++ path ++ "」に保存しました。")
                 None None None), w')
    /\ saved false w (base ++ ".txt") "text/plain" (list_byte_of_string textData)
             "TXT" "テキスト" file path w'.
Proof.
  intros Hf Htext Hbase. set (name := base ++ ".txt").
  unfold saveTextFile, tryCatch.
  assert (Htruthy : truthy (JStr textData) = true)
    by (destruct textData; [now elim Htext | reflexivity]).
  rewrite Htruthy, (accepted_name _ Hbase). cbn [negb orb isString].
  rewrite (bind_run _ (eq_refl : ret tt w = (Normal tt, w))).
  rewrite (bind_run _ (eq_refl : ret tt w = (Normal tt, w))).
  destruct (resolveTargetFolder_reliable false w Hf)
    as ([[target path] turl] & w1 & E1 & Hf1 & Hp1 & _).
  rewrite (bind_run _ E1).
  cbn [toStr]. fold name. unfold DriveApp.createTextFile.
  rewrite (bind_run _ (createFile_exact target
                         (mkBlob (list_byte_of_string textData) "text/plain" name)
                         w1 Hf1)).
  cbn [blobName blobContentType blobData].
  set (file := mkFile (nextId w1) name "text/plain" (list_byte_of_string textData)
                      (folderId target) (DriveApp.fileUrlOf (nextId w1))).
  destruct (addRecordToHistorySheet_runs name path turl (driveFileUrl file)
              (JStr "TXT") "テキスト"
              (DriveApp.withDrive w1 (folders w1) (files w1 ++ [file])
                                  (S (nextId w1))))
    as (w3 & E3 & _).
  rewrite (bind_run _ E3).
  exists file, path, w3. split; [reflexivity |].
  exists target, turl, w1, w3.
  split; [exact E1 |]. split; [reflexivity |]. split; [exact E3 |].
  split; [repeat split | reflexivity].
Qed.

(** X19.  With a backend that answers, a text that is not empty and a base name
    that is not blank, the text save goes through: the one file added is
    named by the base name plus [.txt], has the type [text/plain] and holds
    the bytes of the text; the history log is called with format TXT and the
    text label. *)
Theorem text_save_goes_through :
  forall (textData base : string) (w : World),
    faults w = [] ->
    textData <> "" ->
    isEmptyStr (JsString.trim base) = false ->
    let name := base ++ ".txt" in
    exists file path w',
      saveTextFile (JStr textData) (JStr base) w
      = (Normal (mkResult true
                   ("テキストファイル " ++ dq ++ name ++ dq ++ " をフォルダ「" ++ path
                    ++ "」に保存しました。")
                   None None None),
         w')
      /\ saved false w name "text/plain" (list_byte_of_string textData) "TXT"
               "テキスト" file path w'
      /\ files w' = (files w ++ [file])%list.
Proof.
  intros textData base w Hf Htext Hbase name.
  destruct (saveTextFile_saved textData base w Hf Htext Hbase)
    as (file & path & w' & Hrun & Hsaved).
  exists file, path, w'. split; [exact Hrun |]. split; [exact Hsaved |].
  exact (proj1 (saved_files _ _ _ _ _ _ _ _ _ _ Hsaved)).
Qed.

(** Scenario 5: a memo saved while the sub-folder cell is blank. *)
Lemma text_save_witness :
  let w := Sample.fresh "" in
  let name := "memo" ++ ".txt" in
  exists file path w',
    saveTextFile (JStr "hello") (JStr "memo") w
    = (Normal (mkResult true
                 ("テキストファイル " ++ dq ++ name ++ dq ++ " をフォルダ「" ++ path
                  ++ "」に保存しました。")
                 None None None),
       w')
    /\ saved false w name "text/plain" (list_byte_of_string "hello") "TXT"
             "テキスト" file path w'
    /\ files w' = (files w ++ [file])%list.
Proof.
  apply (text_save_goes_through "hello" "memo" (Sample.fresh ""));
    first [reflexivity | discriminate].
Defined.

(** ** The history sheet stays current *)












(** ** A save from end to end *)





(** ** The drawing save and the two patterns *)

(** X18.  With a backend that answers, a base name that is a string and not
    empty, and a PNG data URL whose data have no line break and decode, the
    drawing save goes through: the
    message names the file and the folder path, the one file added is named
    by the base name plus [.png] with type [image/png], and the history log
    is called with format PNG and the drawing label. *)
Theorem drawing_save_goes_through :
  forall (data base : string) (bytes : list Byte.byte) (w : World),
    faults w = [] ->
    base <> "" ->
    data <> "" ->
    JsString.hasLineTerminator data = false ->
    base64Decode (platform w) data = Some bytes ->
    let name := base ++ ".png" in
    exists file path w',
      saveDrawingFile (JStr ("data:image/png;base64," ++ data)) (JStr base) w
      = (Normal (mkResult true
                   ("お絵かきファイル " ++ dq ++ name ++ dq
                    ++ " (PNG形式) をフォルダ「" ++ path ++ "」に保存しました。")
                   None None None),
         w')
      /\ saved false w name "image/png" bytes "PNG" "お絵かき" file path w'
      /\ files w' = (files w ++ [file])%list.
Proof.
  intros data base bytes w Hf Hbase Hdata Hlt Hdecode name.
  assert (Hrun : exists file path w',
             saveDrawingFile (JStr ("data:image/png;base64," ++ data)) (JStr base) w
             = (Normal (mkResult true
                          ("お絵かきファイル " ++ dq ++ name ++ dq
                           ++ " (PNG形式) をフォルダ「" ++ path ++ "」に保存しました。")
                          None None None), w')
             /\ saved false w name "image/png" bytes "PNG" "お絵かき" file path w').
  { assert (Hurl : truthy (JStr ("data:image/png;base64," ++ data)) = true)
      by reflexivity.
    unfold saveDrawingFile, tryCatch.
    rewrite Hurl, (nonempty_truthy _ Hbase). cbn [negb orb].
    rewrite (bind_run _ (eq_refl : ret tt w = (Normal tt, w))).
    destruct (resolveTargetFolder_reliable false w Hf)
      as ([[target path] turl] & w1 & E1 & Hf1 & Hp1 & _).
    rewrite (bind_run _ E1).
    rewrite jsMatch_string, (pngDataUrl_match _ Hdata Hlt).
    rewrite (bind_run _ (eq_refl : ret _ w1 = (Normal _, w1))).
    cbn [toStr]. fold name.
    rewrite <- Hp1 in Hdecode.
    rewrite (bind_run _ (base64Decode_reliable _ _ _ Hdecode)).
    rewrite (bind_run _ (eq_refl : Utilities.newBlob bytes (JStr "image/png") name w1
                                   = (Normal (mkBlob bytes "image/png" name), w1))).
    rewrite (bind_run _ (createFile_exact target (mkBlob bytes "image/png" name)
                           w1 Hf1)).
    cbn [blobName blobContentType blobData].
    set (file := mkFile (nextId w1) name "image/png" bytes (folderId target)
                        (DriveApp.fileUrlOf (nextId w1))).
    destruct (addRecordToHistorySheet_runs name path turl (driveFileUrl file)
                (JStr "PNG") "お絵かき"
                (DriveApp.withDrive w1 (folders w1) (files w1 ++ [file])
                                    (S (nextId w1))))
      as (w3 & E3 & _).
    rewrite (bind_run _ E3).
    exists file, path, w3. split; [reflexivity |].
    exists target, turl, w1, w3.
    split; [exact E1 |]. split; [reflexivity |]. split; [exact E3 |].
    split; [repeat split | reflexivity]. }
  destruct Hrun as (file & path & w' & Hrun & Hsaved).
  exists file, path, w'. split; [exact Hrun |]. split; [exact Hsaved |].
  exact (proj1 (saved_files _ _ _ _ _ _ _ _ _ _ Hsaved)).
Qed.

Lemma drawing_save_witness :
  let w := Sample.fresh "3-A" in
  let name := "art" ++ ".png" in
  exists file path w',
    saveDrawingFile (JStr ("data:image/png;base64," ++ "AAAA")) (JStr "art") w
    = (Normal (mkResult true
                 ("お絵かきファイル " ++ dq ++ name ++ dq
                  ++ " (PNG形式) をフォルダ「" ++ path ++ "」に保存しました。")
                 None None None),
       w')
    /\ saved false w name "image/png" [Byte.x00; Byte.x00; Byte.x00] "PNG" "お絵かき"
             file path w'
    /\ files w' = (files w ++ [file])%list.
Proof.
  apply (drawing_save_goes_through "AAAA" "art"
           [Byte.x00; Byte.x00; Byte.x00] (Sample.fresh "3-A"));
    first [reflexivity | discriminate].
Defined.

Lemma stripPrefix_prefix p r : JsString.stripPrefix p (p ++ r) = Some r.
Proof.
  induction p as [| a p IH]; simpl; [destruct r; reflexivity |].
  rewrite Ascii.eqb_refl. exact IH.
Qed.



Lemma dataUrl_line_break rest :
  JsString.hasLineTerminator rest = true -> Regex.dataUrl ("data:" ++ rest) = None.
Proof.
  intros Hlt. unfold Regex.dataUrl. rewrite stripPrefix_prefix.
  destruct rest as [| c rest]; [reflexivity |]. rewrite Hlt. reflexivity.
Qed.

Lemma pngDataUrl_line_break rest :
  JsString.hasLineTerminator rest = true -> Regex.pngDataUrl ("data:" ++ rest) = None.
Proof.
  intros Hlt. destruct (Regex.pngDataUrl ("data:" ++ rest)) as [[m d] |] eqn:E;
    [| reflexivity].
  exfalso. destruct (pngDataUrl_shape _ E) as (_ & _ & Hs).
  assert (Hrest : rest = "image/png;base64," ++ d).
  { simpl in Hs. injection Hs as Hs. exact Hs. }
  subst rest. unfold Regex.pngDataUrl in E.
  change ("data:" ++ "image/png;base64," ++ d)
    with ("data:image/png;base64," ++ d) in E.
  rewrite stripPrefix_prefix in E.
  destruct d as [| c d]; [discriminate E |].
  destruct (JsString.hasLineTerminator (String c d)) eqn:Hd; [discriminate E |].
  assert (Hsame : JsString.hasLineTerminator ("image/png;base64," ++ String c d)
                  = JsString.hasLineTerminator (String c d)).
  { destruct d as [| c1 d]; reflexivity. }
  congruence.
Qed.

(** X22.  A line break anywhere behind [data:] makes the payload unacceptable,
    also at its very end: each of the four media handlers hands back its
    failure record, and the files of Drive and every sheet are as before. *)
Theorem line_break_in_payload_is_refused :
  forall (rest : string) (baseFileName extension mimeType : JsVal) (w : World),
    JsString.hasLineTerminator rest = true ->
    wp (saveAudioFile (JStr ("data:" ++ rest)) baseFileName)
       (fun o w' => o = Normal (failure "音声ファイルの保存中にエラーが発生しました。")
                    /\ sameStore w w') w
    /\ wp (saveVideoFile (JStr ("data:" ++ rest)) baseFileName extension mimeType)
       (fun o w' => o = Normal (failure "動画ファイルの保存中にエラーが発生しました。")
                    /\ sameStore w w') w
    /\ wp (savePhotoFile (JStr ("data:" ++ rest)) baseFileName extension)
       (fun o w' => o = Normal (failure "写真ファイルの保存中にエラーが発生しました。")
                    /\ sameStore w w') w
    /\ wp (saveDrawingFile (JStr ("data:" ++ rest)) baseFileName)
       (fun o w' => o = Normal (failure "お絵かきファイルの保存中にエラーが発生しました。")
                    /\ sameStore w w') w.
Proof.
  intros rest baseFileName extension mimeType w Hlt.
  pose proof (dataUrl_line_break rest Hlt) as Hd.
  pose proof (pngDataUrl_line_break rest Hlt) as Hp.
  unfold saveAudioFile, saveVideoFile, savePhotoFile, saveDrawingFile.
  refine (conj _ (conj _ (conj _ _)));
    (apply @tryCatch_fails; [frame |]).
  1-3: repeat fails_step Hd.
  repeat fails_step Hp.
Qed.

(** A payload whose base64 data end in a line feed. *)
Lemma line_break_witness :
  let rest := "audio/mpeg;base64,AAAA" ++ String (Ascii.ascii_of_nat 10) "" in
  let w := Sample.fresh "3-A" in
  wp (saveAudioFile (JStr ("data:" ++ rest)) (JStr "rec01"))
     (fun o w' => o = Normal (failure "音声ファイルの保存中にエラーが発生しました。")
                  /\ sameStore w w') w
  /\ wp (saveVideoFile (JStr ("data:" ++ rest)) (JStr "rec01") JUndefined JUndefined)
     (fun o w' => o = Normal (failure "動画ファイルの保存中にエラーが発生しました。")
                  /\ sameStore w w') w
  /\ wp (savePhotoFile (JStr ("data:" ++ rest)) (JStr "rec01") JUndefined)
     (fun o w' => o = Normal (failure "写真ファイルの保存中にエラーが発生しました。")
                  /\ sameStore w w') w
  /\ wp (saveDrawingFile (JStr ("data:" ++ rest)) (JStr "rec01"))
     (fun o w' => o = Normal (failure "お絵かきファイルの保存中にエラーが発生しました。")
                  /\ sameStore w w') w.
Proof.
  exact (line_break_in_payload_is_refused
           ("audio/mpeg;base64,AAAA" ++ String (Ascii.ascii_of_nat 10) "")
           (JStr "rec01") JUndefined JUndefined (Sample.fresh "3-A") eq_refl).
Defined.


(** ** Logs in a row, and the self-test *)




#[local] Instance sameFiles_frame : Frame sameFiles.
Proof. split; unfold sameFiles; simpl; intuition congruence. Qed.

Lemma keeps_weaken {A} (R R' : World -> World -> Prop) (m : M A) :
  (forall w w', R w w' -> R' w w') -> keeps R m -> keeps R' m.
Proof. intros Hsub Hk w. apply Hsub. exact (Hk w). Qed.

Lemma keeps_files_of_store {A} (m : M A) : keeps sameStore m -> keeps sameFiles m.
Proof. apply keeps_weaken. intros w w' (Hfl & _). exact Hfl. Qed.

Lemma keeps_files_of_drive {A} (m : M A) : keeps sameDrive m -> keeps sameFiles m.
Proof. apply keeps_weaken. intros w w' (_ & Hfl & _). exact Hfl. Qed.

Lemma keeps_files_test : keeps sameFiles test_UnifiedMediaApp.
Proof.
  unfold test_UnifiedMediaApp.
  repeat first
    [ solve [eauto with keeps typeclass_instances]
    | solve [apply keeps_files_of_store; eauto with keeps typeclass_instances]
    | solve [apply keeps_files_of_drive; eauto with keeps typeclass_instances]
    | solve [apply keeps_files_of_drive; apply keeps_addRecordToHistorySheet]
    | keeps_step ].
Qed.

(** X23.  Whatever the backend does, the self-test ends normally and leaves the
    files of Drive as they are: it saves nothing. *)
Theorem self_test_saves_nothing :
  forall w : World,
    wp test_UnifiedMediaApp (fun o w' => o = Normal tt /\ files w' = files w) w.
Proof.
  intros w. unfold wp. split.
  - assert (Ht : total test_UnifiedMediaApp).
    { apply total_tryCatch. intros e. apply total_log. }
    destruct (Ht w) as [[] E]. exact E.
  - exact (keeps_files_test w).
Qed.




(** ** Drive only grows *)

#[local] Instance driveGrows_frame : Frame driveGrows.
Proof.
  split.
  - intros w. split; exists []; rewrite app_nil_r; reflexivity.
  - intros w1 w2 w3 ((a1 & H1) & (b1 & H1')) ((a2 & H2) & (b2 & H2')).
    split; [exists (a1 ++ a2)%list | exists (b1 ++ b2)%list];
      rewrite app_assoc; congruence.
  - intros w l f. split; exists []; rewrite app_nil_r; reflexivity.
Qed.

Lemma keeps_grows_of_drive {A} (m : M A) : keeps sameDrive m -> keeps driveGrows m.
Proof.
  apply keeps_weaken. intros w w' (Hfo & Hfl & _).
  split; exists []; rewrite app_nil_r; assumption.
Qed.

Lemma keeps_grows_createFolder parent name :
  keeps driveGrows (DriveApp.createFolder parent name).
Proof.
  intros w. unfold wp, DriveApp.createFolder, remote, bind, getWorld.
  destruct (faults w) as [| [] rest]; simpl;
    first [ split; [eexists; reflexivity | exists []; rewrite app_nil_r; reflexivity]
          | split; exists []; rewrite app_nil_r; reflexivity ].
Qed.

Lemma keeps_grows_createFile parent blob :
  keeps driveGrows (DriveApp.createFile parent blob).
Proof.
  intros w. unfold wp, DriveApp.createFile, remote, bind, getWorld.
  destruct (faults w) as [| [] rest]; simpl;
    first [ split; [exists []; rewrite app_nil_r; reflexivity | eexists; reflexivity]
          | split; exists []; rewrite app_nil_r; reflexivity ].
Qed.

Ltac grows_auto :=
  repeat first
    [ solve [eauto with keeps typeclass_instances]
    | solve [apply keeps_grows_createFolder]
    | solve [apply keeps_grows_createFile]
    | solve [apply keeps_grows_of_drive; eauto with keeps typeclass_instances]
    | solve [apply keeps_grows_of_drive; apply keeps_addRecordToHistorySheet]
    | keeps_step ].

Lemma keeps_grows_getOrCreateFolderIdByName name parent :
  keeps driveGrows (getOrCreateFolderIdByName name parent).
Proof. unfold getOrCreateFolderIdByName. grows_auto. Qed.

Lemma keeps_grows_resolveTargetFolder logFallback :
  keeps driveGrows (resolveTargetFolder logFallback).
Proof.
  unfold resolveTargetFolder.
  repeat first [ solve [apply keeps_grows_getOrCreateFolderIdByName]
               | solve [eauto with keeps typeclass_instances]
               | keeps_step ].
Qed.

Ltac grows_handler :=
  repeat first
    [ solve [apply keeps_grows_resolveTargetFolder]
    | solve [apply keeps_grows_getOrCreateFolderIdByName]
    | solve [apply keeps_grows_createFile]
    | solve [eauto with keeps typeclass_instances]
    | solve [apply keeps_grows_of_drive; eauto with keeps typeclass_instances]
    | solve [apply keeps_grows_of_drive; apply keeps_addRecordToHistorySheet]
    | keeps_step ].

(** X25.  No entry point of the script removes, replaces or reorders a folder or a
    file of Drive: however a call ends, and whatever the backend does, the
    folders and the files it started with are all there afterwards, followed
    by what was added.  The page request and the reader of the mode settings
    add nothing at all. *)
Theorem drive_only_grows :
  forall (a b c d : JsVal) (StringToNumber : string -> option Z),
    keeps driveGrows (saveAudioFile a b)
    /\ keeps driveGrows (saveVideoFile a b c d)
    /\ keeps driveGrows (savePhotoFile a b c)
    /\ keeps driveGrows (saveDrawingFile a b)
    /\ keeps driveGrows (saveTextFile a b)
    /\ keeps driveGrows test_UnifiedMediaApp
    /\ keeps sameDrive (doGet a)
    /\ keeps sameDrive (getModeSettings StringToNumber).
Proof.
  intros a b c d StringToNumber.
  unfold saveAudioFile, saveVideoFile, savePhotoFile, saveDrawingFile, saveTextFile,
    test_UnifiedMediaApp, DriveApp.createTextFile.
  repeat lazymatch goal with |- _ /\ _ => split end.
  1-6: grows_handler.
  - unfold doGet. keeps_auto.
  - apply keeps_getModeSettings.
Qed.

(** ** Settings that cannot be read *)

Lemma getRootFolder_passes w rest :
  faults w = false :: rest ->
  DriveApp.getRootFolder w = (Normal DriveApp.rootFolder, withSchedule w rest).
Proof.
  intros Hf. unfold DriveApp.getRootFolder.
  rewrite (bind_run _ (remote_passes _ _ _ Hf)). reflexivity.
Qed.

Lemma getFolderById_passes f w rest :
  faults w = false :: rest ->
  wellFormedDrive w = true ->
  In f (folders w) ->
  DriveApp.getFolderById (folderId f) w = (Normal f, withSchedule w rest).
Proof.
  intros Hf Hwf Hin. apply wellFormedDrive_spec in Hwf as (_ & Hnd & Hb).
  unfold DriveApp.getFolderById.
  rewrite (bind_run _ (remote_passes _ _ _ Hf)).
  unfold bind, getWorld.
  destruct (Nat.eqb (folderId f) (folderId DriveApp.rootFolder)) eqn:E.
  - apply Nat.eqb_eq in E. specialize (Hb f Hin). simpl in E. lia.
  - change (folders (withSchedule w rest)) with (folders w).
    rewrite (find_unique _ _ Hnd Hin). reflexivity.
Qed.

Lemma getSubFolderNameFromSheet_unreachable w rest :
  faults w = true :: rest ->
  getSubFolderNameFromSheet w
  = (Normal None,
     withLog (withSchedule w rest)
             (logger w ++ ["スプレッドシートからのサブフォルダ名取得エラー: "
                           ++ errToString (serviceError "SpreadsheetApp.openById")])).
Proof.
  intros Hf. unfold getSubFolderNameFromSheet, tryCatch, SpreadsheetApp.openById.
  rewrite (bind_throws _ (remote_fails _ _ _ Hf)). reflexivity.
Qed.

(** X7.  A spreadsheet that cannot be opened does not stop a save from finding its
    folder.  With a well-formed Drive that holds the parent folder, and a
    backend that answers the three Drive calls and then fails on opening the
    spreadsheet, the folder resolution ends normally with the parent folder
    as the target and its name as the path text, whatever cell B1 holds;
    Drive and the spreadsheet are as before. *)
Theorem unreadable_settings_fall_back_to_parent :
  forall (logFallback : bool) (w : World) (parent : Folder) (others : list Folder)
         (rest : list bool),
    wellFormedDrive w = true ->
    faults w = false :: false :: false :: true :: rest ->
    filter (DriveApp.isChildNamed DriveApp.rootFolder PARENT_FOLDER_NAME) (folders w)
    = parent :: others ->
    exists w',
      resolveTargetFolder logFallback w
      = (Normal (parent, folderName parent, folderUrl parent), w')
      /\ sameData w w'
      /\ faults w' = rest.
Proof.
  intros logFallback w parent others rest Hwf Hf Hfound.
  assert (Hin : In parent (folders w)).
  { apply (proj1 (filter_In (DriveApp.isChildNamed DriveApp.rootFolder
                               PARENT_FOLDER_NAME) parent (folders w))).
    rewrite Hfound. left. reflexivity. }
  assert (E1 : getOrCreateFolderIdByName (JStr PARENT_FOLDER_NAME) None w
               = (Normal (folderId parent),
                  withSchedule w (false :: true :: rest))).
  { unfold getOrCreateFolderIdByName.
    rewrite (bind_run _ (getRootFolder_passes w _ Hf)).
    rewrite (accepted_name PARENT_FOLDER_NAME eq_refl). simpl toStr.
    rewrite (bind_run _ (getFoldersByName_passes DriveApp.rootFolder
                           PARENT_FOLDER_NAME
                           (withSchedule w (false :: false :: true :: rest))
                           (false :: true :: rest) eq_refl)).
    change (folders (withSchedule w (false :: false :: true :: rest)))
      with (folders w).
    rewrite Hfound. reflexivity. }
  unfold resolveTargetFolder.
  rewrite (bind_run _ E1).
  rewrite (bind_run _ (getFolderById_passes parent
                         (withSchedule w (false :: true :: rest)) (true :: rest)
                         eq_refl Hwf Hin)).
  rewrite (bind_run _ (getSubFolderNameFromSheet_unreachable
                         (withSchedule (withSchedule w (false :: true :: rest))
                                       (true :: rest))
                         rest eq_refl)).
  destruct logFallback; eexists; (split; [reflexivity |]); split;
    first [reflexivity | repeat split].
Qed.

(** The parent folder in place, the class 3-A configured, and the
    spreadsheet out of reach at the fourth call. *)
Lemma unreadable_settings_witness :
  let parent := mkFolder 1 PARENT_FOLDER_NAME (DriveApp.folderUrlOf 1) 0 in
  let w := mkWorld [parent] [] 2
             [(SUBFOLDER_SHEET_NAME, Sample.settingsSheet "3-A" [CNum 1])] []
             [false; false; false; true] Sample.stdPlatform in
  exists w',
    resolveTargetFolder true w
    = (Normal (parent, folderName parent, folderUrl parent), w')
    /\ sameData w w'
    /\ faults w' = [].
Proof.
  exact (unreadable_settings_fall_back_to_parent true
           (mkWorld [mkFolder 1 PARENT_FOLDER_NAME (DriveApp.folderUrlOf 1) 0] [] 2
              [(SUBFOLDER_SHEET_NAME, Sample.settingsSheet "3-A" [CNum 1])] []
              [false; false; false; true] Sample.stdPlatform)
           (mkFolder 1 PARENT_FOLDER_NAME (DriveApp.folderUrlOf 1) 0) [] []
           eq_refl eq_refl eq_refl).
Defined.

(** ** Refused arguments *)

(** A text of white space only is no data URL. *)
Lemma blank_is_no_data_url s : JsString.trim s = "" -> ~ DataUrlShape s.
Proof.
  intros Ht (mime & data & _ & _ & E). subst s.
  change ("data:" ++ mime ++ ";base64," ++ data)
    with (String "d" ("ata:" ++ mime ++ ";base64," ++ data)) in Ht.
  revert Ht. apply trim_of_unstripped.
  destruct ("ata:" ++ mime ++ ";base64," ++ data) as [| b [| c r]]; reflexivity.
Qed.

(** The claim as first stated has every handler refuse a payload of white
    space only; [saveTextFile] saves a text of three spaces under the name
    [memo.txt]. *)
Lemma blank_text_counterexample :
  ~ (forall payload baseFileName extension mimeType w,
        refusedName payload \/ refusedName baseFileName ->
        let refuses generic (m : M SaveResult) :=
          wp m (fun o w' => o = Normal (failure generic) /\ files w' = files w) w in
        refuses "音声ファイルの保存中にエラーが発生しました。"
                (saveAudioFile payload baseFileName)
        /\ refuses "動画ファイルの保存中にエラーが発生しました。"
                   (saveVideoFile payload baseFileName extension mimeType)
        /\ refuses "写真ファイルの保存中にエラーが発生しました。"
                   (savePhotoFile payload baseFileName extension)
        /\ refuses "お絵かきファイルの保存中にエラーが発生しました。"
                   (saveDrawingFile payload baseFileName)
        /\ refuses "テキストファイルの保存中にエラーが発生しました。"
                   (saveTextFile payload baseFileName)).
Proof.
  intros H.
  destruct (H (JStr "   ") (JStr "memo") JUndefined JUndefined (Sample.fresh "3-A"))
    as (_ & _ & _ & _ & Hfail & _).
  - left. right. exists "   ". split; reflexivity.
  - vm_compute in Hfail. discriminate Hfail.
Qed.

(** C2, amended.  Every handler hands back its failure record, with files
    and sheets untouched, when the payload is not a non-empty string; the
    four media handlers do so as well when the payload is white space only.
    [saveAudioFile] and [saveTextFile] do so when the base name is not a
    string, is empty, or is white space only.  For [saveVideoFile],
    [savePhotoFile] and [saveDrawingFile] the theorem covers the base names
    that are missing, null, false, zero, NaN or the empty string, and says
    nothing about any other base name. *)
Theorem refused_arguments_fail :
  forall (payload baseFileName extension mimeType : JsVal) (w : World),
    let refuses generic (m : M SaveResult) :=
      wp m (fun o w' => o = Normal (failure generic) /\ sameStore w w') w in
    (refusedName payload \/ refusedName baseFileName ->
     refuses "音声ファイルの保存中にエラーが発生しました。"
             (saveAudioFile payload baseFileName))
    /\ (truthy payload = false \/ isString payload = false
         \/ refusedName baseFileName ->
        refuses "テキストファイルの保存中にエラーが発生しました。"
                (saveTextFile payload baseFileName))
    /\ (refusedName payload \/ truthy baseFileName = false ->
        refuses "動画ファイルの保存中にエラーが発生しました。"
                (saveVideoFile payload baseFileName extension mimeType)
        /\ refuses "写真ファイルの保存中にエラーが発生しました。"
                (savePhotoFile payload baseFileName extension)
        /\ refuses "お絵かきファイルの保存中にエラーが発生しました。"
                (saveDrawingFile payload baseFileName)).
Proof.
  intros payload baseFileName extension mimeType w refuses. subst refuses.
  unfold saveAudioFile, saveTextFile, saveVideoFile, savePhotoFile, saveDrawingFile.
  split; [| split].
  - intros [[Hs | (s & -> & Ht)] | Hb]; (apply @tryCatch_fails; [frame |]).
    + apply @fails_guard; [frame | apply not_a_nonempty_string; auto].
    + pose proof (malformed_dataUrl (blank_is_no_data_url s Ht)) as Hd.
      repeat fails_step Hd.
    + apply @fails_bind_r; [frame | solve [keeps_auto] | intros].
      apply @fails_guard; [frame | apply refused_name; exact Hb].
  - intros [Hp | [Hp | Hb]]; (apply @tryCatch_fails; [frame |]).
    + apply @fails_guard; [frame | apply not_a_nonempty_string; auto].
    + apply @fails_guard; [frame | apply not_a_nonempty_string; auto].
    + apply @fails_bind_r; [frame | solve [keeps_auto] | intros].
      apply @fails_guard; [frame | apply refused_name; exact Hb].
  - intros [[Hs | (s & -> & Ht)] | Hb].
    + refine (conj _ (conj _ _)); (apply @tryCatch_fails; [frame |]);
        destruct payload; try discriminate Hs; repeat fails_step I.
    + pose proof (malformed_dataUrl (blank_is_no_data_url s Ht)) as Hd.
      pose proof (malformed_pngDataUrl (blank_is_no_data_url s Ht)) as Hp.
      refine (conj _ (conj _ _)); (apply @tryCatch_fails; [frame |]).
      1-2: repeat fails_step Hd.
      repeat fails_step Hp.
    + refine (conj _ (conj _ _)); (apply @tryCatch_fails; [frame |]);
        (apply @fails_guard; [frame | rewrite Hb; apply orb_true_r]).
Qed.

(** A payload of three spaces sent to the four media handlers, a base name of
    three spaces sent to the audio and the text handler, and an empty base
    name sent to the other three. *)
Lemma refused_arguments_witness :
  let w := Sample.fresh "3-A" in
  let refuses generic (m : M SaveResult) :=
    wp m (fun o w' => o = Normal (failure generic) /\ sameStore w w') w in
  refuses "音声ファイルの保存中にエラーが発生しました。"
          (saveAudioFile (JStr "   ") (JStr "rec01"))
  /\ refuses "音声ファイルの保存中にエラーが発生しました。"
             (saveAudioFile (JStr "data:audio/mp3;base64,AAAA") (JStr "   "))
  /\ refuses "テキストファイルの保存中にエラーが発生しました。"
             (saveTextFile (JStr "hello") (JStr "   "))
  /\ (refuses "動画ファイルの保存中にエラーが発生しました。"
              (saveVideoFile (JStr "   ") (JStr "clip") JUndefined JUndefined)
      /\ refuses "写真ファイルの保存中にエラーが発生しました。"
                 (savePhotoFile (JStr "   ") (JStr "clip") JUndefined)
      /\ refuses "お絵かきファイルの保存中にエラーが発生しました。"
                 (saveDrawingFile (JStr "   ") (JStr "clip")))
  /\ (refuses "動画ファイルの保存中にエラーが発生しました。"
              (saveVideoFile (JStr "data:image/png;base64,AAAA") (JStr "")
                             JUndefined JUndefined)
      /\ refuses "写真ファイルの保存中にエラーが発生しました。"
                 (savePhotoFile (JStr "data:image/png;base64,AAAA") (JStr "")
                                JUndefined)
      /\ refuses "お絵かきファイルの保存中にエラーが発生しました。"
                 (saveDrawingFile (JStr "data:image/png;base64,AAAA") (JStr ""))).
Proof.
  split; [| split; [| split; [| split]]].
  - apply (proj1 (refused_arguments_fail (JStr "   ") (JStr "rec01")
                    JUndefined JUndefined (Sample.fresh "3-A"))).
    left. right. exists "   ". split; reflexivity.
  - apply (proj1 (refused_arguments_fail (JStr "data:audio/mp3;base64,AAAA")
                    (JStr "   ") JUndefined JUndefined (Sample.fresh "3-A"))).
    right. right. exists "   ". split; reflexivity.
  - apply (proj1 (proj2 (refused_arguments_fail (JStr "hello") (JStr "   ")
                           JUndefined JUndefined (Sample.fresh "3-A")))).
    right. right. right. exists "   ". split; reflexivity.
  - apply (proj2 (proj2 (refused_arguments_fail (JStr "   ") (JStr "clip")
                           JUndefined JUndefined (Sample.fresh "3-A")))).
    left. right. exists "   ". split; reflexivity.
  - apply (proj2 (proj2 (refused_arguments_fail (JStr "data:image/png;base64,AAAA")
                           (JStr "") JUndefined JUndefined (Sample.fresh "3-A")))).
    right. reflexivity.
Defined.
